(** * eco3: the client store and the REST handlers, embedded and verified

  The development follows the two tiers of the repository.

  - [Store] embeds the zustand store of the single-page client
    (the store module of the React application): its state slices, the
    actions [login], [register], [logout], [checkAuth], [setPreferences],
    [addNotification] and [markNotificationRead], and what [partialize]
    persists.
  - [Server] embeds the Express server: the Zod schemas of
    [backend/schema.ts], the tables and constraints of [backend/db.sql],
    the authentication middleware, the request handlers for users,
    posts, comments and likes, and the table of routes.

  Tables are finite maps keyed by their primary key; the constraints of
  the schema (column widths, UNIQUE, primary and foreign keys) are checked
  by the statements that write.  A handler is a computation over the
  database that may throw, run inside its [try]/[catch].  What the code
  obtains from its libraries and its runtime (Zod's e-mail and URL
  checks, PostgreSQL's text-to-integer input, ILIKE and ORDER BY, the
  JWT library, date formatting and the process environment) is collected
  in a record [Env] and is a parameter of every handler; the clock and
  the random number of a request are arguments of its handler.

  The definitions come first, the facts about them after. *)

From stdpp Require Import gmap strings list fin_maps.
From Stdlib Require Import ZArith String Ascii DecimalString.

Open Scope string_scope.
Open Scope Z_scope.

(** ** The client store *)

Module Store.

Record User := {
  id : string;
  username : string;
  email : string;
  full_name : option string;
  profile_image_url : option string;
  created_at : string
}.

(** [authToken] is [string | null]; [None] stands for [null] (and for the
    [undefined] a response without the field leaves behind). *)
Record AuthState := {
  currentUser : option User;
  authToken : option string;
  isAuthenticated : bool;
  isLoading : bool;
  errorMessage : option string
}.

Inductive Theme := dark | light.
Inductive UnitSystem := metric | imperial.
Inductive ExportFormat := csv | pdf.

Record Preferences := {
  theme : Theme;
  unitSystem : UnitSystem;
  dataExportFormat : ExportFormat;
  optOutDataSharing : bool
}.

Record Notification := {
  n_id : string;
  message : string;
  read : bool;
  createdAt : string
}.

Record NotificationsState := {
  notifications : list Notification;
  unreadCount : Z
}.

Record AppState := {
  auth : AuthState;
  preferences : Preferences;
  notifs : NotificationsState
}.

(** [self.set (partial)] merges the slices it is given into the state. *)
Definition set_auth (a : AuthState) (s : AppState) : AppState :=
  {| auth := a; preferences := preferences s; notifs := notifs s |}.

Definition set_preferences (p : Preferences) (s : AppState) : AppState :=
  {| auth := auth s; preferences := p; notifs := notifs s |}.

Definition set_notifications (n : NotificationsState) (s : AppState) : AppState :=
  {| auth := auth s; preferences := preferences s; notifs := n |}.

Definition initial_state : AppState :=
  {| auth := {| currentUser := None; authToken := None;
                isAuthenticated := false; isLoading := true;
                errorMessage := None |};
     preferences := {| theme := light; unitSystem := metric;
                       dataExportFormat := csv; optOutDataSharing := false |};
     notifs := {| notifications := []; unreadCount := 0 |} |}.

(** *** Network *)

(** A request the store sends with axios. *)
Record http_call := {
  call_method : string;
  call_url : string;
  call_authorization : option string
}.

(** What [await axios.get (...)] followed by [const { user } = response.data]
    gives: the [user] of the response, or an exception (a rejected promise,
    a non-2xx status), which the [catch] clause receives. *)
Inductive reply :=
| Resolved (user : option User)
| Rejected.

Definition network := http_call -> reply.

(** [!authToken]: [null], [undefined] and the empty string are falsy. *)
Definition falsy (t : option string) : bool :=
  match t with
  | None => true
  | Some EmptyString => true
  | Some _ => false
  end.

Definition verify_call (base token : string) : http_call :=
  {| call_method := "GET";
     call_url := base ++ "/api/auth/verify";
     call_authorization := Some ("Bearer " ++ token) |}.

(** What [await axios.post (...)] followed by
    [const { user, token } = response.data] gives for the login and the
    registration requests. *)
Inductive session_reply :=
| SessionResolved (user : option User) (token : option string)
| SessionRejected.

(** *** Actions *)

(** [login]: the state after the request was answered. *)
Definition login (r : session_reply) (s : AppState) : AppState :=
  let s1 := set_auth {| currentUser := currentUser (auth s);
                        authToken := authToken (auth s);
                        isAuthenticated := isAuthenticated (auth s);
                        isLoading := true;
                        errorMessage := None |} s in
  match r with
  | SessionResolved user token =>
      set_auth {| currentUser := user;
                  authToken := token;
                  isAuthenticated := true;
                  isLoading := false;
                  errorMessage := None |} s1
  | SessionRejected =>
      set_auth {| currentUser := currentUser (auth s1);
                  authToken := authToken (auth s1);
                  isAuthenticated := false;
                  isLoading := false;
                  errorMessage := Some "Login failed" |} s1
  end.

(** [register]: the state after the request was answered. *)
Definition register (r : session_reply) (s : AppState) : AppState :=
  let s1 := set_auth {| currentUser := currentUser (auth s);
                        authToken := authToken (auth s);
                        isAuthenticated := isAuthenticated (auth s);
                        isLoading := true;
                        errorMessage := None |} s in
  match r with
  | SessionResolved user token =>
      set_auth {| currentUser := user;
                  authToken := token;
                  isAuthenticated := true;
                  isLoading := false;
                  errorMessage := None |} s1
  | SessionRejected =>
      set_auth {| currentUser := currentUser (auth s1);
                  authToken := authToken (auth s1);
                  isAuthenticated := isAuthenticated (auth s1);
                  isLoading := false;
                  errorMessage := Some "Registration failed" |} s1
  end.

Definition logout (s : AppState) : AppState :=
  set_auth {| currentUser := None; authToken := None;
              isAuthenticated := false; isLoading := false;
              errorMessage := None |} s.

(** [checkAuth]: returns the state committed and the requests sent.
    [base] is [import.meta.env.VITE_API_BASE_URL || 'http://localhost:3000']. *)
Definition checkAuth (base : string) (net : network) (s : AppState)
  : AppState * list http_call :=
  let authToken0 := authToken (auth s) in
  if falsy authToken0 then
    (set_auth {| currentUser := currentUser (auth s);
                 authToken := authToken (auth s);
                 isAuthenticated := isAuthenticated (auth s);
                 isLoading := false;
                 errorMessage := errorMessage (auth s) |} s, [])
  else
    let call := verify_call base (default "" authToken0) in
    match net call with
    | Resolved user =>
        (set_auth {| currentUser := user;
                     authToken := authToken (auth s);
                     isAuthenticated := true;
                     isLoading := false;
                     errorMessage := None |} s, [call])
    | Rejected =>
        (set_auth {| currentUser := None;
                     authToken := None;
                     isAuthenticated := false;
                     isLoading := false;
                     errorMessage := Some "Token invalid" |} s, [call])
    end.

Definition setPreferences (prefs : Preferences) (s : AppState) : AppState :=
  set_preferences prefs s.

(** [unreadCount] is a JavaScript number; it is kept as an integer here,
    which is what the number is for every count below 2^53. *)
Definition addNotification (notification : Notification) (s : AppState) : AppState :=
  set_notifications
    {| notifications := notifications (notifs s) ++ [notification];
       unreadCount := unreadCount (notifs s) + 1 |} s.

Definition mark (id0 : string) (n : Notification) : Notification :=
  if String.eqb (n_id n) id0
  then {| n_id := n_id n; message := message n; read := true;
          createdAt := createdAt n |}
  else n.

Definition markNotificationRead (id0 : string) (s : AppState) : AppState :=
  set_notifications
    {| notifications := map (mark id0) (notifications (notifs s));
       unreadCount :=
         Z.of_nat (List.length (List.filter (fun n => negb (read n))
                                       (notifications (notifs s)))) |} s.

(** *** The invariant of the notification slice *)

Definition unread (l : list Notification) : Z :=
  Z.of_nat (List.length (List.filter (fun n => negb (read n)) l)).

Definition count_consistent (s : AppState) : Prop :=
  unreadCount (notifs s) = unread (notifications (notifs s)).

Definition note (i : string) (r : bool) : Notification :=
  {| n_id := i; message := "Challenge completed"; read := r;
     createdAt := "2024-01-01T00:00:00.000Z" |}.

(** A store that holds one unread notification, consistently counted. *)
Definition one_unread : AppState :=
  set_notifications {| notifications := [note "n1" false]; unreadCount := 1 |}
                    initial_state.

(** *** Persistence *)

(** What [partialize] hands to the [persist] middleware. *)
Record Persisted := {
  persisted_auth : AuthState;
  persisted_preferences : Preferences
}.

Definition partialize (state : AppState) : Persisted :=
  {| persisted_auth :=
       {| currentUser := currentUser (auth state);
          authToken := authToken (auth state);
          isAuthenticated := isAuthenticated (auth state);
          isLoading := false;
          errorMessage := None |};
     persisted_preferences := preferences state |}.


(** *** The states of the store *)








End Store.

(** ** The server *)

Module Server.

#[local] Set Warnings "-register-all".

(** *** Strings

    A string is a sequence of code units below 256 (Latin-1), on which
    [toLowerCase] and [trim] are those of JavaScript. *)

Definition is_space (c : ascii) : bool :=
  let n := N_of_ascii c in
  ((9 <=? n) && (n <=? 13) || (n =? 32) || (n =? 160))%N.

Definition lower_char (c : ascii) : ascii :=
  let n := N_of_ascii c in
  if ((65 <=? n) && (n <=? 90)
      || (192 <=? n) && (n <=? 222) && negb (n =? 215))%N
  then ascii_of_N (n + 32)
  else c.

Fixpoint toLowerCase (s : string) : string :=
  match s with
  | EmptyString => EmptyString
  | String c s' => String (lower_char c) (toLowerCase s')
  end.

Fixpoint trimStart (s : string) : string :=
  match s with
  | EmptyString => EmptyString
  | String c s' => if is_space c then trimStart s' else s
  end.

Fixpoint trimEnd (s : string) : string :=
  match s with
  | EmptyString => EmptyString
  | String c s' =>
      match trimEnd s' with
      | EmptyString => if is_space c then EmptyString else String c EmptyString
      | t => String c t
      end
  end.

Definition trim (s : string) : string := trimEnd (trimStart s).

(** [str.split (sep)] for a one-character separator. *)
Fixpoint split (sep : ascii) (s : string) : list string :=
  match s with
  | EmptyString => [EmptyString]
  | String c s' =>
      if Ascii.eqb c sep then EmptyString :: split sep s'
      else match split sep s' with
           | [] => [String c EmptyString]
           | w :: ws => String c w :: ws
           end
  end.

Fixpoint startsWith (p s : string) : bool :=
  match p, s with
  | EmptyString, _ => true
  | String a p', String b s' => Ascii.eqb a b && startsWith p' s'
  | String _ _, EmptyString => false
  end.

(** [n.toString ()] of an integer. *)
Definition string_of_Z (n : Z) : string := NilZero.string_of_int (Z.to_int n).

(** *** JavaScript values and JSON *)

Inductive jsval :=
| JUndefined
| JNull
| JBool (b : bool)
| JNum (n : Z)
| JStr (s : string)
| JArr (items : list jsval)
| JObj (props : list (string * jsval)).

Fixpoint assoc (k : string) (l : list (string * jsval)) : jsval :=
  match l with
  | [] => JUndefined
  | (k', v) :: l' => if String.eqb k k' then v else assoc k l'
  end.

(** [v.k], for a [v] that is neither [null] nor [undefined]. *)
Definition prop (k : string) (v : jsval) : jsval :=
  match v with
  | JObj l => assoc k l
  | _ => JUndefined
  end.

Definition is_undefined (v : jsval) : bool :=
  match v with
  | JUndefined => true
  | _ => false
  end.

Definition truthy (v : jsval) : bool :=
  match v with
  | JUndefined | JNull => false
  | JBool b => b
  | JNum n => negb (Z.eqb n 0)
  | JStr s => negb (String.eqb s "")
  | JArr _ | JObj _ => true
  end.

Definition js_option (o : option string) : jsval :=
  match o with
  | Some s => JStr s
  | None => JNull
  end.

(** The values JSON has: what [JSON.stringify] writes. *)
Inductive json :=
| Jnull
| Jbool (b : bool)
| Jnum (n : Z)
| Jstr (s : string)
| Jarr (items : list json)
| Jobj (members : list (string * json)).

(** [JSON.stringify]: a property whose value is [undefined] is left out,
    an [undefined] array element is written [null]. *)
Fixpoint stringify (v : jsval) : option json :=
  match v with
  | JUndefined => None
  | JNull => Some Jnull
  | JBool b => Some (Jbool b)
  | JNum n => Some (Jnum n)
  | JStr s => Some (Jstr s)
  | JArr l => Some (Jarr (List.map (fun x => default Jnull (stringify x)) l))
  | JObj l =>
      Some (Jobj (List.flat_map
                    (fun kv => match stringify (snd kv) with
                               | Some j => [(fst kv, j)]
                               | None => []
                               end) l))
  end.

(** Does the key [k] occur anywhere in the document? *)
Fixpoint has_key (k : string) (j : json) : bool :=
  match j with
  | Jarr l => List.existsb (has_key k) l
  | Jobj l => List.existsb (fun kv => String.eqb k (fst kv) || has_key k (snd kv)) l
  | _ => false
  end.

Definition member (k : string) (j : json) : option json :=
  match j with
  | Jobj l => snd <$> List.find (fun kv => String.eqb k (fst kv)) l
  | _ => None
  end.

(** *** Responses *)

Record response := {
  status : Z;
  body : option json
}.

(** [res.status (code).json (v)] *)
Definition res_json (code : Z) (v : jsval) : response :=
  {| status := code; body := stringify v |}.

(** [res.status (code).send ()] *)
Definition res_send (code : Z) : response :=
  {| status := code; body := None |}.

Definition error_code (r : response) : option json :=
  b ← body r; member "error_code" b.

(** *** Errors and the environment *)

Record js_error := {
  err_name : string;
  err_message : string;
  err_stack : string
}.

Inductive sort_column := by_username | by_email | by_full_name | by_created_at.
Inductive sort_direction := asc | desc.

(** The row [SELECT id, username, email, full_name, profile_image_url,
    created_at] returns. *)
Record public_user := {
  pu_id : Z;
  pu_username : string;
  pu_email : string;
  pu_full_name : option string;
  pu_profile_image_url : option string;
  pu_created_at : option Z
}.

(** What the server takes from its libraries, from PostgreSQL and from its
    process environment. *)
Record Env := {
  (** Zod's [.email ()] and [.url ()] *)
  is_email : string -> bool;
  is_url : string -> bool;
  (** PostgreSQL reading a text parameter as an [INTEGER] *)
  pg_int4 : string -> option Z;
  (** [value ILIKE pattern] *)
  pg_ilike : string -> string -> bool;
  (** [ORDER BY column direction] on the rows selected *)
  pg_order_by : sort_column -> sort_direction -> list public_user -> list public_user;
  (** [jwt.sign (payload, secret, { expiresIn : '7d' })] at a time, and
      [jwt.verify (token, secret)] at a time: the decoded payload, or the
      name of the error thrown ([JsonWebTokenError], [TokenExpiredError],
      [NotBeforeError]) *)
  jwt_sign : jsval -> string -> Z -> string;
  jwt_verify : string -> string -> Z -> option jsval;
  jwt_error : string -> string -> Z -> string;
  (** [date.toISOString ()] *)
  iso_string : Z -> string;
  (** the text of the errors the libraries throw, by error name *)
  lib_message : string -> string;
  lib_stack : string -> string;
  (** a file of that path under [public/] *)
  static_file : string -> bool;
  JWT_SECRET : string;
  NODE_ENV : option string
}.

Definition thrown (E : Env) (name : string) : js_error :=
  {| err_name := name; err_message := lib_message E name;
     err_stack := lib_stack E name |}.

Definition development (E : Env) : bool :=
  match NODE_ENV E with
  | Some s => String.eqb s "development"
  | None => false
  end.

(** [createErrorResponse (message, error = null, errorCode = null)] *)
Definition createErrorResponse (E : Env) (now : Z) (msg : string)
    (error : option js_error) (errorCode : option string) : jsval :=
  JObj ([("success", JBool false);
         ("message", JStr msg);
         ("timestamp", JStr (iso_string E now))]
        ++ match errorCode with
           | Some c => if String.eqb c "" then [] else [("error_code", JStr c)]
           | None => []
           end
        ++ match error with
           | Some e =>
               if development E
               then [("details", JObj [("name", JStr (err_name e));
                                       ("message", JStr (err_message e));
                                       ("stack", JStr (err_stack e))])]
               else []
           | None => []
           end).

(** *** Zod schemas ([backend/schema.ts])

    A schema is a function from the value parsed to the validated value;
    [None] is the [ZodError] that [parse] throws. *)

(** Chaining of checks, as in [z.string ().min (1).max (50)]. *)
Definition and_then {A B} (o : option A) (f : A -> option B) : option B :=
  match o with
  | Some a => f a
  | None => None
  end.

Infix "|>" := and_then (at level 50, left associativity).

Definition z_string (v : jsval) : option string :=
  match v with
  | JStr s => Some s
  | _ => None
  end.

Definition z_number (v : jsval) : option Z :=
  match v with
  | JNum n => Some n
  | _ => None
  end.

Definition z_min (n : nat) (s : string) : option string :=
  if (n <=? String.length s)%nat then Some s else None.

Definition z_max (n : nat) (s : string) : option string :=
  if (String.length s <=? n)%nat then Some s else None.

Definition z_refine {A} (p : A -> bool) (a : A) : option A :=
  if p a then Some a else None.

Definition z_optional {A} (schema : jsval -> option A) (v : jsval) : option (option A) :=
  match v with
  | JUndefined => Some None
  | _ => Some <$> schema v
  end.

Definition z_nullable {A} (schema : jsval -> option A) (v : jsval) : option (option A) :=
  match v with
  | JNull => Some None
  | _ => Some <$> schema v
  end.

Definition z_default {A} (schema : jsval -> option A) (d : A) (v : jsval) : option A :=
  match v with
  | JUndefined => Some d
  | _ => schema v
  end.

Definition z_enum {A} (cases : list (string * A)) (v : jsval) : option A :=
  s ← z_string v;
  snd <$> List.find (fun c => String.eqb s (fst c)) cases.

(** [z.object ({...})] accepts objects only. *)
Definition z_object (v : jsval) : option jsval :=
  match v with
  | JObj _ => Some v
  | _ => None
  end.

Record CreateUserInput := {
  in_username : string;
  in_email : string;
  in_password_hash : string;
  in_full_name : option (option string);
  in_profile_image_url : option string
}.

Definition createUserInputSchema (E : Env) (v : jsval) : option CreateUserInput :=
  o ← z_object v;
  username ← z_string (prop "username" o) |> z_min 1 |> z_max 50;
  email ← z_string (prop "email" o) |> z_min 1 |> z_max 100 |> z_refine (is_email E);
  password_hash ← z_string (prop "password_hash" o) |> z_min 8;
  full_name ← z_optional (z_nullable (fun x => z_string x |> z_max 100))
                         (prop "full_name" o);
  profile_image_url ← z_optional (fun x => z_string x |> z_refine (is_url E))
                                 (prop "profile_image_url" o);
  Some {| in_username := username; in_email := email;
          in_password_hash := password_hash; in_full_name := full_name;
          in_profile_image_url := profile_image_url |}.

Record UpdateUserInput := {
  up_username : option string;
  up_email : option string;
  up_password_hash : option string;
  up_full_name : option (option string);
  up_profile_image_url : option string
}.

Definition updateUserInputSchema (E : Env) (v : jsval) : option UpdateUserInput :=
  o ← z_object v;
  username ← z_optional (fun x => z_string x |> z_min 1 |> z_max 50)
                        (prop "username" o);
  email ← z_optional (fun x => z_string x |> z_min 1 |> z_max 100
                                |> z_refine (is_email E))
                     (prop "email" o);
  password_hash ← z_optional (fun x => z_string x |> z_min 8)
                             (prop "password_hash" o);
  full_name ← z_optional (z_nullable (fun x => z_string x |> z_max 100))
                         (prop "full_name" o);
  profile_image_url ← z_optional (fun x => z_string x |> z_refine (is_url E))
                                 (prop "profile_image_url" o);
  Some {| up_username := username; up_email := email;
          up_password_hash := password_hash; up_full_name := full_name;
          up_profile_image_url := profile_image_url |}.

Record SearchUserInput := {
  s_query : option string;
  s_limit : Z;
  s_offset : Z;
  s_sort_by : sort_column;
  s_sort_order : sort_direction
}.

Definition searchUserInputSchema (v : jsval) : option SearchUserInput :=
  o ← z_object v;
  query ← z_optional z_string (prop "query" o);
  limit ← z_default (fun x => z_number x |> z_refine (Z.ltb 0)) 10 (prop "limit" o);
  offset ← z_default (fun x => z_number x |> z_refine (Z.leb 0)) 0 (prop "offset" o);
  sort_by ← z_default (z_enum [("username", by_username); ("email", by_email);
                               ("full_name", by_full_name);
                               ("created_at", by_created_at)])
                      by_created_at (prop "sort_by" o);
  sort_order ← z_default (z_enum [("asc", asc); ("desc", desc)]) desc
                         (prop "sort_order" o);
  Some {| s_query := query; s_limit := limit; s_offset := offset;
          s_sort_by := sort_by; s_sort_order := sort_order |}.

Record UpdatePostInput := {
  up_user_id : option string;
  up_title : option string;
  up_content : option (option string);
  up_image_url : option string
}.

Definition updatePostInputSchema (E : Env) (v : jsval) : option UpdatePostInput :=
  o ← z_object v;
  user_id ← z_optional z_string (prop "user_id" o);
  title ← z_optional (fun x => z_string x |> z_min 1 |> z_max 200)
                     (prop "title" o);
  content ← z_optional (z_nullable z_string) (prop "content" o);
  image_url ← z_optional (fun x => z_string x |> z_refine (is_url E))
                         (prop "image_url" o);
  Some {| up_user_id := user_id; up_title := title; up_content := content;
          up_image_url := image_url |}.

Record CreateLikeInput := {
  in_user_id : string;
  in_post_id : string
}.

Definition createLikeInputSchema (v : jsval) : option CreateLikeInput :=
  o ← z_object v;
  user_id ← z_string (prop "user_id" o);
  post_id ← z_string (prop "post_id" o);
  Some {| in_user_id := user_id; in_post_id := post_id |}.

(** [req.query]: the query-string parser yields strings, arrays and nested
    objects, never a number. *)
Inductive qsval :=
| QStr (s : string)
| QArr (items : list qsval)
| QObj (props : list (string * qsval)).

Fixpoint js_of_qs (q : qsval) : jsval :=
  match q with
  | QStr s => JStr s
  | QArr l => JArr (List.map js_of_qs l)
  | QObj l => JObj (List.map (fun kv => (fst kv, js_of_qs (snd kv))) l)
  end.

Definition query_object (params : list (string * qsval)) : jsval :=
  js_of_qs (QObj params).

(** *** The database ([backend/db.sql])

    Each table is a finite map from its primary key to the other columns;
    nullable columns are options. *)

Record user_row := {
  u_username : string;
  u_email : string;
  u_password_hash : string;
  u_full_name : option string;
  u_profile_image_url : option string;
  u_created_at : option Z
}.

Record post_row := {
  p_user_id : Z;
  p_title : string;
  p_content : option string;
  p_image_url : option string;
  p_created_at : option Z
}.

Record comment_row := {
  c_user_id : Z;
  c_post_id : Z;
  c_content : string;
  c_created_at : option Z
}.

Record like_row := {
  l_created_at : option Z
}.

Record db := {
  users : gmap Z user_row;
  posts : gmap Z post_row;
  comments : gmap Z comment_row;
  likes : gmap (Z * Z) like_row;
  (** the sequence behind [users.id SERIAL]: the value [nextval] gives next *)
  users_id_seq : Z
}.

Definition with_users (f : gmap Z user_row -> gmap Z user_row) (d : db) : db :=
  {| users := f (users d); posts := posts d; comments := comments d;
     likes := likes d; users_id_seq := users_id_seq d |}.

Definition with_posts (f : gmap Z post_row -> gmap Z post_row) (d : db) : db :=
  {| users := users d; posts := f (posts d); comments := comments d;
     likes := likes d; users_id_seq := users_id_seq d |}.

Definition with_likes (f : gmap (Z * Z) like_row -> gmap (Z * Z) like_row) (d : db) : db :=
  {| users := users d; posts := posts d; comments := comments d;
     likes := f (likes d); users_id_seq := users_id_seq d |}.

Definition nextval_users (d : db) : db :=
  {| users := users d; posts := posts d; comments := comments d;
     likes := likes d; users_id_seq := users_id_seq d + 1 |}.

Definition public (id : Z) (r : user_row) : public_user :=
  {| pu_id := id; pu_username := u_username r; pu_email := u_email r;
     pu_full_name := u_full_name r;
     pu_profile_image_url := u_profile_image_url r;
     pu_created_at := u_created_at r |}.

(** Storing into [VARCHAR (n)]: a longer string is an error, unless what
    exceeds [n] characters is only spaces, which are cut off. *)
Fixpoint only_spaces (s : string) : bool :=
  match s with
  | EmptyString => true
  | String c s' => Ascii.eqb c " " && only_spaces s'
  end.

Definition varchar (n : nat) (s : string) : option string :=
  if (String.length s <=? n)%nat then Some s
  else if only_spaces (substring n (String.length s - n) s)
       then Some (substring 0 n s)
       else None.

Definition varchar_null (n : nat) (o : option string) : option (option string) :=
  match o with
  | None => Some None
  | Some s => Some <$> varchar n s
  end.

(** *** Handlers as computations over the database

    A handler body runs queries in sequence; a query may throw. *)

Inductive outcome (A : Type) :=
| Returned (a : A)
| Threw (e : js_error).

Arguments Returned {A} a.
Arguments Threw {A} e.

Definition M (A : Type) : Type := db -> outcome A * db.

Definition ret {A} (a : A) : M A := fun d => (Returned a, d).

Definition throw {A} (e : js_error) : M A := fun d => (Threw e, d).

Definition bind {A B} (m : M A) (k : A -> M B) : M B :=
  fun d =>
    match m d with
    | (Returned a, d') => k a d'
    | (Threw e, d') => (Threw e, d')
    end.

Notation "'let*' x ':=' m 'in' k" := (bind m (fun x => k))
  (at level 10, x name, m at level 100, k at level 200).

(** [try { body } catch (error) { handler }] *)
Definition try_catch (body : M response) (handler : js_error -> response)
  : db -> response * db :=
  fun d =>
    match body d with
    | (Returned r, d') => (r, d')
    | (Threw e, d') => (handler e, d')
    end.

Definition select {A} (f : db -> A) : M A := fun d => (Returned (f d), d).

(** [schema.parse (v)] *)
Definition parse {A} (E : Env) (schema : jsval -> option A) (v : jsval) : M A :=
  match schema v with
  | Some a => ret a
  | None => throw (thrown E "ZodError")
  end.

(** The error a rejected query throws. *)
Definition pg_error (E : Env) : js_error := thrown E "error".

Definition int4 (n : Z) : bool := (-2147483648 <=? n) && (n <=? 2147483647).

(** A query parameter compared with, or stored into, an [INTEGER] column;
    [None] is SQL [NULL]. *)
Definition int_param (E : Env) (v : jsval) : M (option Z) :=
  match v with
  | JUndefined | JNull => ret None
  | JNum n => if int4 n then ret (Some n) else throw (pg_error E)
  | JStr s =>
      match pg_int4 E s with
      | Some n => ret (Some n)
      | None => throw (pg_error E)
      end
  | JBool _ | JArr _ | JObj _ => throw (pg_error E)
  end.

(** [date.toISOString ()] of a column that may be [NULL]. *)
Definition toISOString (E : Env) (t : option Z) : M string :=
  match t with
  | Some t => ret (iso_string E t)
  | None => throw (thrown E "TypeError")
  end.

Definition first_row {A} (E : Env) (rows : list A) : M A :=
  match rows with
  | r :: _ => ret r
  | [] => throw (thrown E "TypeError")
  end.

Fixpoint map_M {A B} (f : A -> M B) (l : list A) : M (list B) :=
  match l with
  | [] => ret []
  | a :: l' =>
      let* b := f a in
      let* bs := map_M f l' in
      ret (b :: bs)
  end.

(** *** Queries *)

Definition by_key {A} (m : gmap Z A) (k : option Z) : list (Z * A) :=
  match k with
  | Some n =>
      match m !! n with
      | Some r => [(n, r)]
      | None => []
      end
  | None => []
  end.

(** [SELECT id FROM users WHERE id = $1] *)
Definition select_user_id (E : Env) (id : jsval) : M (list Z) :=
  let* k := int_param E id in
  select (fun d => fst <$> by_key (users d) k).

(** [SELECT id, username, email, full_name, profile_image_url, created_at
     FROM users WHERE id = $1] *)
Definition select_user (E : Env) (id : jsval) : M (list public_user) :=
  let* k := int_param E id in
  select (fun d => (fun kv => public (fst kv) (snd kv)) <$> by_key (users d) k).

(** [SELECT id FROM users WHERE email = $1 OR username = $2] *)
Definition select_user_taken (email username : string) : M (list Z) :=
  select (fun d =>
            fst <$> map_to_list
                      (filter (fun kv => u_email (snd kv) = email
                                         \/ u_username (snd kv) = username)
                              (users d))).

(** [SELECT * FROM users WHERE email = $1] *)
Definition select_user_by_email (email : string) : M (list (Z * user_row)) :=
  select (fun d => map_to_list (filter (fun kv => u_email (snd kv) = email) (users d))).

Definition username_taken (m : gmap Z user_row) (name : string) : bool :=
  bool_decide (map_Exists (fun _ r => u_username r = name) m).

Definition email_taken (m : gmap Z user_row) (email : string) : bool :=
  bool_decide (map_Exists (fun _ r => u_email r = email) m).

(** [INSERT INTO users (username, email, password_hash, full_name,
     profile_image_url) VALUES ($1, $2, $3, $4, $5) RETURNING id, username,
     email, full_name, profile_image_url, created_at].
    The values are fitted to their columns first: one that is too long is
    refused before the sequence is read.  Then the id is drawn from the
    sequence, which keeps its advance when the primary key or a UNIQUE
    constraint refuses the row. *)
Definition insert_user (E : Env) (now : Z) (username email password_hash : string)
    (full_name : option string) (profile_image_url : string) : M (list public_user) :=
  fun d =>
    let id := users_id_seq d in
    let d1 := nextval_users d in
    match varchar 50 username, varchar 100 email, varchar 255 password_hash,
          varchar_null 100 full_name with
    | Some u, Some e, Some p, Some f =>
        if bool_decide (is_Some (users d !! id))
           || username_taken (users d) u || email_taken (users d) e
        then (Threw (pg_error E), d1)
        else
          let row := {| u_username := u; u_email := e; u_password_hash := p;
                        u_full_name := f;
                        u_profile_image_url := Some profile_image_url;
                        u_created_at := Some now |} in
          (Returned [public id row], with_users (insert id row) d1)
    | _, _, _, _ => (Threw (pg_error E), d)
    end.

(** One [column = $n] of a dynamically built [UPDATE users SET ...]. *)
Inductive user_assignment :=
| SetUsername (v : string)
| SetEmail (v : string)
| SetPasswordHash (v : string)
| SetFullName (v : option string)
| SetProfileImageUrl (v : string).

Definition assign_user (r : user_row) (a : user_assignment) : option user_row :=
  match a with
  | SetUsername v =>
      u ← varchar 50 v;
      Some {| u_username := u; u_email := u_email r;
              u_password_hash := u_password_hash r; u_full_name := u_full_name r;
              u_profile_image_url := u_profile_image_url r;
              u_created_at := u_created_at r |}
  | SetEmail v =>
      e ← varchar 100 v;
      Some {| u_username := u_username r; u_email := e;
              u_password_hash := u_password_hash r; u_full_name := u_full_name r;
              u_profile_image_url := u_profile_image_url r;
              u_created_at := u_created_at r |}
  | SetPasswordHash v =>
      p ← varchar 255 v;
      Some {| u_username := u_username r; u_email := u_email r;
              u_password_hash := p; u_full_name := u_full_name r;
              u_profile_image_url := u_profile_image_url r;
              u_created_at := u_created_at r |}
  | SetFullName v =>
      f ← varchar_null 100 v;
      Some {| u_username := u_username r; u_email := u_email r;
              u_password_hash := u_password_hash r; u_full_name := f;
              u_profile_image_url := u_profile_image_url r;
              u_created_at := u_created_at r |}
  | SetProfileImageUrl v =>
      Some {| u_username := u_username r; u_email := u_email r;
              u_password_hash := u_password_hash r; u_full_name := u_full_name r;
              u_profile_image_url := Some v;
              u_created_at := u_created_at r |}
  end.

Fixpoint assign_users (r : user_row) (l : list user_assignment) : option user_row :=
  match l with
  | [] => Some r
  | a :: l' => r' ← assign_user r a; assign_users r' l'
  end.

(** [UPDATE users SET ... WHERE id = $n RETURNING id, username, email,
     full_name, profile_image_url, created_at] *)
Definition update_users (E : Env) (updateFields : list user_assignment)
    (id : jsval) : M (list public_user) :=
  let* k := int_param E id in
  fun d =>
    match by_key (users d) k with
    | [] => (Returned [], d)
    | (n, r) :: _ =>
        match assign_users r updateFields with
        | Some r' =>
            if username_taken (delete n (users d)) (u_username r')
               || email_taken (delete n (users d)) (u_email r')
            then (Threw (pg_error E), d)
            else (Returned [public n r'], with_users (insert n r') d)
        | None => (Threw (pg_error E), d)
        end
    end.

(** Rows that reference the user: [posts.user_id], [comments.user_id] and
    [likes.user_id] are declared [REFERENCES users (id)], with no
    [ON DELETE] action. *)
Definition user_referenced (d : db) (n : Z) : bool :=
  bool_decide (map_Exists (fun _ p => p_user_id p = n) (posts d))
  || bool_decide (map_Exists (fun _ c => c_user_id c = n) (comments d))
  || bool_decide (map_Exists (fun k _ => fst k = n) (likes d)).

(** [DELETE FROM users WHERE id = $1] *)
Definition delete_users (E : Env) (id : jsval) : M unit :=
  let* k := int_param E id in
  fun d =>
    match by_key (users d) k with
    | [] => (Returned tt, d)
    | (n, _) :: _ =>
        if user_referenced d n then (Threw (pg_error E), d)
        else (Returned tt, with_users (delete n) d)
    end.

(** [SELECT id FROM posts WHERE id = $1] *)
Definition select_post_id (E : Env) (id : jsval) : M (list Z) :=
  let* k := int_param E id in
  select (fun d => fst <$> by_key (posts d) k).

(** One [column = $n] of a dynamically built [UPDATE posts SET ...]. *)
Inductive post_assignment :=
| SetUserId (v : string)
| SetTitle (v : string)
| SetContent (v : option string)
| SetImageUrl (v : string).

(** [user_id] is [INTEGER NOT NULL REFERENCES users (id)]. *)
Definition assign_post (E : Env) (d : db) (r : post_row) (a : post_assignment)
  : option post_row :=
  match a with
  | SetUserId v =>
      n ← pg_int4 E v;
      _ ← users d !! n;
      Some {| p_user_id := n; p_title := p_title r; p_content := p_content r;
              p_image_url := p_image_url r; p_created_at := p_created_at r |}
  | SetTitle v =>
      t ← varchar 200 v;
      Some {| p_user_id := p_user_id r; p_title := t; p_content := p_content r;
              p_image_url := p_image_url r; p_created_at := p_created_at r |}
  | SetContent v =>
      Some {| p_user_id := p_user_id r; p_title := p_title r; p_content := v;
              p_image_url := p_image_url r; p_created_at := p_created_at r |}
  | SetImageUrl v =>
      Some {| p_user_id := p_user_id r; p_title := p_title r;
              p_content := p_content r; p_image_url := Some v;
              p_created_at := p_created_at r |}
  end.

Fixpoint assign_posts (E : Env) (d : db) (r : post_row) (l : list post_assignment)
  : option post_row :=
  match l with
  | [] => Some r
  | a :: l' => r' ← assign_post E d r a; assign_posts E d r' l'
  end.

(** [UPDATE posts SET ... WHERE id = $n RETURNING id, user_id, title,
     content, image_url, created_at] *)
Definition update_posts (E : Env) (updateFields : list post_assignment)
    (id : jsval) : M (list (Z * post_row)) :=
  let* k := int_param E id in
  fun d =>
    match by_key (posts d) k with
    | [] => (Returned [], d)
    | (n, r) :: _ =>
        match assign_posts E d r updateFields with
        | Some r' => (Returned [(n, r')], with_posts (insert n r') d)
        | None => (Threw (pg_error E), d)
        end
    end.

(** [SELECT user_id, post_id FROM likes WHERE user_id = $1 AND post_id = $2] *)
Definition select_like (E : Env) (user_id post_id : jsval) : M (list (Z * Z)) :=
  let* u := int_param E user_id in
  let* p := int_param E post_id in
  select (fun d =>
            match u, p with
            | Some u, Some p =>
                match likes d !! (u, p) with
                | Some _ => [(u, p)]
                | None => []
                end
            | _, _ => []
            end).

(** [INSERT INTO likes (user_id, post_id) VALUES ($1, $2) RETURNING user_id,
     post_id, created_at]: both columns are [NOT NULL] and reference their
     tables, and the pair is the primary key. *)
Definition insert_like (E : Env) (now : Z) (user_id post_id : jsval)
  : M (list (Z * Z * like_row)) :=
  let* u := int_param E user_id in
  let* p := int_param E post_id in
  fun d =>
    match u, p with
    | Some u, Some p =>
        if bool_decide (is_Some (users d !! u))
           && bool_decide (is_Some (posts d !! p))
           && negb (bool_decide (is_Some (likes d !! (u, p))))
        then
          let row := {| l_created_at := Some now |} in
          (Returned [(u, p, row)], with_likes (insert (u, p) row) d)
        else (Threw (pg_error E), d)
    | _, _ => (Threw (pg_error E), d)
    end.

(** [SELECT id, username, email, full_name, profile_image_url, created_at
     FROM users [WHERE (username ILIKE $1 OR email ILIKE $1 OR full_name
     ILIKE $1)] ORDER BY sort_by sort_order LIMIT $2 OFFSET $3] *)
Definition matches (E : Env) (pattern : option string) (u : public_user) : bool :=
  match pattern with
  | None => true
  | Some p =>
      pg_ilike E (pu_username u) p
      || pg_ilike E (pu_email u) p
      || match pu_full_name u with
         | Some f => pg_ilike E f p
         | None => false
         end
  end.

Definition select_users_page (E : Env) (pattern : option string)
    (sort_by : sort_column) (sort_order : sort_direction) (limit offset : Z)
  : M (list public_user) :=
  select (fun d =>
            let rows := (fun kv => public (fst kv) (snd kv)) <$> map_to_list (users d) in
            let found := List.filter (matches E pattern) rows in
            let sorted := pg_order_by E sort_by sort_order found in
            take (Z.to_nat limit) (drop (Z.to_nat offset) sorted)).

(** *** Requests *)

Record request := {
  req_authorization : option string;     (* req.headers['authorization'] *)
  req_params : list (string * string);   (* req.params *)
  req_query : list (string * qsval);     (* req.query *)
  req_body : jsval;                      (* req.body *)
  req_user : option public_user          (* req.user *)
}.

Definition param (k : string) (req : request) : jsval :=
  match List.find (fun kv => String.eqb k (fst kv)) (req_params req) with
  | Some kv => JStr (snd kv)
  | None => JUndefined
  end.

Definition set_user (u : public_user) (req : request) : request :=
  {| req_authorization := req_authorization req; req_params := req_params req;
     req_query := req_query req; req_body := req_body req; req_user := Some u |}.

(** *** The authentication middleware *)

Inductive auth_result :=
| Denied (r : response)
| Next (req : request).

(** [authHeader && authHeader.split (' ')[1]] *)
Definition bearer (authHeader : option string) : option string :=
  match authHeader with
  | Some h => if String.eqb h "" then Some "" else nth_error (split " " h) 1
  | None => None
  end.

Definition authenticateToken (E : Env) (now : Z) (req : request) (d : db)
  : auth_result :=
  match bearer (req_authorization req) with
  | None | Some EmptyString =>
      Denied (res_json 401 (createErrorResponse E now "Access token required"
                              None (Some "AUTH_TOKEN_MISSING")))
  | Some token =>
      match jwt_verify E token (JWT_SECRET E) now with
      | None =>
          Denied (res_json 403 (createErrorResponse E now "Invalid or expired token"
                                  (Some (thrown E (jwt_error E token (JWT_SECRET E) now)))
                                  (Some "AUTH_TOKEN_INVALID")))
      | Some decoded =>
          match select_user E (prop "user_id" decoded) d with
          | (Threw error, _) =>
              Denied (res_json 403 (createErrorResponse E now "Invalid or expired token"
                                      (Some error) (Some "AUTH_TOKEN_INVALID")))
          | (Returned [], _) =>
              Denied (res_json 401 (createErrorResponse E now
                                      "Invalid token - user not found"
                                      None (Some "AUTH_USER_NOT_FOUND")))
          | (Returned (u :: _), _) => Next (set_user u req)
          end
      end
  end.

(** [app.put (path, authenticateToken, handler)] *)
Definition authenticated (E : Env) (now : Z)
    (handler : request -> db -> response * db) (req : request) (d : db)
  : response * db :=
  match authenticateToken E now req d with
  | Denied r => (r, d)
  | Next req' => handler req' d
  end.

(** *** Handlers *)

Definition bad_request (E : Env) (now : Z) (msg code : string) : response :=
  res_json 400 (createErrorResponse E now msg None (Some code)).

Definition internal_error (E : Env) (now : Z) (error : js_error) : response :=
  res_json 500 (createErrorResponse E now "Internal server error" (Some error)
                  (Some "INTERNAL_SERVER_ERROR")).

(** The [catch] clause of the handlers that parse with Zod. *)
Definition catch_zod (E : Env) (now : Z) (error : js_error) : response :=
  if String.eqb (err_name error) "ZodError"
  then res_json 400 (createErrorResponse E now "Validation error" (Some error)
                       (Some "VALIDATION_ERROR"))
  else internal_error E now error.

(** [v?.trim () || null] *)
Definition trim_or_null (v : option string) : option string :=
  match v with
  | Some s => if String.eqb (trim s) "" then None else Some (trim s)
  | None => None
  end.

(** [v || fallback] *)
Definition or_else (v : option string) (fallback : string) : string :=
  match v with
  | Some s => if String.eqb s "" then fallback else s
  | None => fallback
  end.

(** The object every user handler answers with. *)
Definition user_object (user0 : public_user) (created_at : string) : jsval :=
  JObj [("id", JStr (string_of_Z (pu_id user0)));
        ("username", JStr (pu_username user0));
        ("email", JStr (pu_email user0));
        ("password_hash", JUndefined);
        ("full_name", js_option (pu_full_name user0));
        ("profile_image_url", js_option (pu_profile_image_url user0));
        ("created_at", JStr created_at)].

Definition user_json (E : Env) (user0 : public_user) : M jsval :=
  let* created_at := toISOString E (pu_created_at user0) in
  ret (user_object user0 created_at).

Definition token_payload (user0 : public_user) : jsval :=
  JObj [("user_id", JNum (pu_id user0)); ("email", JStr (pu_email user0))].

(** [rnd] is [Math.floor (Math.random () * 1000)]. *)
Definition default_avatar (rnd : Z) : string :=
  "https://picsum.photos/200/300?random=" ++ string_of_Z rnd.

(** [POST /api/auth/register] *)
Definition register (E : Env) (now rnd : Z) (req : request) : db -> response * db :=
  try_catch
    (let* validatedInput := parse E (createUserInputSchema E) (req_body req) in
     let* existingUser :=
       select_user_taken (trim (toLowerCase (in_email validatedInput)))
                         (trim (in_username validatedInput)) in
     if (0 <? List.length existingUser)%nat then
       ret (bad_request E now "User with this email or username already exists"
                        "USER_ALREADY_EXISTS")
     else
       let* result :=
         insert_user E now
           (trim (in_username validatedInput))
           (trim (toLowerCase (in_email validatedInput)))
           (in_password_hash validatedInput)
           (trim_or_null (mjoin (in_full_name validatedInput)))
           (or_else (in_profile_image_url validatedInput) (default_avatar rnd)) in
       let* user0 := first_row E result in
       let auth_token := jwt_sign E (token_payload user0) (JWT_SECRET E) now in
       let* u := user_json E user0 in
       ret (res_json 201 (JObj [("user", u); ("auth_token", JStr auth_token)])))
    (catch_zod E now).

(** [const { email, password_hash } = req.body] *)
Definition destructure (E : Env) (v : jsval) : M jsval :=
  match v with
  | JUndefined | JNull => throw (thrown E "TypeError")
  | _ => ret v
  end.

(** [email.toLowerCase ().trim ()] *)
Definition lower_trim (E : Env) (v : jsval) : M string :=
  match v with
  | JStr s => ret (trim (toLowerCase s))
  | _ => throw (thrown E "TypeError")
  end.

(** [v !== s] for a string [s] *)
Definition differs (v : jsval) (s : string) : bool :=
  match v with
  | JStr s' => negb (String.eqb s' s)
  | _ => true
  end.

(** [POST /api/auth/login] *)
Definition login (E : Env) (now : Z) (req : request) : db -> response * db :=
  try_catch
    (let* b := destructure E (req_body req) in
     let email := prop "email" b in
     let password_hash := prop "password_hash" b in
     if negb (truthy email) || negb (truthy password_hash) then
       ret (bad_request E now "Email and password are required"
                        "MISSING_REQUIRED_FIELDS")
     else
       let* needle := lower_trim E email in
       let* result := select_user_by_email needle in
       match result with
       | [] =>
           ret (res_json 401 (createErrorResponse E now "Invalid email or password"
                                None (Some "INVALID_CREDENTIALS")))
       | (id, row) :: _ =>
           if differs password_hash (u_password_hash row) then
             ret (res_json 401 (createErrorResponse E now "Invalid email or password"
                                  None (Some "INVALID_CREDENTIALS")))
           else
             let auth_token :=
               jwt_sign E (token_payload (public id row)) (JWT_SECRET E) now in
             let* u := user_json E (public id row) in
             ret (res_json 200 (JObj [("user", u); ("auth_token", JStr auth_token)]))
       end)
    (internal_error E now).

(** [GET /api/users] *)
Definition list_users (E : Env) (now : Z) (req : request) : db -> response * db :=
  try_catch
    (let* searchParams := parse E searchUserInputSchema (query_object (req_query req)) in
     let pattern :=
       match s_query searchParams with
       | Some q =>
           if String.eqb q "" || String.eqb (trim q) "" then None
           else Some ("%" ++ trim q ++ "%")
       | None => None
       end in
     let* result :=
       select_users_page E pattern (s_sort_by searchParams)
                         (s_sort_order searchParams)
                         (s_limit searchParams) (s_offset searchParams) in
     let* users0 := map_M (user_json E) result in
     ret (res_json 200 (JArr users0)))
    (catch_zod E now).

(** [POST /api/users] *)
Definition create_user (E : Env) (now rnd : Z) (req : request) : db -> response * db :=
  try_catch
    (let* validatedInput := parse E (createUserInputSchema E) (req_body req) in
     let* existingUser :=
       select_user_taken (trim (toLowerCase (in_email validatedInput)))
                         (trim (in_username validatedInput)) in
     if (0 <? List.length existingUser)%nat then
       ret (bad_request E now "User with this email or username already exists"
                        "USER_ALREADY_EXISTS")
     else
       let* result :=
         insert_user E now
           (trim (in_username validatedInput))
           (trim (toLowerCase (in_email validatedInput)))
           (in_password_hash validatedInput)
           (trim_or_null (mjoin (in_full_name validatedInput)))
           (or_else (in_profile_image_url validatedInput) (default_avatar rnd)) in
       let* user0 := first_row E result in
       let* u := user_json E user0 in
       ret (res_json 201 u))
    (catch_zod E now).

(** [GET /api/users/:user_id] *)
Definition get_user (E : Env) (now : Z) (req : request) : db -> response * db :=
  try_catch
    (let* result := select_user E (param "user_id" req) in
     match result with
     | [] =>
         ret (res_json 404 (createErrorResponse E now "User not found" None
                              (Some "USER_NOT_FOUND")))
     | user0 :: _ =>
         let* u := user_json E user0 in
         ret (res_json 200 u)
     end)
    (internal_error E now).

(** The [updateFields] and [queryParams] that [PUT /api/users/:user_id]
    collects from the fields of the input that are not [undefined]. *)
Definition user_updateFields (validatedInput : UpdateUserInput) : list user_assignment :=
  match up_username validatedInput with
  | Some v => [SetUsername (trim v)]
  | None => []
  end
  ++ match up_email validatedInput with
     | Some v => [SetEmail (trim (toLowerCase v))]
     | None => []
     end
  ++ match up_password_hash validatedInput with
     | Some v => [SetPasswordHash v]
     | None => []
     end
  ++ match up_full_name validatedInput with
     | Some v => [SetFullName (trim_or_null v)]
     | None => []
     end
  ++ match up_profile_image_url validatedInput with
     | Some v => [SetProfileImageUrl v]
     | None => []
     end.

(** [PUT /api/users/:user_id], after [authenticateToken] *)
Definition update_user (E : Env) (now : Z) (req : request) : db -> response * db :=
  try_catch
    (let* validatedInput := parse E (updateUserInputSchema E) (req_body req) in
     let* userCheck := select_user_id E (param "user_id" req) in
     if (List.length userCheck =? 0)%nat then
       ret (res_json 404 (createErrorResponse E now "User not found" None
                            (Some "USER_NOT_FOUND")))
     else
       let updateFields := user_updateFields validatedInput in
       if (List.length updateFields =? 0)%nat then
         ret (bad_request E now "No fields to update" "NO_UPDATE_FIELDS")
       else
         let* result := update_users E updateFields (param "user_id" req) in
         let* user0 := first_row E result in
         let* u := user_json E user0 in
         ret (res_json 200 u))
    (catch_zod E now).

(** [DELETE /api/users/:user_id], after [authenticateToken] *)
Definition delete_user (E : Env) (now : Z) (req : request) : db -> response * db :=
  try_catch
    (let* userCheck := select_user_id E (param "user_id" req) in
     if (List.length userCheck =? 0)%nat then
       ret (res_json 404 (createErrorResponse E now "User not found" None
                            (Some "USER_NOT_FOUND")))
     else
       let* _ := delete_users E (param "user_id" req) in
       ret (res_send 204))
    (internal_error E now).

Definition post_json (E : Env) (post : Z * post_row) : M jsval :=
  let* created_at := toISOString E (p_created_at (snd post)) in
  ret (JObj [("id", JStr (string_of_Z (fst post)));
             ("user_id", JStr (string_of_Z (p_user_id (snd post))));
             ("title", JStr (p_title (snd post)));
             ("content", js_option (p_content (snd post)));
             ("image_url", js_option (p_image_url (snd post)));
             ("created_at", JStr created_at)]).

(** The [updateFields] and [queryParams] of [PUT /api/posts/:post_id]. *)
Definition post_updateFields (validatedInput : UpdatePostInput) : list post_assignment :=
  match up_user_id validatedInput with
  | Some v => [SetUserId v]
  | None => []
  end
  ++ match up_title validatedInput with
     | Some v => [SetTitle (trim v)]
     | None => []
     end
  ++ match up_content validatedInput with
     | Some v => [SetContent (trim_or_null v)]
     | None => []
     end
  ++ match up_image_url validatedInput with
     | Some v => [SetImageUrl v]
     | None => []
     end.

(** [PUT /api/posts/:post_id] *)
Definition update_post (E : Env) (now : Z) (req : request) : db -> response * db :=
  try_catch
    (let* validatedInput := parse E (updatePostInputSchema E) (req_body req) in
     let* postCheck := select_post_id E (param "post_id" req) in
     if (List.length postCheck =? 0)%nat then
       ret (res_json 404 (createErrorResponse E now "Post not found" None
                            (Some "POST_NOT_FOUND")))
     else
       let updateFields := post_updateFields validatedInput in
       if (List.length updateFields =? 0)%nat then
         ret (bad_request E now "No fields to update" "NO_UPDATE_FIELDS")
       else
         let* result := update_posts E updateFields (param "post_id" req) in
         let* post := first_row E result in
         let* p := post_json E post in
         ret (res_json 200 p))
    (catch_zod E now).

(** [POST /api/likes] *)
Definition create_like (E : Env) (now : Z) (req : request) : db -> response * db :=
  try_catch
    (let* validatedInput := parse E createLikeInputSchema (req_body req) in
     let user_id := JStr (in_user_id validatedInput) in
     let post_id := JStr (in_post_id validatedInput) in
     let* userCheck := select_user_id E user_id in
     if (List.length userCheck =? 0)%nat then
       ret (bad_request E now "User not found" "USER_NOT_FOUND")
     else
       let* postCheck := select_post_id E post_id in
       if (List.length postCheck =? 0)%nat then
         ret (bad_request E now "Post not found" "POST_NOT_FOUND")
       else
         let* existingLike := select_like E user_id post_id in
         if (0 <? List.length existingLike)%nat then
           ret (bad_request E now "Like already exists" "LIKE_ALREADY_EXISTS")
         else
           let* result := insert_like E now user_id post_id in
           let* like := first_row E result in
           let* created_at := toISOString E (l_created_at (snd like)) in
           ret (res_json 201
                  (JObj [("user_id", JStr (string_of_Z (fst (fst like))));
                         ("post_id", JStr (string_of_Z (snd (fst like))));
                         ("created_at", JStr created_at)])))
    (catch_zod E now).

(** *** Routing

    The routes in the order the application registers them.  A path is
    matched segment by segment, letters of fixed segments in either case, a
    trailing slash allowed.  A parameter takes its segment as the request
    sends it, which is what Express hands to the handler for a segment
    without percent-escapes; the decoding of escapes is left out. *)

Inductive method := GET | POST | PUT | DELETE.

Inductive endpoint :=
| ep_static
| ep_register | ep_login
| ep_list_users | ep_create_user | ep_get_user | ep_update_user | ep_delete_user
| ep_list_posts | ep_create_post | ep_get_post | ep_update_post | ep_delete_post
| ep_list_comments | ep_create_comment | ep_get_comment | ep_update_comment
| ep_delete_comment
| ep_list_likes | ep_create_like | ep_delete_like
| ep_health
| ep_spa.

Inductive segment :=
| Lit (s : string)
| Par (name : string).

Definition method_eqb (a b : method) : bool :=
  match a, b with
  | GET, GET | POST, POST | PUT, PUT | DELETE, DELETE => true
  | _, _ => false
  end.

Definition routes : list (method * list segment * endpoint) :=
  [ (POST, [Lit "api"; Lit "auth"; Lit "register"], ep_register);
    (POST, [Lit "api"; Lit "auth"; Lit "login"], ep_login);
    (GET, [Lit "api"; Lit "users"], ep_list_users);
    (POST, [Lit "api"; Lit "users"], ep_create_user);
    (GET, [Lit "api"; Lit "users"; Par "user_id"], ep_get_user);
    (PUT, [Lit "api"; Lit "users"; Par "user_id"], ep_update_user);
    (DELETE, [Lit "api"; Lit "users"; Par "user_id"], ep_delete_user);
    (GET, [Lit "api"; Lit "posts"], ep_list_posts);
    (POST, [Lit "api"; Lit "posts"], ep_create_post);
    (GET, [Lit "api"; Lit "posts"; Par "post_id"], ep_get_post);
    (PUT, [Lit "api"; Lit "posts"; Par "post_id"], ep_update_post);
    (DELETE, [Lit "api"; Lit "posts"; Par "post_id"], ep_delete_post);
    (GET, [Lit "api"; Lit "comments"], ep_list_comments);
    (POST, [Lit "api"; Lit "comments"], ep_create_comment);
    (GET, [Lit "api"; Lit "comments"; Par "comment_id"], ep_get_comment);
    (PUT, [Lit "api"; Lit "comments"; Par "comment_id"], ep_update_comment);
    (DELETE, [Lit "api"; Lit "comments"; Par "comment_id"], ep_delete_comment);
    (GET, [Lit "api"; Lit "likes"], ep_list_likes);
    (POST, [Lit "api"; Lit "likes"], ep_create_like);
    (DELETE, [Lit "api"; Lit "likes"; Par "user_id"; Par "post_id"], ep_delete_like);
    (GET, [Lit "api"; Lit "health"], ep_health) ].

Fixpoint match_path (pattern : list segment) (segs : list string)
  : option (list (string * string)) :=
  match pattern, segs with
  | [], [] => Some []
  | Lit s :: pattern', seg :: segs' =>
      if String.eqb (toLowerCase seg) s then match_path pattern' segs' else None
  | Par name :: pattern', seg :: segs' =>
      if String.eqb seg "" then None
      else ps ← match_path pattern' segs'; Some ((name, seg) :: ps)
  | _, _ => None
  end.

Fixpoint drop_trailing_slash (segs : list string) : list string :=
  match segs with
  | [] => []
  | [EmptyString] => []
  | seg :: segs' => seg :: drop_trailing_slash segs'
  end.

Definition path_segments (path : string) : option (list string) :=
  match split "/" path with
  | EmptyString :: segs => Some (drop_trailing_slash segs)
  | _ => None
  end.

Fixpoint first_match (m : method) (segs : list string)
    (table : list (method * list segment * endpoint))
  : option (endpoint * list (string * string)) :=
  match table with
  | [] => None
  | (m', pattern, ep) :: table' =>
      match (if method_eqb m m' then match_path pattern segs else None) with
      | Some ps => Some (ep, ps)
      | None => first_match m segs table'
      end
  end.

(** The handler a request reaches, with its [req.params]; [None] when no
    layer of the application matches and Express answers 404 itself.
    [express.static] comes first; the single-page fallback, registered on
    the regular expression [^(?!\/api).*], comes last. *)
Definition route (E : Env) (m : method) (path : string)
  : option (endpoint * list (string * string)) :=
  if method_eqb m GET && static_file E path then Some (ep_static, [])
  else
    match path_segments path ≫= (fun segs => first_match m segs routes) with
    | Some hit => Some hit
    | None =>
        if method_eqb m GET && negb (startsWith "/api" path)
        then Some (ep_spa, [])
        else None
    end.

(** *** The seed data of [backend/db.sql] and an environment for examples *)

Definition seed_time : Z := 1700000000000.

Definition seed_user (username email password_hash full_name : string) (pic : string)
  : user_row :=
  {| u_username := username; u_email := email; u_password_hash := password_hash;
     u_full_name := Some full_name;
     u_profile_image_url := Some ("https://picsum.photos/200/300?random=" ++ pic);
     u_created_at := Some seed_time |}.

Definition seed_post (user_id : Z) (title content pic : string) : post_row :=
  {| p_user_id := user_id; p_title := title; p_content := Some content;
     p_image_url := Some ("https://picsum.photos/800/600?random=" ++ pic);
     p_created_at := Some seed_time |}.

Definition seed_comment (user_id post_id : Z) (content : string) : comment_row :=
  {| c_user_id := user_id; c_post_id := post_id; c_content := content;
     c_created_at := Some seed_time |}.

Definition seed_like : like_row := {| l_created_at := Some seed_time |}.

Definition seed : db :=
  {| users :=
       list_to_map
         [ (1, seed_user "john_doe" "john@example.com" "password123" "John Doe" "42");
           (2, seed_user "jane_smith" "jane@example.com" "admin123" "Jane Smith" "17");
           (3, seed_user "tech_guy" "tech@example.com" "user123" "Tech Enthusiast" "88");
           (4, seed_user "travel_lover" "travel@example.com" "travel123"
                         "Travel Lover" "33");
           (5, seed_user "foodie" "food@example.com" "food123" "Foodie Fan" "75") ];
     posts :=
       list_to_map
         [ (1, seed_post 1 "First Post" "This is my first post about PostgreSQL!" "10");
           (2, seed_post 1 "Database Tips" "Always normalize your database design!" "25");
           (3, seed_post 2 "Hello World" "Starting my journey with PostgreSQL" "50");
           (4, seed_post 3 "Tech Review" "Review of the latest PostgreSQL features" "75");
           (5, seed_post 4 "Travel Diary"
                         "Exploring new places with PostgreSQL in mind" "90");
           (6, seed_post 5 "Food Adventures" "Cooking with SQL" "3") ];
     comments :=
       list_to_map
         [ (1, seed_comment 2 1 "Great first post!");
           (2, seed_comment 3 1 "Very informative");
           (3, seed_comment 1 3 "Thanks for sharing!");
           (4, seed_comment 4 2 "Useful tips");
           (5, seed_comment 5 4 "Looking forward to more reviews");
           (6, seed_comment 2 5 "Amazing travel stories");
           (7, seed_comment 1 6 "Yummy content!") ];
     likes :=
       list_to_map
         [ ((2, 1), seed_like); ((3, 1), seed_like); ((4, 2), seed_like);
           ((1, 3), seed_like); ((5, 4), seed_like); ((2, 5), seed_like);
           ((3, 6), seed_like) ];
     users_id_seq := 6 |}.

Fixpoint contains (c : ascii) (s : string) : bool :=
  match s with
  | EmptyString => false
  | String c' s' => Ascii.eqb c c' || contains c s'
  end.

Definition decimal (s : string) : option Z :=
  n ← NilZero.int_of_string s;
  if int4 (Z.of_int n) then Some (Z.of_int n) else None.

(** An environment to evaluate the handlers in: addresses contain an [@]
    and no space, URLs start with [http], integers are written in decimal,
    a token is the text [token-] followed by the user id it was signed for,
    and the server runs with the default secret and no [NODE_ENV]. *)
Definition sample_env : Env :=
  {| is_email := fun s => contains "@" s && negb (contains " " s);
     is_url := startsWith "http";
     pg_int4 := decimal;
     pg_ilike := fun value pattern => String.eqb pattern ("%" ++ toLowerCase value ++ "%");
     pg_order_by := fun _ _ rows => rows;
     jwt_sign := fun payload _ _ =>
                   match prop "user_id" payload with
                   | JNum n => "token-" ++ string_of_Z n
                   | _ => "token-"
                   end;
     jwt_verify := fun token _ _ =>
                     if startsWith "token-" token
                     then n ← decimal (substring 6 (String.length token - 6) token);
                          Some (JObj [("user_id", JNum n)])
                     else None;
     jwt_error := fun _ _ _ => "JsonWebTokenError";
     iso_string := string_of_Z;
     lib_message := fun name => name;
     lib_stack := fun _ => "";
     static_file := fun _ => false;
     JWT_SECRET := "your-secret-key";
     NODE_ENV := None |}.

Definition request_of (auth : option string) (ps : list (string * string))
    (b : jsval) : request :=
  {| req_authorization := auth; req_params := ps; req_query := [];
     req_body := b; req_user := None |}.


Definition json_request (b : jsval) : request := request_of None [] b.

(** A registration that reuses the user name of the first seeded user. *)
Definition register_john_again : request :=
  json_request (JObj [("username", JStr "john_doe");
                      ("email", JStr "another@example.com");
                      ("password_hash", JStr "password456")]).

(** The registration of the scenario of the specification, and a login that
    writes the address in capitals with blanks around it. *)
Definition register_alice : request :=
  json_request (JObj [("username", JStr "alice");
                      ("email", JStr "a@x.com");
                      ("password_hash", JStr "longpass1")]).

Definition login_alice : request :=
  json_request (JObj [("email", JStr "  A@X.COM ");
                      ("password_hash", JStr "longpass1")]).

(** The second seeded user likes the first post once more. *)
Definition like_again : request :=
  json_request (JObj [("user_id", JStr "2"); ("post_id", JStr "1")]).

Definition with_query (q : list (string * qsval)) (req : request) : request :=
  {| req_authorization := req_authorization req; req_params := req_params req;
     req_query := q; req_body := req_body req; req_user := req_user req |}.

(** [GET /api/users?limit=5&offset=0] *)
Definition first_page : request :=
  with_query [("limit", QStr "5"); ("offset", QStr "0")] (json_request JUndefined).

(** [PUT /api/users/1] that clears the full name and asks for the user name
    of the second seeded user. *)
Definition rename_john : request :=
  request_of None [("user_id", "1")]
             (JObj [("username", JStr "jane_smith"); ("full_name", JNull)]).

(** [PUT /api/users/1] that clears the full name only. *)
Definition clear_john : request :=
  request_of None [("user_id", "1")] (JObj [("full_name", JNull)]).

(** [PUT /api/posts/1] that clears the content. *)
Definition clear_post : request :=
  request_of None [("post_id", "1")] (JObj [("content", JNull)]).

(** The second seeded user asks for the account of the first to be deleted,
    and for its full name to be changed. *)
Definition jane_deletes_john : request :=
  request_of (Some "Bearer token-2") [("user_id", "1")] JUndefined.

Definition jane_renames_john : request :=
  request_of (Some "Bearer token-2") [("user_id", "1")]
             (JObj [("full_name", JStr "Johnny")]).

(** The second seeded user asks for the first to be given the user name of
    the third. *)
Definition jane_takes_over_john : request :=
  request_of (Some "Bearer token-2") [("user_id", "1")]
             (JObj [("username", JStr "tech_guy")]).

(** The account registered in the scenario has no posts, comments or likes:
    the second seeded user asks for it to be deleted. *)
Definition with_alice : db := snd (register sample_env 5 7 register_alice seed).

Definition jane_deletes_alice : request :=
  request_of (Some "Bearer token-2") [("user_id", "6")] JUndefined.

(** Requests the middleware refuses: no header, a header of one word, a
    token that does not verify, and a token for an id no user has. *)
Definition anonymous_delete : request :=
  request_of None [("user_id", "1")] JUndefined.

Definition one_word_delete : request :=
  request_of (Some "Bearer") [("user_id", "1")] JUndefined.

Definition forged_delete : request :=
  request_of (Some "Bearer forged") [("user_id", "1")] JUndefined.

Definition stale_delete : request :=
  request_of (Some "Bearer token-99") [("user_id", "1")] JUndefined.

(** Logins that are refused: no password, an address nobody registered, and
    the wrong password for a registered address. *)
Definition login_without_password : request :=
  json_request (JObj [("email", JStr "john@example.com")]).

Definition login_unknown : request :=
  json_request (JObj [("email", JStr "nobody@example.com");
                      ("password_hash", JStr "password123")]).

Definition login_wrong_password : request :=
  json_request (JObj [("email", JStr "John@Example.com");
                      ("password_hash", JStr "letmein")]).

Definition alice_input : CreateUserInput :=
  {| in_username := "alice"; in_email := "a@x.com";
     in_password_hash := "longpass1"; in_full_name := None;
     in_profile_image_url := None |}.

(** [GET /api/users/6] *)
Definition get_alice : request := request_of None [("user_id", "6")] JUndefined.

(** A request that carries the token the sample registration hands out. *)
Definition alice_deletes_john : request :=
  request_of (Some "Bearer token-6") [("user_id", "1")] JUndefined.

(** The account registered in the scenario asks for its own deletion. *)
Definition alice_deletes_alice : request :=
  request_of (Some "Bearer token-6") [("user_id", "6")] JUndefined.

(** A registration under the user name and the address of the first seeded
    user, with a password of five characters. *)
Definition short_duplicate : request :=
  json_request (JObj [("username", JStr "john_doe");
                      ("email", JStr "john@example.com");
                      ("password_hash", JStr "short")]).

(** A password of 255 letters and a space, one character more than the
    column [password_hash] holds, and a registration and a login with it. *)
Definition long_password : string :=
  string_of_list_ascii (List.repeat "a"%char 255) ++ " ".

Definition register_bob : request :=
  json_request (JObj [("username", JStr "bob");
                      ("email", JStr "b@x.com");
                      ("password_hash", JStr long_password)]).

Definition login_bob : request :=
  json_request (JObj [("email", JStr "b@x.com");
                      ("password_hash", JStr long_password)]).

(** A second registration under the address of the scenario, in capitals,
    with another user name. *)
Definition register_alice_again : request :=
  json_request (JObj [("username", JStr "alice2");
                      ("email", JStr "A@X.com");
                      ("password_hash", JStr "longpass2")]).

(** *** Predicates of the specification *)

(** [post m Q]: whenever [m] returns, what it returns satisfies [Q]. *)
Definition post {A} (m : M A) (Q : A -> Prop) : Prop :=
  forall d, match m d with
            | (Returned a, _) => Q a
            | (Threw _, _) => True
            end.

Definition no_password_in (j : json) : Prop :=
  has_key "password_hash" j = false /\ has_key "password" j = false.

Definition no_password (r : response) : Prop :=
  match body r with
  | Some j => no_password_in j
  | None => True
  end.

(** A JavaScript value that serialises without a password member. *)
Definition discreet (v : jsval) : Prop :=
  forall j, stringify v = Some j -> no_password_in j.

Definition no_leading_space (s : string) : Prop :=
  match s with
  | EmptyString => True
  | String c _ => is_space c = false
  end.

Definition normalize (email : string) : string := trim (toLowerCase email).

(** The row registration inserts. *)
Definition registered_row (now rnd : Z) (input : CreateUserInput) (stored_password : string)
  : user_row :=
  {| u_username := trim (in_username input);
     u_email := normalize (in_email input);
     u_password_hash := stored_password;
     u_full_name := trim_or_null (mjoin (in_full_name input));
     u_profile_image_url :=
       Some (or_else (in_profile_image_url input) (default_avatar rnd));
     u_created_at := Some now |}.

(** The stored addresses and user names are in the form the handlers write:
    lower-cased and trimmed, respectively trimmed. *)
Definition normalized (d : db) : Prop :=
  map_Forall (fun _ r => normalize (u_email r) = u_email r
                         /\ trim (u_username r) = u_username r) (users d).

(** The foreign keys of [likes]. *)
Definition likes_reference (d : db) : Prop :=
  map_Forall (fun k _ => is_Some (users d !! fst k) /\ is_Some (posts d !! snd k))
             (likes d).

(** The [user] member of a response body. *)
Definition answered_user (r : response) : option json :=
  b ← body r; member "user" b.

(** The answer to a request that fails validation. *)
Definition validation_error (E : Env) (now : Z) : response :=
  res_json 400 (createErrorResponse E now "Validation error"
                  (Some (thrown E "ZodError")) (Some "VALIDATION_ERROR")).

Definition items (r : response) : option (list json) :=
  match body r with
  | Some (Jarr l) => Some l
  | _ => None
  end.

(** Partial updates: what the fields present in the input, and the fields
    omitted from it, mean for the row after the request. *)
Definition user_fields_written (input : UpdateUserInput) (new : user_row) : Prop :=
  (forall v, up_username input = Some v -> u_username new = trim v) /\
  (forall v, up_email input = Some v -> u_email new = trim (toLowerCase v)) /\
  (forall v, up_password_hash input = Some v ->
             varchar 255 v = Some (u_password_hash new)) /\
  (forall v, up_full_name input = Some v -> u_full_name new = trim_or_null v) /\
  (forall v, up_profile_image_url input = Some v -> u_profile_image_url new = Some v).

Definition user_fields_kept (input : UpdateUserInput) (old new : user_row) : Prop :=
  (up_username input = None -> u_username new = u_username old) /\
  (up_email input = None -> u_email new = u_email old) /\
  (up_password_hash input = None -> u_password_hash new = u_password_hash old) /\
  (up_full_name input = None -> u_full_name new = u_full_name old) /\
  (up_profile_image_url input = None ->
   u_profile_image_url new = u_profile_image_url old) /\
  u_created_at new = u_created_at old.

Definition post_fields_written (E : Env) (input : UpdatePostInput) (new : post_row)
  : Prop :=
  (forall v, up_user_id input = Some v -> pg_int4 E v = Some (p_user_id new)) /\
  (forall v, up_title input = Some v -> p_title new = trim v) /\
  (forall v, up_content input = Some v -> p_content new = trim_or_null v) /\
  (forall v, up_image_url input = Some v -> p_image_url new = Some v).

Definition post_fields_kept (input : UpdatePostInput) (old new : post_row) : Prop :=
  (up_user_id input = None -> p_user_id new = p_user_id old) /\
  (up_title input = None -> p_title new = p_title old) /\
  (up_content input = None -> p_content new = p_content old) /\
  (up_image_url input = None -> p_image_url new = p_image_url old) /\
  p_created_at new = p_created_at old.

(** The [auth_token] member of a response body. *)
Definition answered_token (r : response) : option json :=
  b ← body r; member "auth_token" b.

(** The invariant of the stored data that the statements about duplicates
    rely on. *)
Definition consistent (d : db) : Prop := normalized d /\ likes_reference d.

(** *** Posts, comments and likes: the remaining schemas *)

Record CreatePostInput := {
  cp_user_id : string;
  cp_title : string;
  cp_content : option (option string);
  cp_image_url : option string
}.

Definition createPostInputSchema (E : Env) (v : jsval) : option CreatePostInput :=
  o ← z_object v;
  user_id ← z_string (prop "user_id" o);
  title ← z_string (prop "title" o) |> z_min 1 |> z_max 200;
  content ← z_optional (z_nullable z_string) (prop "content" o);
  image_url ← z_optional (fun x => z_string x |> z_refine (is_url E))
                         (prop "image_url" o);
  Some {| cp_user_id := user_id; cp_title := title; cp_content := content;
          cp_image_url := image_url |}.

Record CreateCommentInput := {
  cc_user_id : string;
  cc_post_id : string;
  cc_content : string
}.

Definition createCommentInputSchema (v : jsval) : option CreateCommentInput :=
  o ← z_object v;
  user_id ← z_string (prop "user_id" o);
  post_id ← z_string (prop "post_id" o);
  content ← z_string (prop "content" o) |> z_min 1;
  Some {| cc_user_id := user_id; cc_post_id := post_id; cc_content := content |}.

Record UpdateCommentInput := {
  uc_user_id : option string;
  uc_post_id : option string;
  uc_content : option (option string)
}.

Definition updateCommentInputSchema (v : jsval) : option UpdateCommentInput :=
  o ← z_object v;
  user_id ← z_optional z_string (prop "user_id" o);
  post_id ← z_optional z_string (prop "post_id" o);
  content ← z_optional (z_nullable (fun x => z_string x |> z_min 1))
                       (prop "content" o);
  Some {| uc_user_id := user_id; uc_post_id := post_id; uc_content := content |}.

(** The search schemas of posts, comments and likes; [sort_by] is kept as
    the column name it validates. *)
Record SearchInput := {
  sr_query : option string;
  sr_user_id : option string;
  sr_post_id : option string;
  sr_limit : Z;
  sr_offset : Z;
  sr_sort_by : string;
  sr_sort_order : sort_direction
}.

Definition z_columns (names : list string) : jsval -> option string :=
  z_enum (List.map (fun n => (n, n)) names).

Definition searchPostInputSchema (v : jsval) : option SearchInput :=
  o ← z_object v;
  query ← z_optional z_string (prop "query" o);
  user_id ← z_optional z_string (prop "user_id" o);
  limit ← z_default (fun x => z_number x |> z_refine (Z.ltb 0)) 10 (prop "limit" o);
  offset ← z_default (fun x => z_number x |> z_refine (Z.leb 0)) 0 (prop "offset" o);
  sort_by ← z_default (z_columns ["title"; "created_at"]) "created_at"
                      (prop "sort_by" o);
  sort_order ← z_default (z_enum [("asc", asc); ("desc", desc)]) desc
                         (prop "sort_order" o);
  Some {| sr_query := query; sr_user_id := user_id; sr_post_id := None;
          sr_limit := limit; sr_offset := offset; sr_sort_by := sort_by;
          sr_sort_order := sort_order |}.

Definition searchCommentInputSchema (v : jsval) : option SearchInput :=
  o ← z_object v;
  query ← z_optional z_string (prop "query" o);
  user_id ← z_optional z_string (prop "user_id" o);
  post_id ← z_optional z_string (prop "post_id" o);
  limit ← z_default (fun x => z_number x |> z_refine (Z.ltb 0)) 10 (prop "limit" o);
  offset ← z_default (fun x => z_number x |> z_refine (Z.leb 0)) 0 (prop "offset" o);
  sort_by ← z_default (z_columns ["content"; "created_at"]) "created_at"
                      (prop "sort_by" o);
  sort_order ← z_default (z_enum [("asc", asc); ("desc", desc)]) desc
                         (prop "sort_order" o);
  Some {| sr_query := query; sr_user_id := user_id; sr_post_id := post_id;
          sr_limit := limit; sr_offset := offset; sr_sort_by := sort_by;
          sr_sort_order := sort_order |}.

Definition searchLikeInputSchema (v : jsval) : option SearchInput :=
  o ← z_object v;
  user_id ← z_optional z_string (prop "user_id" o);
  post_id ← z_optional z_string (prop "post_id" o);
  limit ← z_default (fun x => z_number x |> z_refine (Z.ltb 0)) 10 (prop "limit" o);
  offset ← z_default (fun x => z_number x |> z_refine (Z.leb 0)) 0 (prop "offset" o);
  sort_by ← z_default (z_columns ["created_at"]) "created_at" (prop "sort_by" o);
  sort_order ← z_default (z_enum [("asc", asc); ("desc", desc)]) desc
                         (prop "sort_order" o);
  Some {| sr_query := None; sr_user_id := user_id; sr_post_id := post_id;
          sr_limit := limit; sr_offset := offset; sr_sort_by := sort_by;
          sr_sort_order := sort_order |}.

(** *** Posts, comments and likes: the remaining statements *)

Definition with_comments (f : gmap Z comment_row -> gmap Z comment_row) (d : db) : db :=
  {| users := users d; posts := posts d; comments := f (comments d);
     likes := likes d; users_id_seq := users_id_seq d |}.

(** [SELECT id, user_id, title, content, image_url, created_at FROM posts
     WHERE id = $1] *)
Definition select_post (E : Env) (id : jsval) : M (list (Z * post_row)) :=
  let* k := int_param E id in
  select (fun d => by_key (posts d) k).

(** [INSERT INTO posts (user_id, title, content, image_url) VALUES ($1, $2,
     $3, $4) RETURNING ...]; [nextval] is the id the sequence of [posts.id]
    gives to this statement. *)
Definition insert_post (E : Env) (now nextval : Z) (user_id : jsval)
    (title : string) (content : option string) (image_url : string)
  : M (list (Z * post_row)) :=
  let* u := int_param E user_id in
  fun d =>
    match u, varchar 200 title with
    | Some u, Some t =>
        if bool_decide (is_Some (users d !! u))
           && negb (bool_decide (is_Some (posts d !! nextval)))
        then
          let row := {| p_user_id := u; p_title := t; p_content := content;
                        p_image_url := Some image_url;
                        p_created_at := Some now |} in
          (Returned [(nextval, row)], with_posts (insert nextval row) d)
        else (Threw (pg_error E), d)
    | _, _ => (Threw (pg_error E), d)
    end.

(** [comments.post_id] and [likes.post_id] are declared [REFERENCES posts
    (id)], with no [ON DELETE] action. *)
Definition post_referenced (d : db) (n : Z) : bool :=
  bool_decide (map_Exists (fun _ c => c_post_id c = n) (comments d))
  || bool_decide (map_Exists (fun k _ => snd k = n) (likes d)).

(** [DELETE FROM posts WHERE id = $1] *)
Definition delete_posts (E : Env) (id : jsval) : M unit :=
  let* k := int_param E id in
  fun d =>
    match by_key (posts d) k with
    | [] => (Returned tt, d)
    | (n, _) :: _ =>
        if post_referenced d n then (Threw (pg_error E), d)
        else (Returned tt, with_posts (delete n) d)
    end.

(** [SELECT id FROM comments WHERE id = $1] *)
Definition select_comment_id (E : Env) (id : jsval) : M (list Z) :=
  let* k := int_param E id in
  select (fun d => fst <$> by_key (comments d) k).

(** [SELECT id, user_id, post_id, content, created_at FROM comments WHERE
     id = $1] *)
Definition select_comment (E : Env) (id : jsval) : M (list (Z * comment_row)) :=
  let* k := int_param E id in
  select (fun d => by_key (comments d) k).

(** [INSERT INTO comments (user_id, post_id, content) VALUES ($1, $2, $3)
     RETURNING ...]; [nextval] is the id the sequence of [comments.id]
    gives to this statement. *)
Definition insert_comment (E : Env) (now nextval : Z) (user_id post_id : jsval)
    (content : string) : M (list (Z * comment_row)) :=
  let* u := int_param E user_id in
  let* p := int_param E post_id in
  fun d =>
    match u, p with
    | Some u, Some p =>
        if bool_decide (is_Some (users d !! u))
           && bool_decide (is_Some (posts d !! p))
           && negb (bool_decide (is_Some (comments d !! nextval)))
        then
          let row := {| c_user_id := u; c_post_id := p; c_content := content;
                        c_created_at := Some now |} in
          (Returned [(nextval, row)], with_comments (insert nextval row) d)
        else (Threw (pg_error E), d)
    | _, _ => (Threw (pg_error E), d)
    end.

(** One [column = $n] of a dynamically built [UPDATE comments SET ...]. *)
Inductive comment_assignment :=
| SetCommentUserId (v : string)
| SetCommentPostId (v : string)
| SetCommentContent (v : option string).

(** [user_id] and [post_id] are [NOT NULL] references, [content] is
    [TEXT NOT NULL]. *)
Definition assign_comment (E : Env) (d : db) (r : comment_row) (a : comment_assignment)
  : option comment_row :=
  match a with
  | SetCommentUserId v =>
      n ← pg_int4 E v;
      _ ← users d !! n;
      Some {| c_user_id := n; c_post_id := c_post_id r; c_content := c_content r;
              c_created_at := c_created_at r |}
  | SetCommentPostId v =>
      n ← pg_int4 E v;
      _ ← posts d !! n;
      Some {| c_user_id := c_user_id r; c_post_id := n; c_content := c_content r;
              c_created_at := c_created_at r |}
  | SetCommentContent v =>
      c ← v;
      Some {| c_user_id := c_user_id r; c_post_id := c_post_id r; c_content := c;
              c_created_at := c_created_at r |}
  end.

Fixpoint assign_comments (E : Env) (d : db) (r : comment_row)
    (l : list comment_assignment) : option comment_row :=
  match l with
  | [] => Some r
  | a :: l' => r' ← assign_comment E d r a; assign_comments E d r' l'
  end.

(** [UPDATE comments SET ... WHERE id = $n RETURNING id, user_id, post_id,
     content, created_at] *)
Definition update_comments (E : Env) (updateFields : list comment_assignment)
    (id : jsval) : M (list (Z * comment_row)) :=
  let* k := int_param E id in
  fun d =>
    match by_key (comments d) k with
    | [] => (Returned [], d)
    | (n, r) :: _ =>
        match assign_comments E d r updateFields with
        | Some r' => (Returned [(n, r')], with_comments (insert n r') d)
        | None => (Threw (pg_error E), d)
        end
    end.

(** [DELETE FROM comments WHERE id = $1] *)
Definition delete_comments (E : Env) (id : jsval) : M unit :=
  let* k := int_param E id in
  fun d =>
    match by_key (comments d) k with
    | [] => (Returned tt, d)
    | (n, _) :: _ => (Returned tt, with_comments (delete n) d)
    end.

(** [DELETE FROM likes WHERE user_id = $1 AND post_id = $2] *)
Definition delete_likes (E : Env) (user_id post_id : jsval) : M unit :=
  let* u := int_param E user_id in
  let* p := int_param E post_id in
  fun d =>
    match u, p with
    | Some u, Some p => (Returned tt, with_likes (delete (u, p)) d)
    | _, _ => (Returned tt, d)
    end.

(** The [WHERE] conditions the listings collect: a condition is added for a
    filter that is truthy. *)
Definition filter_text (v : option string) : option string :=
  match v with
  | Some q => if String.eqb q "" || String.eqb (trim q) "" then None
              else Some ("%" ++ trim q ++ "%")
  | None => None
  end.

Definition filter_id (E : Env) (v : option string) : M (option (option Z)) :=
  match v with
  | Some s => if String.eqb s "" then ret None
              else let* k := int_param E (JStr s) in ret (Some k)
  | None => ret None
  end.

(** [column = $n] for a parameter that may be [NULL]. *)
Definition sql_eq (column : Z) (condition : option (option Z)) : bool :=
  match condition with
  | None => true
  | Some (Some n) => Z.eqb column n
  | Some None => false
  end.

Definition ilike_null (E : Env) (value : option string) (pattern : string) : bool :=
  match value with
  | Some s => pg_ilike E s pattern
  | None => false
  end.

Definition page {A} (limit offset : Z) (rows : list A) : list A :=
  take (Z.to_nat limit) (drop (Z.to_nat offset) rows).

(** [SELECT ... FROM posts [WHERE (title ILIKE $1 OR content ILIKE $1)
     [AND] user_id = $2] ORDER BY ... LIMIT ... OFFSET ...]; [order_by] is
    PostgreSQL's [ORDER BY] on the rows selected. *)
Definition select_posts_page (E : Env)
    (order_by : string -> sort_direction -> list (Z * post_row) -> list (Z * post_row))
    (s : SearchInput) : M (list (Z * post_row)) :=
  let* by_user := filter_id E (sr_user_id s) in
  select (fun d =>
            let found :=
              List.filter
                (fun r =>
                   match filter_text (sr_query s) with
                   | Some p => pg_ilike E (p_title (snd r)) p
                               || ilike_null E (p_content (snd r)) p
                   | None => true
                   end
                   && sql_eq (p_user_id (snd r)) by_user)
                (map_to_list (posts d)) in
            page (sr_limit s) (sr_offset s)
                 (order_by (sr_sort_by s) (sr_sort_order s) found)).

Definition select_comments_page (E : Env)
    (order_by : string -> sort_direction -> list (Z * comment_row)
                -> list (Z * comment_row))
    (s : SearchInput) : M (list (Z * comment_row)) :=
  let* by_user := filter_id E (sr_user_id s) in
  let* by_post := filter_id E (sr_post_id s) in
  select (fun d =>
            let found :=
              List.filter
                (fun r =>
                   match filter_text (sr_query s) with
                   | Some p => pg_ilike E (c_content (snd r)) p
                   | None => true
                   end
                   && sql_eq (c_user_id (snd r)) by_user
                   && sql_eq (c_post_id (snd r)) by_post)
                (map_to_list (comments d)) in
            page (sr_limit s) (sr_offset s)
                 (order_by (sr_sort_by s) (sr_sort_order s) found)).

Definition select_likes_page (E : Env)
    (order_by : string -> sort_direction -> list (Z * Z * like_row)
                -> list (Z * Z * like_row))
    (s : SearchInput) : M (list (Z * Z * like_row)) :=
  let* by_user := filter_id E (sr_user_id s) in
  let* by_post := filter_id E (sr_post_id s) in
  select (fun d =>
            let found :=
              List.filter
                (fun r => sql_eq (fst (fst r)) by_user
                          && sql_eq (snd (fst r)) by_post)
                (map_to_list (likes d)) in
            page (sr_limit s) (sr_offset s)
                 (order_by (sr_sort_by s) (sr_sort_order s) found)).

(** *** Posts, comments and likes: the remaining handlers *)

Definition not_found (E : Env) (now : Z) (msg code : string) : response :=
  res_json 404 (createErrorResponse E now msg None (Some code)).

Definition default_picture (rnd : Z) : string :=
  "https://picsum.photos/800/600?random=" ++ string_of_Z rnd.

(** [GET /api/posts] *)
Definition list_posts (E : Env)
    (order_by : string -> sort_direction -> list (Z * post_row) -> list (Z * post_row))
    (now : Z) (req : request) : db -> response * db :=
  try_catch
    (let* searchParams := parse E searchPostInputSchema (query_object (req_query req)) in
     let* result := select_posts_page E order_by searchParams in
     let* posts0 := map_M (post_json E) result in
     ret (res_json 200 (JArr posts0)))
    (catch_zod E now).

(** [POST /api/posts] *)
Definition create_post (E : Env) (now rnd nextval : Z) (req : request)
  : db -> response * db :=
  try_catch
    (let* validatedInput := parse E (createPostInputSchema E) (req_body req) in
     let user_id := JStr (cp_user_id validatedInput) in
     let* userCheck := select_user_id E user_id in
     if (List.length userCheck =? 0)%nat then
       ret (bad_request E now "User not found" "USER_NOT_FOUND")
     else
       let* result :=
         insert_post E now nextval user_id
           (trim (cp_title validatedInput))
           (trim_or_null (mjoin (cp_content validatedInput)))
           (or_else (cp_image_url validatedInput) (default_picture rnd)) in
       let* post := first_row E result in
       let* p := post_json E post in
       ret (res_json 201 p))
    (catch_zod E now).

(** [GET /api/posts/:post_id] *)
Definition get_post (E : Env) (now : Z) (req : request) : db -> response * db :=
  try_catch
    (let* result := select_post E (param "post_id" req) in
     match result with
     | [] => ret (not_found E now "Post not found" "POST_NOT_FOUND")
     | post :: _ =>
         let* p := post_json E post in
         ret (res_json 200 p)
     end)
    (internal_error E now).

(** [DELETE /api/posts/:post_id] *)
Definition delete_post (E : Env) (now : Z) (req : request) : db -> response * db :=
  try_catch
    (let* postCheck := select_post_id E (param "post_id" req) in
     if (List.length postCheck =? 0)%nat then
       ret (not_found E now "Post not found" "POST_NOT_FOUND")
     else
       let* _ := delete_posts E (param "post_id" req) in
       ret (res_send 204))
    (internal_error E now).

Definition comment_json (E : Env) (comment : Z * comment_row) : M jsval :=
  let* created_at := toISOString E (c_created_at (snd comment)) in
  ret (JObj [("id", JStr (string_of_Z (fst comment)));
             ("user_id", JStr (string_of_Z (c_user_id (snd comment))));
             ("post_id", JStr (string_of_Z (c_post_id (snd comment))));
             ("content", JStr (c_content (snd comment)));
             ("created_at", JStr created_at)]).

(** [GET /api/comments] *)
Definition list_comments (E : Env)
    (order_by : string -> sort_direction -> list (Z * comment_row)
                -> list (Z * comment_row))
    (now : Z) (req : request) : db -> response * db :=
  try_catch
    (let* searchParams :=
       parse E searchCommentInputSchema (query_object (req_query req)) in
     let* result := select_comments_page E order_by searchParams in
     let* comments0 := map_M (comment_json E) result in
     ret (res_json 200 (JArr comments0)))
    (catch_zod E now).

(** [POST /api/comments] *)
Definition create_comment (E : Env) (now nextval : Z) (req : request)
  : db -> response * db :=
  try_catch
    (let* validatedInput := parse E createCommentInputSchema (req_body req) in
     let user_id := JStr (cc_user_id validatedInput) in
     let post_id := JStr (cc_post_id validatedInput) in
     let* userCheck := select_user_id E user_id in
     if (List.length userCheck =? 0)%nat then
       ret (bad_request E now "User not found" "USER_NOT_FOUND")
     else
       let* postCheck := select_post_id E post_id in
       if (List.length postCheck =? 0)%nat then
         ret (bad_request E now "Post not found" "POST_NOT_FOUND")
       else
         let* result :=
           insert_comment E now nextval user_id post_id
                          (trim (cc_content validatedInput)) in
         let* comment := first_row E result in
         let* c := comment_json E comment in
         ret (res_json 201 c))
    (catch_zod E now).

(** [GET /api/comments/:comment_id] *)
Definition get_comment (E : Env) (now : Z) (req : request) : db -> response * db :=
  try_catch
    (let* result := select_comment E (param "comment_id" req) in
     match result with
     | [] => ret (not_found E now "Comment not found" "COMMENT_NOT_FOUND")
     | comment :: _ =>
         let* c := comment_json E comment in
         ret (res_json 200 c)
     end)
    (internal_error E now).

(** The [updateFields] and [queryParams] of [PUT /api/comments/:comment_id]. *)
Definition comment_updateFields (validatedInput : UpdateCommentInput)
  : list comment_assignment :=
  match uc_user_id validatedInput with
  | Some v => [SetCommentUserId v]
  | None => []
  end
  ++ match uc_post_id validatedInput with
     | Some v => [SetCommentPostId v]
     | None => []
     end
  ++ match uc_content validatedInput with
     | Some v => [SetCommentContent (trim_or_null v)]
     | None => []
     end.

(** [PUT /api/comments/:comment_id] *)
Definition update_comment (E : Env) (now : Z) (req : request) : db -> response * db :=
  try_catch
    (let* validatedInput := parse E updateCommentInputSchema (req_body req) in
     let* commentCheck := select_comment_id E (param "comment_id" req) in
     if (List.length commentCheck =? 0)%nat then
       ret (not_found E now "Comment not found" "COMMENT_NOT_FOUND")
     else
       let updateFields := comment_updateFields validatedInput in
       if (List.length updateFields =? 0)%nat then
         ret (bad_request E now "No fields to update" "NO_UPDATE_FIELDS")
       else
         let* result := update_comments E updateFields (param "comment_id" req) in
         let* comment := first_row E result in
         let* c := comment_json E comment in
         ret (res_json 200 c))
    (catch_zod E now).

(** [DELETE /api/comments/:comment_id] *)
Definition delete_comment (E : Env) (now : Z) (req : request) : db -> response * db :=
  try_catch
    (let* commentCheck := select_comment_id E (param "comment_id" req) in
     if (List.length commentCheck =? 0)%nat then
       ret (not_found E now "Comment not found" "COMMENT_NOT_FOUND")
     else
       let* _ := delete_comments E (param "comment_id" req) in
       ret (res_send 204))
    (internal_error E now).

Definition like_json (E : Env) (like : Z * Z * like_row) : M jsval :=
  let* created_at := toISOString E (l_created_at (snd like)) in
  ret (JObj [("user_id", JStr (string_of_Z (fst (fst like))));
             ("post_id", JStr (string_of_Z (snd (fst like))));
             ("created_at", JStr created_at)]).

(** [GET /api/likes] *)
Definition list_likes (E : Env)
    (order_by : string -> sort_direction -> list (Z * Z * like_row)
                -> list (Z * Z * like_row))
    (now : Z) (req : request) : db -> response * db :=
  try_catch
    (let* searchParams := parse E searchLikeInputSchema (query_object (req_query req)) in
     let* result := select_likes_page E order_by searchParams in
     let* likes0 := map_M (like_json E) result in
     ret (res_json 200 (JArr likes0)))
    (catch_zod E now).

(** [DELETE /api/likes/:user_id/:post_id] *)
Definition delete_like (E : Env) (now : Z) (req : request) : db -> response * db :=
  try_catch
    (let* likeCheck := select_like E (param "user_id" req) (param "post_id" req) in
     if (List.length likeCheck =? 0)%nat then
       ret (not_found E now "Like not found" "LIKE_NOT_FOUND")
     else
       let* _ := delete_likes E (param "user_id" req) (param "post_id" req) in
       ret (res_send 204))
    (internal_error E now).

(** [GET /api/health] *)
Definition health (E : Env) (now : Z) : response :=
  res_json 200 (JObj [("status", JStr "ok"); ("timestamp", JStr (iso_string E now))]).

(** *** More predicates of the specification *)

(** The middleware refused the request with this status and error code. *)
Definition denied_with (res : auth_result) (code : Z) (error : string) : Prop :=
  exists r, res = Denied r /\ status r = code
            /\ error_code r = Some (Jstr error).

(** The answer of a login that is refused. *)
Definition invalid_credentials (E : Env) (now : Z) : response :=
  res_json 401 (createErrorResponse E now "Invalid email or password" None
                  (Some "INVALID_CREDENTIALS")).

(** The references the schema declares all point to stored rows. *)
Definition referential (d : db) : Prop :=
  map_Forall (fun _ p => is_Some (users d !! p_user_id p)) (posts d)
  /\ map_Forall (fun _ c => is_Some (users d !! c_user_id c)
                            /\ is_Some (posts d !! c_post_id c)) (comments d)
  /\ likes_reference d.

(** The two [UNIQUE] columns of [users]. *)
Definition unique_users (d : db) : Prop :=
  forall i j x y,
    users d !! i = Some x -> users d !! j = Some y ->
    u_username x = u_username y \/ u_email x = u_email y -> i = j.

(** The constraints of the schema, and the normal form of the stored
    addresses and names. *)
Definition integrity (d : db) : Prop :=
  referential d /\ unique_users d /\ normalized d.

(** [keeps I m]: running [m] on a database that satisfies [I] leaves a
    database that satisfies [I], whether [m] returns or throws. *)
Definition keeps (I : db -> Prop) {A} (m : M A) : Prop :=
  forall d, I d -> I (snd (m d)).

(** What the schema declares: the foreign keys and the [UNIQUE] columns. *)
Definition constraints (d : db) : Prop := referential d /\ unique_users d.

(** An answer of a listing: an array of at most ten items, or a failure. *)
Definition short_page (r : response) : Prop :=
  (status r = 200 /\ exists l, items r = Some l /\ (List.length l <= 10)%nat)
  \/ status r = 400 \/ status r = 500.

(** A JSON body without the members an error response uses to describe the
    exception it caught. *)
Definition terse_in (j : json) : Prop :=
  has_key "details" j = false /\ has_key "stack" j = false.

Definition terse (r : response) : Prop :=
  match body r with
  | Some j => terse_in j
  | None => True
  end.

(** A JavaScript value that serialises to such a body. *)
Definition reserved (v : jsval) : Prop :=
  forall j, stringify v = Some j -> terse_in j.

(** The names of the parameters of a route. *)
Definition parameters (pattern : list segment) : list string :=
  List.flat_map (fun seg => match seg with Lit _ => [] | Par name => [name] end) pattern.

(** Two route paths that one request path could match: of the same length,
    with no position at which both have a fixed segment and the two differ. *)
Fixpoint may_overlap (p q : list segment) : bool :=
  match p, q with
  | [], [] => true
  | Lit a :: p', Lit b :: q' => String.eqb a b && may_overlap p' q'
  | _ :: p', _ :: q' => may_overlap p' q'
  | _, _ => false
  end.

(** No route of the table can take a request from a route registered after
    it. *)
Fixpoint unshadowed (table : list (method * list segment * endpoint)) : bool :=
  match table with
  | [] => true
  | (m, p, _) :: rest =>
      forallb (fun r => negb (method_eqb (fst (fst r)) m
                              && may_overlap p (snd (fst r)))) rest
      && unshadowed rest
  end.

(** *** More sample requests *)

(** [DELETE /api/posts/1]: the first seeded post has comments and likes. *)
Definition delete_first_post : request :=
  request_of None [("post_id", "1")] JUndefined.

(** A post nobody commented on or liked, and its deletion. *)
Definition announce : request :=
  json_request (JObj [("user_id", JStr "2"); ("title", JStr "  Hello  ")]).

Definition with_announcement : db := snd (create_post sample_env 5 7 7 announce seed).

Definition delete_announcement : request :=
  request_of None [("post_id", "7")] JUndefined.

(** [PUT /api/comments/1] with [content: null], and with a content of
    spaces. *)
Definition clear_comment : request :=
  request_of None [("comment_id", "1")] (JObj [("content", JNull)]).

Definition blank_comment : request :=
  request_of None [("comment_id", "1")] (JObj [("content", JStr "   ")]).

(** [GET /api/posts/7] *)
Definition get_announcement : request :=
  request_of None [("post_id", "7")] JUndefined.

(** A post for a user that does not exist, and comments for a user and for
    a post that do not exist. *)
Definition orphan_post : request :=
  json_request (JObj [("user_id", JStr "99"); ("title", JStr "Hello")]).

Definition comment_of_nobody : request :=
  json_request (JObj [("user_id", JStr "99"); ("post_id", JStr "1");
                      ("content", JStr "Nice")]).

Definition comment_on_nothing : request :=
  json_request (JObj [("user_id", JStr "1"); ("post_id", JStr "99");
                      ("content", JStr "Nice")]).

(** A comment of spaces only. *)
Definition empty_comment : request :=
  json_request (JObj [("user_id", JStr "1"); ("post_id", JStr "2");
                      ("content", JStr "   ")]).

(** [DELETE /api/comments/1] *)
Definition delete_first_comment : request :=
  request_of None [("comment_id", "1")] JUndefined.

(** [DELETE /api/likes/2/1] and a like that is not there,
    [DELETE /api/likes/1/1]. *)
Definition unlike : request :=
  request_of None [("user_id", "2"); ("post_id", "1")] JUndefined.

Definition new_like : request :=
  json_request (JObj [("user_id", JStr "1"); ("post_id", JStr "1")]).

Definition undo_new_like : request :=
  request_of None [("user_id", "1"); ("post_id", "1")] JUndefined.

(** [PUT /api/comments/1] with a new content. *)
Definition edit_comment : request :=
  request_of None [("comment_id", "1")] (JObj [("content", JStr "  Edited  ")]).

(** *** The requests of the store

    The bodies the actions [login] and [register] of the store post to
    [/api/auth/login] and [/api/auth/register]: [{ email, password }] and
    [{ email, password, full_name: name }]. *)
Definition login_request_body (email password : string) : jsval :=
  JObj [("email", JStr email); ("password", JStr password)].

Definition register_request_body (email password name : string) : jsval :=
  JObj [("email", JStr email); ("password", JStr password); ("full_name", JStr name)].

(** [GET /api/comments?post_id=1] *)
Definition comments_of_first_post : request :=
  with_query [("post_id", QStr "1")] (json_request JUndefined).

End Server.

(** ** Facts about the store *)

Section StoreFacts.
Import Store.

Lemma unread_app l1 l2 : unread (l1 ++ l2) = unread l1 + unread l2.
Proof.
  unfold unread. rewrite List.filter_app, List.length_app. lia.
Qed.

Lemma unread_mark_le id0 l : unread (map (mark id0) l) <= unread l.
Proof.
  unfold unread. induction l as [|n l IH]; simpl; [lia|].
  unfold mark at 1. destruct (String.eqb (n_id n) id0); simpl.
  - destruct (read n); simpl; lia.
  - destruct (read n); simpl; lia.
Qed.

Lemma unread_mark_lt id0 l n :
  In n l -> n_id n = id0 -> read n = false ->
  unread (map (mark id0) l) < unread l.
Proof.
  intros Hin Hid Hread. induction l as [|m l IH]; [destruct Hin|].
  destruct Hin as [->|Hin].
  - pose proof (unread_mark_le id0 l) as Hle. unfold unread in *. simpl.
    unfold mark at 1. rewrite Hid, String.eqb_refl, Hread. simpl. lia.
  - specialize (IH Hin). pose proof (unread_mark_le id0 [m]) as Hm.
    change (m :: l) with (([m] ++ l)%list). rewrite List.map_app, !unread_app. lia.
Qed.

(** What [markNotificationRead] stores is the number of unread entries of
    the list before the update. *)
Lemma markNotificationRead_counts_old id0 s :
  unreadCount (notifs (markNotificationRead id0 s))
  = unread (notifications (notifs s)).
Proof. reflexivity. Qed.

(** Marking a notification that is unread always leaves the counter above
    the number of unread entries. *)
Lemma markNotificationRead_stale id0 s n :
  In n (notifications (notifs s)) -> n_id n = id0 -> read n = false ->
  ~ count_consistent (markNotificationRead id0 s).
Proof.
  intros Hin Hid Hread Hc. unfold count_consistent in Hc.
  rewrite markNotificationRead_counts_old in Hc.
  pose proof (unread_mark_lt id0 _ n Hin Hid Hread) as Hlt.
  simpl in Hc. lia.
Qed.

(** [addNotification] keeps the invariant exactly when the notification it
    appends is unread. *)
Lemma addNotification_consistent_iff n s :
  count_consistent s ->
  (count_consistent (addNotification n s) <-> read n = false).
Proof.
  unfold count_consistent, addNotification. simpl. intros ->.
  rewrite unread_app. unfold unread at 3. simpl.
  destruct (read n); simpl; split; intros; try lia; congruence.
Qed.

(** C1 (evaluation at the failing inputs).  [markNotificationRead] stores
    the number of unread entries of the list before its update, and
    [addNotification] stores the old counter plus one, whatever the
    notification.  So from a store whose counter is consistent, marking an
    unread notification read leaves the counter at the old number of unread
    entries, and adding a notification that is already read still
    increments it: after either call [unreadCount] differs from the number
    of unread notifications. *)
Theorem unreadCount_diverges :
  (forall id0 s, unreadCount (notifs (markNotificationRead id0 s))
                 = unread (notifications (notifs s))) /\
  (forall n s, unreadCount (notifs (addNotification n s))
               = unreadCount (notifs s) + 1) /\
  count_consistent one_unread /\
  unreadCount (notifs (markNotificationRead "n1" one_unread)) = 1 /\
  unread (notifications (notifs (markNotificationRead "n1" one_unread))) = 0 /\
  ~ count_consistent (markNotificationRead "n1" one_unread) /\
  count_consistent initial_state /\
  unreadCount (notifs (addNotification (note "n2" true) initial_state)) = 1 /\
  unread (notifications (notifs (addNotification (note "n2" true) initial_state))) = 0 /\
  ~ count_consistent (addNotification (note "n2" true) initial_state).
Proof.
  split; [intros; reflexivity|]. split; [intros; reflexivity|].
  split; [reflexivity|]. split; [reflexivity|]. split; [reflexivity|].
  split.
  { apply (markNotificationRead_stale "n1" one_unread (note "n1" false));
      [left; reflexivity | reflexivity | reflexivity]. }
  split; [reflexivity|]. split; [reflexivity|]. split; [reflexivity|].
  intros H. apply (addNotification_consistent_iff (note "n2" true) initial_state) in H;
    [discriminate H | reflexivity].
Qed.





End StoreFacts.

(** ** More facts about the store *)

Section StoreMore.
Import Store.

Lemma mark_read_true id0 n : read n = true -> mark id0 n = n \/ read (mark id0 n) = true.
Proof. intros H. unfold mark. destruct (String.eqb _ _); simpl; auto. Qed.

Lemma unread_mark_eq id0 l :
  (forall n, In n l -> n_id n = id0 -> read n = true) ->
  unread (map (mark id0) l) = unread l.
Proof.
  unfold unread. induction l as [|m l IH]; intros H; [reflexivity|].
  assert (IH' := IH (fun n Hn => H n (or_intror Hn))).
  simpl. unfold mark at 1.
  destruct (String.eqb (n_id m) id0) eqn:Hid.
  - apply String.eqb_eq in Hid. rewrite (H m (or_introl eq_refl) Hid). simpl.
    exact IH'.
  - destruct (read m); simpl; lia.
Qed.

Lemma markNotificationRead_right id0 s :
  (forall n, In n (notifications (notifs s)) -> n_id n = id0 -> read n = true) ->
  count_consistent (markNotificationRead id0 s).
Proof.
  intros H. unfold count_consistent. rewrite markNotificationRead_counts_old.
  simpl. symmetry. apply unread_mark_eq. exact H.
Qed.

(** X1.  The counter [markNotificationRead] leaves is right exactly when the id
    names no unread notification, whatever the counter was before. *)
Theorem markNotificationRead_consistent_iff id0 s :
  count_consistent (markNotificationRead id0 s)
  <-> (forall n, In n (notifications (notifs s)) -> n_id n = id0 -> read n = true).
Proof.
  split.
  - intros Hc n Hin Hid. destruct (read n) eqn:Hr; [reflexivity|].
    exfalso. exact (markNotificationRead_stale id0 s n Hin Hid Hr Hc).
  - apply markNotificationRead_right.
Qed.

Lemma mark_idem id0 n : mark id0 (mark id0 n) = mark id0 n.
Proof.
  unfold mark. destruct (String.eqb (n_id n) id0) eqn:H; simpl; rewrite H; reflexivity.
Qed.

(** X2.  A second call with the same id repairs the counter: the list is the
    one the first call left, and the counter is the number of its unread
    entries. *)
Theorem markNotificationRead_twice id0 s :
  notifications (notifs (markNotificationRead id0 (markNotificationRead id0 s)))
  = notifications (notifs (markNotificationRead id0 s))
  /\ count_consistent (markNotificationRead id0 (markNotificationRead id0 s)).
Proof.
  split.
  - simpl. rewrite List.map_map. apply List.map_ext. intros n. apply mark_idem.
  - apply markNotificationRead_right. simpl. intros n Hin Hid.
    apply List.in_map_iff in Hin as (m & <- & _).
    unfold mark in *. destruct (String.eqb (n_id m) id0) eqn:Hm; [reflexivity|].
    apply String.eqb_neq in Hm. contradiction.
Qed.

(** X3.  [markNotificationRead] keeps the list in place: the same number of
    notifications with the same ids, messages and dates in the same order;
    a notification with another id is untouched, one with the id is read
    afterwards, and none that was read becomes unread. *)
Theorem markNotificationRead_in_place id0 s :
  Forall2 (fun before after =>
             n_id after = n_id before
             /\ message after = message before
             /\ createdAt after = createdAt before
             /\ (n_id before <> id0 -> after = before)
             /\ (n_id before = id0 -> read after = true)
             /\ (read before = true -> read after = true))
          (notifications (notifs s))
          (notifications (notifs (markNotificationRead id0 s))).
Proof.
  simpl. induction (notifications (notifs s)) as [|n l IH]; constructor; [|exact IH].
  unfold mark. destruct (String.eqb (n_id n) id0) eqn:Hid; simpl.
  - repeat split; auto. intros Hne. apply String.eqb_eq in Hid. contradiction.
  - repeat split; auto. intros Heq. apply String.eqb_neq in Hid. contradiction.
Qed.

(** X4.  Adding an unread notification to a store whose counter is right leaves
    the counter right, with the notification last in the list. *)
Theorem addNotification_unread_keeps_count n s :
  count_consistent s ->
  read n = false ->
  count_consistent (addNotification n s)
  /\ notifications (notifs (addNotification n s))
     = (notifications (notifs s) ++ [n])%list.
Proof.
  intros Hc Hr. split; [|reflexivity].
  apply (addNotification_consistent_iff n s Hc). exact Hr.
Qed.

(** C1's store with one more unread notification. *)
Lemma addNotification_unread_keeps_count_witness :
  count_consistent (addNotification (note "n3" false) one_unread)
  /\ notifications (notifs (addNotification (note "n3" false) one_unread))
     = [note "n1" false; note "n3" false].
Proof.
  apply (addNotification_unread_keeps_count (note "n3" false) one_unread).
  - reflexivity.
  - reflexivity.
Defined.

(** X5.  The slices are independent: the session actions leave the preferences
    and the notifications alone, the preference and notification actions
    leave the session alone, and what is persisted does not depend on the
    notifications. *)
Theorem actions_keep_other_slices base net r prefs n id0 s :
  (preferences (login r s) = preferences s /\ notifs (login r s) = notifs s) /\
  (preferences (register r s) = preferences s /\ notifs (register r s) = notifs s) /\
  (preferences (logout s) = preferences s /\ notifs (logout s) = notifs s) /\
  (preferences (fst (checkAuth base net s)) = preferences s
   /\ notifs (fst (checkAuth base net s)) = notifs s) /\
  (auth (setPreferences prefs s) = auth s
   /\ notifs (setPreferences prefs s) = notifs s) /\
  (auth (addNotification n s) = auth s
   /\ preferences (addNotification n s) = preferences s
   /\ partialize (addNotification n s) = partialize s) /\
  (auth (markNotificationRead id0 s) = auth s
   /\ preferences (markNotificationRead id0 s) = preferences s
   /\ partialize (markNotificationRead id0 s) = partialize s).
Proof.
  split; [destruct r; split; reflexivity|].
  split; [destruct r; split; reflexivity|].
  split; [split; reflexivity|].
  split.
  { unfold checkAuth. destruct (falsy _); [split; reflexivity|].
    destruct (net _); split; reflexivity. }
  split; [split; reflexivity|].
  split; repeat split.
Qed.

(** Whatever happened before, [logout] leaves the signed-out session, and a
    [checkAuth] after it sends no request and changes nothing; what is
    persisted then holds no user and no token. *)
Theorem logout_then_checkAuth base net s :
  auth (logout s)
  = {| currentUser := None; authToken := None; isAuthenticated := false;
       isLoading := false; errorMessage := None |}
  /\ checkAuth base net (logout s) = (logout s, [])
  /\ persisted_auth (partialize (logout s)) = auth (logout s).
Proof. repeat split. Qed.

End StoreMore.

(** ** Facts about the server *)

Section ServerFacts.
Import Server.

(** *** Reasoning about handler bodies *)

Lemma post_ret {A} (a : A) (Q : A -> Prop) : Q a -> post (ret a) Q.
Proof. intros H d. exact H. Qed.

Lemma post_throw {A} e (Q : A -> Prop) : post (throw e) Q.
Proof. intros d. exact I. Qed.

Lemma post_bind {A B} (m : M A) (k : A -> M B) (Q : A -> Prop) (R : B -> Prop) :
  post m Q -> (forall a, Q a -> post (k a) R) -> post (bind m k) R.
Proof.
  intros Hm Hk d. unfold bind. specialize (Hm d).
  destruct (m d) as [[a|e] d']; [|exact I]. apply Hk, Hm.
Qed.

Lemma post_any {A} (m : M A) : post m (fun _ => True).
Proof. intros d. destruct (m d) as [[a|e] d']; exact I. Qed.

Lemma post_bind_any {A B} (m : M A) (k : A -> M B) (R : B -> Prop) :
  (forall a, post (k a) R) -> post (bind m k) R.
Proof. intros Hk. apply (post_bind m k (fun _ => True)); auto using post_any. Qed.

Lemma post_if {A} (b : bool) (m1 m2 : M A) (Q : A -> Prop) :
  post m1 Q -> post m2 Q -> post (if b then m1 else m2) Q.
Proof. destruct b; auto. Qed.

Lemma post_map_M {A B} (f : A -> M B) (Q : B -> Prop) (l : list A) :
  (forall a, post (f a) Q) -> post (map_M f l) (Forall Q).
Proof.
  intros Hf. induction l as [|a l IH]; simpl.
  - apply post_ret. constructor.
  - apply (post_bind _ _ Q); [apply Hf|]. intros b Hb.
    apply (post_bind _ _ (Forall Q)); [apply IH|]. intros bs Hbs.
    apply post_ret. constructor; assumption.
Qed.

Lemma try_catch_post body handler (Q : response -> Prop) d :
  post body Q -> (forall e, Q (handler e)) -> Q (fst (try_catch body handler d)).
Proof.
  intros Hb Hh. unfold try_catch. specialize (Hb d).
  destruct (body d) as [[r|e] d']; simpl; auto.
Qed.

(** *** No password in a response *)

Lemma error_response_no_password E now msg error code st :
  no_password (res_json st (createErrorResponse E now msg error code)).
Proof.
  unfold no_password, res_json, createErrorResponse, no_password_in.
  destruct code as [c|]; [destruct (String.eqb c "")|];
    (destruct error as [e|]; [destruct (development E)|]);
    split; reflexivity.
Qed.

Lemma bad_request_no_password E now msg code : no_password (bad_request E now msg code).
Proof. apply error_response_no_password. Qed.

Lemma internal_error_no_password E now e : no_password (internal_error E now e).
Proof. apply error_response_no_password. Qed.

Lemma catch_zod_no_password E now e : no_password (catch_zod E now e).
Proof.
  unfold catch_zod. destruct (String.eqb (err_name e) "ZodError");
    apply error_response_no_password.
Qed.

Lemma user_json_discreet E u : post (user_json E u) discreet.
Proof.
  unfold user_json. apply post_bind_any. intros created. apply post_ret.
  intros j. unfold user_object. simpl.
  destruct (pu_full_name u), (pu_profile_image_url u); simpl;
    intros [= <-]; split; reflexivity.
Qed.

Lemma post_json_discreet E p : post (post_json E p) discreet.
Proof.
  unfold post_json. apply post_bind_any. intros created. apply post_ret.
  intros j. simpl.
  destruct (p_content (snd p)), (p_image_url (snd p)); simpl;
    intros [= <-]; split; reflexivity.
Qed.

Lemma res_json_discreet st v : discreet v -> no_password (res_json st v).
Proof.
  intros H. unfold no_password, res_json. simpl.
  destruct (stringify v) as [j|] eqn:Hj; [apply H; exact Hj | exact I].
Qed.

Lemma session_discreet u token :
  discreet u -> discreet (JObj [("user", u); ("auth_token", JStr token)]).
Proof.
  intros H j. simpl. destruct (stringify u) as [ju|] eqn:Hu; simpl.
  - intros [= <-]. destruct (H ju Hu) as [H1 H2].
    split; simpl; [rewrite H1 | rewrite H2]; reflexivity.
  - intros [= <-]. split; reflexivity.
Qed.

Lemma array_discreet l : Forall discreet l -> discreet (JArr l).
Proof.
  intros H j. simpl. intros [= <-]. unfold no_password_in. simpl.
  induction H as [|v l Hv Hl IH]; simpl; [split; reflexivity|].
  destruct IH as [IH1 IH2]. rewrite IH1, IH2.
  destruct (stringify v) as [jv|] eqn:Hjv; simpl.
  - destruct (Hv jv Hjv) as [-> ->]. split; reflexivity.
  - split; reflexivity.
Qed.

Create HintDb quiet discriminated.

#[local] Hint Resolve post_ret post_throw post_if bad_request_no_password
  internal_error_no_password catch_zod_no_password error_response_no_password
  res_json_discreet session_discreet array_discreet : quiet.

(** Steps through a handler body, one statement at a time. *)
Ltac quiet_step :=
  match goal with
  | |- post (bind (user_json _ _) _) _ =>
      apply (post_bind _ _ discreet); [apply user_json_discreet | intros ? ?]
  | |- post (bind (post_json _ _) _) _ =>
      apply (post_bind _ _ discreet); [apply post_json_discreet | intros ? ?]
  | |- post (bind (map_M (user_json _) _) _) _ =>
      apply (post_bind _ _ (Forall discreet));
      [apply post_map_M; intros; apply user_json_discreet | intros ? ?]
  | |- post (bind _ _) _ => apply post_bind_any; intros ?
  | |- post (if _ then _ else _) _ => apply post_if
  | |- post (match ?l with [] => _ | _ :: _ => _ end) _ => destruct l as [|[] ?]
  | |- post (match ?l with [] => _ | _ :: _ => _ end) _ => destruct l
  | |- post (ret _) _ => apply post_ret
  | |- no_password (res_send _) => exact I
  end.

Ltac quiet_handler :=
  apply try_catch_post; [repeat quiet_step; eauto 6 with quiet | auto with quiet].

Lemma register_no_password E now rnd req d :
  no_password (fst (register E now rnd req d)).
Proof. unfold register. quiet_handler. Qed.

Lemma login_no_password E now req d : no_password (fst (login E now req d)).
Proof. unfold login. quiet_handler. Qed.

Lemma list_users_no_password E now req d : no_password (fst (list_users E now req d)).
Proof. unfold list_users. quiet_handler. Qed.

Lemma create_user_no_password E now rnd req d :
  no_password (fst (create_user E now rnd req d)).
Proof. unfold create_user. quiet_handler. Qed.

Lemma get_user_no_password E now req d : no_password (fst (get_user E now req d)).
Proof. unfold get_user. quiet_handler. Qed.

Lemma update_user_no_password E now req d : no_password (fst (update_user E now req d)).
Proof. unfold update_user. quiet_handler. Qed.

Lemma delete_user_no_password E now req d : no_password (fst (delete_user E now req d)).
Proof. unfold delete_user. quiet_handler. Qed.

Lemma update_post_no_password E now req d : no_password (fst (update_post E now req d)).
Proof. unfold update_post. quiet_handler. Qed.

Lemma authenticated_no_password E now handler req d :
  (forall req' d', no_password (fst (handler req' d'))) ->
  no_password (fst (authenticated E now handler req d)).
Proof.
  intros H. unfold authenticated, authenticateToken.
  destruct (bearer (req_authorization req)) as [[|c token]|]; simpl;
    try apply error_response_no_password.
  destruct (jwt_verify E _ _ _) as [decoded|]; simpl;
    try apply error_response_no_password.
  destruct (select_user E _ d) as [[[|u l]|e] d']; simpl;
    try apply error_response_no_password.
  apply H.
Qed.

(** C3.  No response of the registration, login, user-list, user-creation,
    get-user, update-user and delete-user handlers, nor of the
    authentication middleware in front of the last two, has a member named
    [password_hash] or [password] anywhere in its JSON body: the handlers
    select the public columns and build the answer with
    [password_hash: undefined], which serialisation leaves out. *)
Theorem responses_carry_no_password E now rnd req d :
  no_password (fst (register E now rnd req d)) /\
  no_password (fst (login E now req d)) /\
  no_password (fst (list_users E now req d)) /\
  no_password (fst (create_user E now rnd req d)) /\
  no_password (fst (get_user E now req d)) /\
  no_password (fst (authenticated E now (update_user E now) req d)) /\
  no_password (fst (authenticated E now (delete_user E now) req d)).
Proof.
  repeat split.
  - apply register_no_password.
  - apply login_no_password.
  - apply list_users_no_password.
  - apply create_user_no_password.
  - apply get_user_no_password.
  - apply authenticated_no_password. intros. apply update_user_no_password.
  - apply authenticated_no_password. intros. apply delete_user_no_password.
Qed.

(** *** Strings *)

Lemma is_space_lower_char c : is_space (lower_char c) = is_space c.
Proof. destruct c as [[] [] [] [] [] [] [] []]; reflexivity. Qed.

Lemma toLowerCase_trimStart s : toLowerCase (trimStart s) = trimStart (toLowerCase s).
Proof.
  induction s as [|c s IH]; simpl; [reflexivity|].
  rewrite is_space_lower_char. destruct (is_space c); [exact IH | reflexivity].
Qed.

Lemma toLowerCase_trimEnd s : toLowerCase (trimEnd s) = trimEnd (toLowerCase s).
Proof.
  induction s as [|c s IH]; simpl; [reflexivity|].
  rewrite <- IH, is_space_lower_char.
  destruct (trimEnd s); simpl; [destruct (is_space c)|]; reflexivity.
Qed.

(** Lower-casing and trimming commute: [email.toLowerCase ().trim ()] is
    the lower-cased trimmed address. *)
Lemma toLowerCase_trim s : toLowerCase (trim s) = trim (toLowerCase s).
Proof. unfold trim. rewrite toLowerCase_trimEnd, toLowerCase_trimStart. reflexivity. Qed.

Lemma length_toLowerCase s : String.length (toLowerCase s) = String.length s.
Proof. induction s; simpl; congruence. Qed.

Lemma length_trimStart s : (String.length (trimStart s) <= String.length s)%nat.
Proof. induction s as [|c s IH]; simpl; [lia|]. destruct (is_space c); simpl; lia. Qed.

Lemma length_trimEnd s : (String.length (trimEnd s) <= String.length s)%nat.
Proof.
  induction s as [|c s IH]; simpl; [lia|].
  destruct (trimEnd s); [destruct (is_space c)|]; simpl in *; lia.
Qed.

Lemma length_trim s : (String.length (trim s) <= String.length s)%nat.
Proof.
  unfold trim. pose proof (length_trimEnd (trimStart s)).
  pose proof (length_trimStart s). lia.
Qed.

Lemma lower_char_idem c : lower_char (lower_char c) = lower_char c.
Proof. destruct c as [[] [] [] [] [] [] [] []]; reflexivity. Qed.

Lemma toLowerCase_idem s : toLowerCase (toLowerCase s) = toLowerCase s.
Proof. induction s; simpl; [|rewrite lower_char_idem]; congruence. Qed.

Lemma trimStart_no_leading_space s : no_leading_space (trimStart s).
Proof.
  induction s as [|c s IH]; simpl; [exact I|].
  destruct (is_space c) eqn:Hc; [exact IH | exact Hc].
Qed.

Lemma trimStart_fixed s : no_leading_space s -> trimStart s = s.
Proof. destruct s as [|c s]; simpl; [reflexivity|]. intros ->. reflexivity. Qed.

Lemma trimEnd_no_leading_space s : no_leading_space s -> no_leading_space (trimEnd s).
Proof.
  destruct s as [|c s]; simpl; [auto|]. intros Hc.
  destruct (trimEnd s); [rewrite Hc|]; exact Hc.
Qed.

Lemma trimEnd_idem s : trimEnd (trimEnd s) = trimEnd s.
Proof.
  induction s as [|c s IH]; simpl; [reflexivity|].
  destruct (trimEnd s) as [|c' t] eqn:Ht.
  - destruct (is_space c) eqn:Hc; simpl; [|rewrite Hc]; reflexivity.
  - change (trimEnd (String c (String c' t))) with
      (match trimEnd (String c' t) with
       | EmptyString => if is_space c then EmptyString else String c EmptyString
       | String a b => String c (String a b)
       end).
    rewrite IH. reflexivity.
Qed.

Lemma trim_idem s : trim (trim s) = trim s.
Proof.
  unfold trim.
  rewrite (trimStart_fixed (trimEnd (trimStart s))).
  - apply trimEnd_idem.
  - apply trimEnd_no_leading_space, trimStart_no_leading_space.
Qed.

(** The address as the handlers store and look it up. *)
Lemma normalize_idem s :
  trim (toLowerCase (trim (toLowerCase s))) = trim (toLowerCase s).
Proof. rewrite toLowerCase_trim, toLowerCase_idem. apply trim_idem. Qed.

Lemma varchar_fits n s : (String.length s <= n)%nat -> varchar n s = Some s.
Proof.
  intros H. unfold varchar.
  destruct (String.length s <=? n)%nat eqn:Hl; [reflexivity|].
  apply Nat.leb_gt in Hl. lia.
Qed.

(** *** Rows selected by a condition *)

Lemma selected_nonempty {K A} `{Countable K} (m : gmap K A)
    (P : K * A -> Prop) `{!forall x, Decision (P x)} k a :
  m !! k = Some a -> P (k, a) ->
  (0 <? List.length (fst <$> map_to_list (filter P m)))%nat = true.
Proof.
  intros Hk HP.
  assert (Hin : (k, a) ∈ map_to_list (filter P m)).
  { apply elem_of_map_to_list, map_lookup_filter_Some. auto. }
  destruct (map_to_list (filter P m)); [inversion Hin | reflexivity].
Qed.

Lemma selected_empty {K A} `{Countable K} (m : gmap K A)
    (P : K * A -> Prop) `{!forall x, Decision (P x)} :
  (0 <? List.length (fst <$> map_to_list (filter P m)))%nat = false ->
  forall k a, m !! k = Some a -> ~ P (k, a).
Proof.
  intros Hlen k a Hk HP.
  rewrite (selected_nonempty m P k a Hk HP) in Hlen. discriminate.
Qed.

Lemma selected_single {K A} `{Countable K} (m : gmap K A)
    (P : K * A -> Prop) `{!forall x, Decision (P x)} k a :
  (forall i x, m !! i = Some x -> ~ P (i, x)) -> P (k, a) ->
  map_to_list (filter P (<[k := a]> m)) = [(k, a)].
Proof.
  intros Hnone HP.
  rewrite map_filter_insert_True by exact HP.
  assert (Hempty : filter P m = ∅).
  { apply map_empty_filter. intros i x Hi. exact (Hnone i x Hi). }
  rewrite Hempty, insert_empty. apply map_to_list_singleton.
Qed.

Lemma not_taken {K A} `{Countable K} (m : gmap K A) (P : K -> A -> Prop)
    `{!forall i x, Decision (P i x)} :
  bool_decide (map_Exists P m) = false -> forall i x, m !! i = Some x -> ~ P i x.
Proof.
  intros Hb i x Hi HP. apply bool_decide_eq_false in Hb. apply Hb.
  exists i, x. auto.
Qed.

(** *** What the schemas guarantee *)

Lemma and_then_Some {A B} (o : option A) (f : A -> option B) b :
  o |> f = Some b -> exists a, o = Some a /\ f a = Some b.
Proof. destruct o as [a|]; simpl; [eauto | discriminate]. Qed.

Lemma z_min_Some n s s' :
  z_min n s = Some s' -> s' = s /\ (n <= String.length s)%nat.
Proof.
  unfold z_min. destruct (n <=? String.length s)%nat eqn:H; [|discriminate].
  intros [= <-]. apply Nat.leb_le in H. auto.
Qed.

Lemma z_max_Some n s s' :
  z_max n s = Some s' -> s' = s /\ (String.length s <= n)%nat.
Proof.
  unfold z_max. destruct (String.length s <=? n)%nat eqn:H; [|discriminate].
  intros [= <-]. apply Nat.leb_le in H. auto.
Qed.

Lemma z_refine_Some {A} (p : A -> bool) a a' :
  z_refine p a = Some a' -> a' = a /\ p a = true.
Proof. unfold z_refine. destruct (p a) eqn:H; [|discriminate]. intros [= <-]. auto. Qed.

Lemma z_optional_Some {A} (schema : jsval -> option A) v a :
  z_optional schema v = Some (Some a) -> schema v = Some a.
Proof.
  unfold z_optional. destruct v; try discriminate;
    (destruct (schema _); simpl; [intros [= ->]; reflexivity | discriminate]).
Qed.

Lemma z_nullable_Some {A} (schema : jsval -> option A) v a :
  z_nullable schema v = Some (Some a) -> schema v = Some a.
Proof.
  unfold z_nullable. destruct v; try discriminate;
    (destruct (schema _); simpl; [intros [= ->]; reflexivity | discriminate]).
Qed.

(** Reads a successful parse back into the facts each check established. *)
Ltac zod_facts :=
  repeat match goal with
         | H : _ |> _ = Some _ |- _ =>
             apply and_then_Some in H; destruct H as (? & ? & H)
         | H : z_min _ _ = Some _ |- _ => apply z_min_Some in H; destruct H as [-> H]
         | H : z_max _ _ = Some _ |- _ => apply z_max_Some in H; destruct H as [-> H]
         | H : z_refine _ _ = Some _ |- _ =>
             apply z_refine_Some in H; destruct H as [-> H]
         | H : z_optional _ _ = Some (Some _) |- _ => apply z_optional_Some in H
         | H : z_nullable _ _ = Some (Some _) |- _ => apply z_nullable_Some in H
         end.

Lemma createUserInput_valid E v input :
  createUserInputSchema E v = Some input ->
  (String.length (in_username input) <= 50)%nat /\
  (String.length (in_email input) <= 100)%nat /\
  (8 <= String.length (in_password_hash input))%nat /\
  (forall f, in_full_name input = Some (Some f) -> (String.length f <= 100)%nat).
Proof.
  unfold createUserInputSchema. intros H.
  destruct (z_object v) as [o|]; simpl in H; [|discriminate].
  destruct (z_string (prop "username" o) |> z_min 1 |> z_max 50)
    as [username|] eqn:Hu; simpl in H; [|discriminate].
  destruct (z_string (prop "email" o) |> z_min 1 |> z_max 100 |> z_refine (is_email E))
    as [email|] eqn:He; simpl in H; [|discriminate].
  destruct (z_string (prop "password_hash" o) |> z_min 8)
    as [password|] eqn:Hp; simpl in H; [|discriminate].
  destruct (z_optional _ (prop "full_name" o)) as [full_name|] eqn:Hf;
    simpl in H; [|discriminate].
  destruct (z_optional _ (prop "profile_image_url" o)) as [url|] eqn:Hi;
    simpl in H; [|discriminate].
  injection H as <-. simpl.
  repeat split.
  - zod_facts. assumption.
  - zod_facts. assumption.
  - zod_facts. assumption.
  - intros f ->. zod_facts. assumption.
Qed.

Lemma trim_or_null_length o n :
  (forall f, o = Some f -> (String.length f <= n)%nat) ->
  varchar_null n (trim_or_null o) = Some (trim_or_null o).
Proof.
  intros H. destruct o as [f|]; simpl; [|reflexivity].
  destruct (String.eqb (trim f) ""); simpl; [reflexivity|].
  rewrite varchar_fits; [reflexivity|].
  pose proof (length_trim f). specialize (H f eq_refl). lia.
Qed.

(** *** Registration *)

(** A registration answered 201 has inserted exactly the row of the input,
    under the next id of the sequence, and no row had its address or its
    user name before. *)
Lemma register_created E now rnd req input d :
  createUserInputSchema E (req_body req) = Some input ->
  status (fst (register E now rnd req d)) = 201 ->
  exists stored_password,
    let id := users_id_seq d in
    let row := registered_row now rnd input stored_password in
    varchar 255 (in_password_hash input) = Some stored_password /\
    users d !! id = None /\
    (forall i x, users d !! i = Some x ->
                 u_email x <> normalize (in_email input)
                 /\ u_username x <> trim (in_username input)) /\
    register E now rnd req d =
      (res_json 201
         (JObj [("user", user_object (public id row) (iso_string E now));
                ("auth_token",
                 JStr (jwt_sign E (token_payload (public id row)) (JWT_SECRET E) now))]),
       with_users (insert id row) (nextval_users d)).
Proof.
  intros Hparse Hst.
  destruct (createUserInput_valid _ _ _ Hparse) as (Hu & He & Hp & Hf).
  unfold register, try_catch, bind, parse in *. rewrite Hparse in *.
  unfold select_user_taken, select, ret in *. simpl in *.
  match type of Hst with
  | context [(0 <? ?n)%nat] => destruct (0 <? n)%nat eqn:Htaken
  end; [discriminate Hst|].
  pose proof (selected_empty _ _ Htaken) as Hfree. simpl in Hfree.
  unfold insert_user in *.
  rewrite (varchar_fits 50 (trim (in_username input))) in *
    by (pose proof (length_trim (in_username input)); lia).
  rewrite (varchar_fits 100 (trim (toLowerCase (in_email input)))) in *
    by (pose proof (length_trim (toLowerCase (in_email input)));
        rewrite length_toLowerCase in *; lia).
  destruct (varchar 255 (in_password_hash input)) as [p|] eqn:Hpw;
    [|discriminate Hst].
  rewrite trim_or_null_length in *
    by (intros f Hf'; apply Hf; destruct (in_full_name input) as [[?|]|];
        simpl in Hf'; congruence).
  destruct (bool_decide (is_Some (users d !! users_id_seq d))) eqn:Hpk;
    [discriminate Hst|].
  destruct (username_taken _ _) eqn:Hun; [discriminate Hst|].
  destruct (email_taken _ _) eqn:Hem; [discriminate Hst|].
  simpl in *. exists p. repeat split.
  - apply bool_decide_eq_false in Hpk. apply eq_None_not_Some. exact Hpk.
  - intros Heq. apply (Hfree i x H). left. exact Heq.
  - intros Heq. apply (Hfree i x H). right. exact Heq.
Qed.

Lemma normalized_seed : normalized seed.
Proof. apply (bool_decide_unpack _). vm_compute. exact I. Qed.

(** A validated registration is refused as soon as a stored user has the
    normalised address or the trimmed user name of the input, and then
    nothing is written. *)
Lemma registration_taken E now rnd req input d id row :
  createUserInputSchema E (req_body req) = Some input ->
  users d !! id = Some row ->
  u_email row = normalize (in_email input)
  \/ u_username row = trim (in_username input) ->
  register E now rnd req d
  = (bad_request E now "User with this email or username already exists"
                 "USER_ALREADY_EXISTS", d).
Proof.
  intros Hparse Hrow Hdup.
  unfold register, try_catch, bind, parse. rewrite Hparse.
  unfold select_user_taken, select, ret. simpl.
  rewrite (selected_nonempty (users d) _ id row Hrow); [reflexivity|].
  exact Hdup.
Qed.

(** C4 (counterexample).  The body is validated before the duplicate is
    looked for: a registration under the user name and the address of the
    first seeded user, with a password of five characters, is answered 400
    with [error_code] VALIDATION_ERROR, not USER_ALREADY_EXISTS. *)
Lemma duplicate_with_short_password_is_invalid :
  (exists row, users seed !! 1 = Some row
               /\ prop "email" (req_body short_duplicate) = JStr (u_email row)
               /\ prop "username" (req_body short_duplicate) = JStr (u_username row)) /\
  status (fst (register sample_env 0 0 short_duplicate seed)) = 400 /\
  error_code (fst (register sample_env 0 0 short_duplicate seed))
  = Some (Jstr "VALIDATION_ERROR") /\
  error_code (fst (register sample_env 0 0 short_duplicate seed))
  <> Some (Jstr "USER_ALREADY_EXISTS").
Proof.
  split; [|split; [|split]].
  - eexists. split; [reflexivity|]. split; reflexivity.
  - reflexivity.
  - reflexivity.
  - discriminate.
Qed.

(** C4 (amended).  A registration whose body passes validation and whose
    address or user name equals that of a stored user is answered 400 with
    [error_code] USER_ALREADY_EXISTS; a registration whose body fails
    validation is answered 400 with [error_code] VALIDATION_ERROR, whether
    or not its address or user name is stored.  In both cases the database
    after the request is the database before it: no row is inserted.
    (Stored addresses and names are in the normal form in which every
    handler writes them.) *)
Theorem duplicate_registration_rejected E now rnd req d :
  normalized d ->
  (forall input id row,
     createUserInputSchema E (req_body req) = Some input ->
     users d !! id = Some row ->
     u_email row = in_email input \/ u_username row = in_username input ->
     status (fst (register E now rnd req d)) = 400 /\
     error_code (fst (register E now rnd req d)) = Some (Jstr "USER_ALREADY_EXISTS") /\
     snd (register E now rnd req d) = d) /\
  (createUserInputSchema E (req_body req) = None ->
   status (fst (register E now rnd req d)) = 400 /\
   error_code (fst (register E now rnd req d)) = Some (Jstr "VALIDATION_ERROR") /\
   snd (register E now rnd req d) = d).
Proof.
  intros Hnorm. split.
  - intros input id row Hparse Hrow Hdup.
    destruct (Hnorm id row Hrow) as [Hemail Hname].
    rewrite (registration_taken E now rnd req input d id row Hparse Hrow).
    + split; [reflexivity|]. split; reflexivity.
    + destruct Hdup as [Heq|Heq]; [left|right].
      * rewrite <- Heq. symmetry. exact Hemail.
      * rewrite <- Heq. symmetry. exact Hname.
  - intros Hparse. unfold register. cbv [try_catch bind parse]. rewrite Hparse.
    split; [reflexivity|]. split; reflexivity.
Qed.

(** C4 on the seed data: a registration under the user name [john_doe],
    and one under that name with a password that is too short. *)
Lemma duplicate_registration_rejected_witness :
  (status (fst (register sample_env 0 0 register_john_again seed)) = 400 /\
   error_code (fst (register sample_env 0 0 register_john_again seed))
   = Some (Jstr "USER_ALREADY_EXISTS") /\
   snd (register sample_env 0 0 register_john_again seed) = seed) /\
  (status (fst (register sample_env 0 0 short_duplicate seed)) = 400 /\
   error_code (fst (register sample_env 0 0 short_duplicate seed))
   = Some (Jstr "VALIDATION_ERROR") /\
   snd (register sample_env 0 0 short_duplicate seed) = seed).
Proof.
  split.
  - apply (proj1 (duplicate_registration_rejected sample_env 0 0 register_john_again
                    seed normalized_seed)
             {| in_username := "john_doe"; in_email := "another@example.com";
                in_password_hash := "password456"; in_full_name := None;
                in_profile_image_url := None |}
             1
             (seed_user "john_doe" "john@example.com" "password123" "John Doe" "42")).
    + reflexivity.
    + reflexivity.
    + right. reflexivity.
  - apply (proj2 (duplicate_registration_rejected sample_env 0 0 short_duplicate
                    seed normalized_seed)).
    reflexivity.
Defined.

Lemma normalize_empty s : normalize s <> "" -> s <> "".
Proof. intros H ->. apply H. reflexivity. Qed.

Lemma prop_object k v s : prop k v = JStr s -> exists l, v = JObj l.
Proof. destruct v; simpl; try discriminate. eauto. Qed.

Lemma eqb_empty s : s <> "" -> String.eqb s "" = false.
Proof. intros H. apply String.eqb_neq. exact H. Qed.

(** A login that finds one account under the normalised address and offers
    the stored password is answered 200 with that account. *)
Lemma login_found E now req d e p id row t :
  prop "email" (req_body req) = JStr e ->
  prop "password_hash" (req_body req) = JStr p ->
  e <> "" -> p <> "" ->
  map_to_list (filter (fun kv => u_email (snd kv) = normalize e) (users d))
  = [(id, row)] ->
  u_password_hash row = p ->
  u_created_at row = Some t ->
  login E now req d =
    (res_json 200
       (JObj [("user", user_object (public id row) (iso_string E t));
              ("auth_token",
               JStr (jwt_sign E (token_payload (public id row)) (JWT_SECRET E) now))]),
     d).
Proof.
  intros Hemail Hpw He Hp Hrows Hstored Ht.
  destruct (prop_object _ _ _ Hemail) as [l Hbody].
  unfold login. rewrite Hbody in *.
  cbv [try_catch bind ret destructure]. rewrite Hemail, Hpw.
  cbv [truthy]. rewrite (eqb_empty _ He), (eqb_empty _ Hp).
  cbv [negb orb lower_trim ret select_user_by_email select].
  fold (normalize e). rewrite Hrows.
  cbv [differs]. rewrite Hstored, String.eqb_refl.
  cbv [negb user_json toISOString bind pu_created_at public ret]. rewrite Ht.
  reflexivity.
Qed.

Lemma answered_user_session st u token :
  answered_user (res_json st (JObj [("user", u); ("auth_token", JStr token)]))
  = stringify u.
Proof.
  unfold answered_user, res_json. simpl.
  destruct (stringify u); reflexivity.
Qed.

Lemma stringify_user_object u created : is_Some (stringify (user_object u created)).
Proof. unfold user_object. simpl. eauto. Qed.

(** C10 (counterexample).  The schema puts no upper bound on the password
    and the column holds 255 characters: a password of 255 letters and a
    space is stored without the space, the registration is answered 201,
    and the login with the same address and the same password is answered
    401. *)
Lemma long_password_cannot_log_in :
  createUserInputSchema sample_env (req_body register_bob)
  = Some {| in_username := "bob"; in_email := "b@x.com";
            in_password_hash := long_password; in_full_name := None;
            in_profile_image_url := None |} /\
  prop "email" (req_body login_bob) = JStr "b@x.com" /\
  prop "password_hash" (req_body login_bob) = JStr long_password /\
  status (fst (register sample_env 5 7 register_bob seed)) = 201 /\
  status (fst (login sample_env 9 login_bob
                 (snd (register sample_env 5 7 register_bob seed)))) = 401.
Proof.
  split; [vm_compute; reflexivity|].
  split; [reflexivity|]. split; [reflexivity|].
  split; vm_compute; reflexivity.
Qed.

(** C10 (amended).  Registration looks for a duplicate of, and stores, the
    lower-cased, trimmed address, and login looks the account up by the
    lower-cased, trimmed address it is given.  After a registration
    answered 201, whose password is no longer than the 255 characters of
    its column: no user had the normalised address before; the row stored
    carries it; a login with any address that is equal to the registered
    one after trimming and lower-casing, and with the registered password,
    is answered 200 with the same user object and changes nothing; and a
    further validated registration with any such address is answered 400
    USER_ALREADY_EXISTS and changes nothing.  (The registered address is
    not blank.) *)
Theorem login_after_register E now rnd req input d now' req' e' :
  createUserInputSchema E (req_body req) = Some input ->
  status (fst (register E now rnd req d)) = 201 ->
  toLowerCase (trim (in_email input)) <> "" ->
  (String.length (in_password_hash input) <= 255)%nat ->
  toLowerCase (trim e') = toLowerCase (trim (in_email input)) ->
  prop "email" (req_body req') = JStr e' ->
  prop "password_hash" (req_body req') = JStr (in_password_hash input) ->
  let d1 := snd (register E now rnd req d) in
  (forall i x, users d !! i = Some x ->
               u_email x <> toLowerCase (trim (in_email input))) /\
  (exists row, users d1 !! users_id_seq d = Some row
               /\ u_email row = toLowerCase (trim (in_email input))) /\
  status (fst (login E now' req' d1)) = 200 /\
  is_Some (answered_user (fst (login E now' req' d1))) /\
  answered_user (fst (login E now' req' d1))
  = answered_user (fst (register E now rnd req d)) /\
  snd (login E now' req' d1) = d1 /\
  (forall now2 rnd2 req2 input2,
     createUserInputSchema E (req_body req2) = Some input2 ->
     toLowerCase (trim (in_email input2)) = toLowerCase (trim (in_email input)) ->
     register E now2 rnd2 req2 d1
     = (bad_request E now2 "User with this email or username already exists"
                    "USER_ALREADY_EXISTS", d1)).
Proof.
  intros Hparse Hst Hblank Hlen Hsame Hemail Hpw d1.
  destruct (createUserInput_valid _ _ _ Hparse) as (_ & _ & Hp & _).
  destruct (register_created E now rnd req input d Hparse Hst)
    as (stored & Hstored & Hfresh & Hfree & Hreg).
  rewrite varchar_fits in Hstored by exact Hlen. injection Hstored as <-.
  rewrite !toLowerCase_trim in *. fold (normalize e') in Hsame.
  fold (normalize (in_email input)) in Hsame, Hblank |- *.
  assert (He' : e' <> "").
  { apply normalize_empty. rewrite Hsame. exact Hblank. }
  assert (Hp' : in_password_hash input <> "").
  { intros Heq. rewrite Heq in Hp. simpl in Hp. lia. }
  subst d1. rewrite Hreg. cbn [fst snd].
  set (row := registered_row now rnd input (in_password_hash input)).
  split; [intros i x Hi; apply (Hfree i x Hi)|].
  rewrite (login_found E now' req' _ e' (in_password_hash input)
             (users_id_seq d) row now Hemail Hpw He' Hp'); cbn [fst snd].
  - rewrite !answered_user_session.
    split; [exists row; split; [apply lookup_insert_eq | reflexivity]|].
    split; [reflexivity|].
    split; [apply stringify_user_object|].
    split; [reflexivity|]. split; [reflexivity|].
    intros now2 rnd2 req2 input2 Hparse2 Hsame2.
    apply (registration_taken E now2 rnd2 req2 input2 _ (users_id_seq d) row Hparse2);
      [apply lookup_insert_eq|].
    left. rewrite !toLowerCase_trim in Hsame2. symmetry. exact Hsame2.
  - cbn [users with_users nextval_users]. rewrite Hsame.
    apply selected_single.
    + intros i x Hi. apply (Hfree i x Hi).
    + reflexivity.
  - reflexivity.
  - reflexivity.
Qed.

(** C10 in the scenario of the specification: registered with [a@x.com],
    logging in with the address in capitals and blanks around it, and
    registering that address again, in capitals. *)
Lemma login_after_register_witness :
  let d1 := snd (register sample_env 5 7 register_alice seed) in
  (exists row, users d1 !! 6 = Some row /\ u_email row = "a@x.com") /\
  status (fst (login sample_env 9 login_alice d1)) = 200 /\
  is_Some (answered_user (fst (login sample_env 9 login_alice d1))) /\
  answered_user (fst (login sample_env 9 login_alice d1))
  = answered_user (fst (register sample_env 5 7 register_alice seed)) /\
  snd (login sample_env 9 login_alice d1) = d1 /\
  register sample_env 10 3 register_alice_again d1
  = (bad_request sample_env 10 "User with this email or username already exists"
                 "USER_ALREADY_EXISTS", d1).
Proof.
  destruct (login_after_register sample_env 5 7 register_alice
              {| in_username := "alice"; in_email := "a@x.com";
                 in_password_hash := "longpass1"; in_full_name := None;
                 in_profile_image_url := None |}
              seed 9 login_alice "  A@X.COM "
              eq_refl eq_refl ltac:(discriminate) ltac:(simpl; lia)
              eq_refl eq_refl eq_refl)
    as (_ & H1 & H2 & H3 & H4 & H5 & H6).
  split; [exact H1|]. split; [exact H2|]. split; [exact H3|].
  split; [exact H4|]. split; [exact H5|].
  apply (H6 10 3 register_alice_again
            {| in_username := "alice2"; in_email := "A@X.com";
               in_password_hash := "longpass2"; in_full_name := None;
               in_profile_image_url := None |});
    reflexivity.
Defined.

(** *** Likes *)

Lemma key_absent {K A} `{EqDecision K} (l : list (K * A)) k :
  k ∉ fst <$> l -> List.filter (fun kv => bool_decide (fst kv = k)) l = [].
Proof.
  induction l as [|[k' a'] l IH]; simpl; intros H; [reflexivity|].
  apply not_elem_of_cons in H as [Hne H].
  rewrite bool_decide_eq_false_2 by (simpl; congruence). auto.
Qed.

Lemma key_once {K A} `{EqDecision K} (l : list (K * A)) k a :
  NoDup (fst <$> l) -> (k, a) ∈ l ->
  List.length (List.filter (fun kv => bool_decide (fst kv = k)) l) = 1%nat.
Proof.
  induction l as [|[k' a'] l IH]; intros Hnd Hin; [inversion Hin|].
  rewrite fmap_cons in Hnd. apply NoDup_cons in Hnd as [Hk' Hnd].
  simpl. apply elem_of_cons in Hin as [Heq|Hin].
  - injection Heq as <- <-. rewrite bool_decide_eq_true_2 by reflexivity.
    simpl. rewrite key_absent by exact Hk'. reflexivity.
  - rewrite bool_decide_eq_false_2.
    + apply IH; assumption.
    + simpl. intros ->. apply Hk'.
      apply (list_elem_of_fmap_2 fst) in Hin. exact Hin.
Qed.

(** The rows of [likes] for a pair. *)
Lemma like_rows_once d u p row :
  likes d !! (u, p) = Some row ->
  List.length (List.filter (fun kv => bool_decide (fst kv = (u, p)))
                           (map_to_list (likes d))) = 1%nat.
Proof.
  intros H. apply (key_once _ (u, p) row).
  - apply NoDup_fst_map_to_list.
  - apply elem_of_map_to_list. exact H.
Qed.

(** C5.  For a pair (user, post) that has a like row, [POST /api/likes]
    for that pair is answered 400 with [error_code] LIKE_ALREADY_EXISTS and
    leaves the database as it was; the table holds exactly one row for the
    pair afterwards.  (The like rows reference stored users and posts, as
    the foreign keys of the table require.) *)
Theorem like_twice_rejected E now req input d u p row :
  createLikeInputSchema (req_body req) = Some input ->
  pg_int4 E (in_user_id input) = Some u ->
  pg_int4 E (in_post_id input) = Some p ->
  likes_reference d ->
  likes d !! (u, p) = Some row ->
  status (fst (create_like E now req d)) = 400 /\
  error_code (fst (create_like E now req d)) = Some (Jstr "LIKE_ALREADY_EXISTS") /\
  snd (create_like E now req d) = d /\
  List.length (List.filter (fun kv => bool_decide (fst kv = (u, p)))
                           (map_to_list (likes (snd (create_like E now req d)))))
  = 1%nat.
Proof.
  intros Hparse Hu Hp Hfk Hlike.
  destruct (Hfk (u, p) row Hlike) as [[ru Hru] [rp Hrp]]. simpl in Hru, Hrp.
  assert (Hrun : create_like E now req d
                 = (bad_request E now "Like already exists" "LIKE_ALREADY_EXISTS", d)).
  { unfold create_like. cbv [try_catch bind parse]. rewrite Hparse.
    cbv [ret select_user_id select_post_id select_like int_param bind select].
    rewrite Hu, Hp. cbv [ret by_key]. rewrite Hru. cbn.
    rewrite Hrp. cbn. rewrite Hlike. reflexivity. }
  rewrite Hrun. cbn [fst snd]. repeat split.
  apply (like_rows_once d u p row Hlike).
Qed.

Lemma likes_reference_seed : likes_reference seed.
Proof. apply (bool_decide_unpack _). vm_compute. exact I. Qed.

(** C5 on the seed data: the second user likes the first post again. *)
Lemma like_twice_rejected_witness :
  status (fst (create_like sample_env 0 like_again seed)) = 400 /\
  error_code (fst (create_like sample_env 0 like_again seed))
  = Some (Jstr "LIKE_ALREADY_EXISTS") /\
  snd (create_like sample_env 0 like_again seed) = seed /\
  List.length (List.filter (fun kv => bool_decide (fst kv = (2, 1)))
                 (map_to_list (likes (snd (create_like sample_env 0 like_again seed)))))
  = 1%nat.
Proof.
  apply (like_twice_rejected sample_env 0 like_again
           {| in_user_id := "2"; in_post_id := "1" |} seed 2 1 seed_like).
  - reflexivity.
  - reflexivity.
  - reflexivity.
  - exact likes_reference_seed.
  - reflexivity.
Defined.

(** A like that was created is there: a [POST /api/likes] answered 201 has
    inserted the row of its pair, for a stored user and a stored post. *)
Lemma create_like_created E now req d :
  status (fst (create_like E now req d)) = 201 ->
  exists input u p,
    createLikeInputSchema (req_body req) = Some input
    /\ pg_int4 E (in_user_id input) = Some u
    /\ pg_int4 E (in_post_id input) = Some p
    /\ is_Some (users d !! u) /\ is_Some (posts d !! p)
    /\ snd (create_like E now req d)
       = with_likes (insert (u, p) {| l_created_at := Some now |}) d.
Proof.
  unfold create_like. cbv [try_catch bind parse].
  destruct (createLikeInputSchema (req_body req)) as [input|];
    [|cbv [throw fst catch_zod]; destruct (String.eqb _ _); discriminate].
  cbv [ret select_user_id select_post_id select_like insert_like int_param bind select].
  destruct (pg_int4 E (in_user_id input)) as [u|] eqn:Hiu; [|discriminate].
  cbv [ret by_key].
  destruct (users d !! u) as [ru|] eqn:Hu; [|discriminate].
  cbn [fmap list_fmap List.length Nat.eqb].
  destruct (pg_int4 E (in_post_id input)) as [p|] eqn:Hip; [|discriminate].
  destruct (posts d !! p) as [rp|] eqn:Hp; [|discriminate].
  cbn [fmap list_fmap List.length Nat.eqb].
  destruct (likes d !! (u, p)) as [rl|] eqn:Hl; [discriminate|].
  cbn [List.length Nat.ltb Nat.leb].
  destruct (bool_decide (is_Some (users d !! u))) eqn:Huser; [|discriminate].
  destruct (bool_decide (is_Some (posts d !! p))) eqn:Hpost; [|discriminate].
  destruct (bool_decide (is_Some (likes d !! (u, p)))); [discriminate|].
  cbn [andb negb first_row ret toISOString bind snd fst l_created_at].
  intros _. exists input, u, p.
  split; [reflexivity|]. split; [exact Hiu|]. split; [exact Hip|].
  split; [apply (bool_decide_eq_true_1 _ Huser)|].
  split; [apply (bool_decide_eq_true_1 _ Hpost) | reflexivity].
Qed.

(** The same request, sent a second time, is refused and changes nothing. *)
Lemma second_like_rejected E now now' req d :
  status (fst (create_like E now req d)) = 201 ->
  status (fst (create_like E now' req (snd (create_like E now req d)))) = 400 /\
  error_code (fst (create_like E now' req (snd (create_like E now req d))))
  = Some (Jstr "LIKE_ALREADY_EXISTS") /\
  snd (create_like E now' req (snd (create_like E now req d)))
  = snd (create_like E now req d).
Proof.
  intros Hst.
  destruct (create_like_created E now req d Hst)
    as (input & u & p & Hparse & Hu & Hp & [ru Hru] & [rp Hrp] & ->).
  assert (Hrun : forall d1,
             users d1 !! u = Some ru -> posts d1 !! p = Some rp ->
             is_Some (likes d1 !! (u, p)) ->
             create_like E now' req d1
             = (bad_request E now' "Like already exists" "LIKE_ALREADY_EXISTS", d1)).
  { intros d1 H1 H2 [rl H3]. unfold create_like. cbv [try_catch bind parse].
    rewrite Hparse.
    cbv [ret select_user_id select_post_id select_like int_param bind select].
    rewrite Hu, Hp. cbv [ret by_key]. rewrite H1. cbn.
    rewrite H2. cbn. rewrite H3. reflexivity. }
  rewrite Hrun.
  - split; [reflexivity|]. split; reflexivity.
  - exact Hru.
  - exact Hrp.
  - cbn [likes with_likes]. rewrite lookup_insert_eq. eauto.
Qed.

(** *** Listing users *)

(** No value of a parsed query string is a number. *)
Lemma z_number_query v : z_number (js_of_qs v) = None.
Proof. destruct v; reflexivity. Qed.

Lemma prop_query k q :
  prop k (query_object q) = JUndefined
  \/ exists v, prop k (query_object q) = js_of_qs v.
Proof.
  unfold query_object. simpl. induction q as [|[k' v] q IH]; simpl; [auto|].
  destruct (String.eqb k k'); [right; eauto | exact IH].
Qed.

Lemma z_default_number_query (check : Z -> bool) dflt k q :
  z_default (fun x => z_number x |> z_refine check) dflt (prop k (query_object q))
  = if is_undefined (prop k (query_object q)) then Some dflt else None.
Proof.
  destruct (prop_query k q) as [H|[v H]]; rewrite H.
  - reflexivity.
  - destruct v; reflexivity.
Qed.

Lemma is_undefined_false v : v <> JUndefined -> is_undefined v = false.
Proof. destruct v; [congruence | reflexivity ..]. Qed.

(** A request that carries [limit] or [offset] in its query string fails
    validation, whatever the value. *)
Lemma list_users_rejects_supplied E now req d :
  prop "limit" (query_object (req_query req)) <> JUndefined
  \/ prop "offset" (query_object (req_query req)) <> JUndefined ->
  list_users E now req d = (validation_error E now, d).
Proof.
  intros H. unfold list_users.
  assert (Hparse : searchUserInputSchema (query_object (req_query req)) = None).
  { unfold searchUserInputSchema.
    change (z_object (query_object (req_query req)))
      with (Some (query_object (req_query req))).
    cbn -[prop query_object z_default z_optional].
    destruct (z_optional z_string _);
      cbn -[prop query_object z_default z_optional]; [|reflexivity].
    rewrite !z_default_number_query.
    destruct H as [H|H].
    - rewrite (is_undefined_false _ H). reflexivity.
    - rewrite (is_undefined_false _ H). destruct (is_undefined _); reflexivity. }
  cbv [try_catch bind parse]. rewrite Hparse. reflexivity.
Qed.

Lemma map_M_length {A B} (f : A -> M B) (l : list A) :
  post (map_M f l) (fun bs => List.length bs = List.length l).
Proof.
  induction l as [|a l IH]; simpl.
  - apply post_ret. reflexivity.
  - apply post_bind_any. intros b.
    apply (post_bind _ _ _ _ IH). intros bs Hbs.
    apply post_ret. simpl. congruence.
Qed.

(** Without [limit] and [offset] the defaults 10 and 0 apply: a listing
    answered 200 holds at most ten users. *)
Lemma list_users_default_page E now req d :
  req_query req = [] ->
  status (fst (list_users E now req d)) = 200 ->
  exists l, items (fst (list_users E now req d)) = Some l
            /\ (List.length l <= 10)%nat.
Proof.
  intros Hq. unfold list_users. rewrite Hq.
  cbv [try_catch bind parse query_object js_of_qs List.map searchUserInputSchema].
  simpl. cbv [select_users_page select].
  pose proof (map_M_length (user_json E)
                (take (Z.to_nat 10) (drop (Z.to_nat 0)
                   (pg_order_by E by_created_at desc
                      (List.filter (matches E None)
                         ((fun kv => public (fst kv) (snd kv)) <$> map_to_list (users d))))))
                d) as Hlen.
  destruct (map_M _ _ d) as [[bs|e] d'].
  - intros _. cbv [ret fst]. unfold items, res_json. simpl.
    eexists. split; [reflexivity|].
    rewrite List.length_map, Hlen, length_take. lia.
  - cbv [fst]. unfold catch_zod.
    destruct (String.eqb _ _); simpl; discriminate.
Qed.

(** C7 (evaluation).  [GET /api/users] with a [limit] or an [offset] in
    the query string is answered 400 VALIDATION_ERROR for every value the
    query-string parser can produce, so also for [?limit=5&offset=0]: the
    schema asks for a number and the parser yields text. *)
Theorem pagination_parameters_rejected E now req d v q :
  list_users E now (with_query (("limit", v) :: q) req) d = (validation_error E now, d) /\
  list_users E now (with_query (("offset", v) :: q) req) d = (validation_error E now, d) /\
  list_users E now first_page d = (validation_error E now, d) /\
  status (validation_error E now) = 400 /\
  error_code (validation_error E now) = Some (Jstr "VALIDATION_ERROR").
Proof.
  split; [|split; [|split; [|split]]].
  - apply list_users_rejects_supplied. left. simpl. destruct v; discriminate.
  - apply list_users_rejects_supplied. right. simpl. destruct v; discriminate.
  - apply list_users_rejects_supplied. left. discriminate.
  - reflexivity.
  - reflexivity.
Qed.

(** *** Partial updates *)

Lemma updateUserInput_valid E v input :
  updateUserInputSchema E v = Some input ->
  (forall s, up_username input = Some s -> (String.length s <= 50)%nat) /\
  (forall s, up_email input = Some s -> (String.length s <= 100)%nat) /\
  (forall s, up_full_name input = Some (Some s) -> (String.length s <= 100)%nat).
Proof.
  unfold updateUserInputSchema. intros H.
  destruct (z_object v) as [o|]; simpl in H; [|discriminate].
  destruct (z_optional _ (prop "username" o)) as [username|] eqn:Hu;
    simpl in H; [|discriminate].
  destruct (z_optional _ (prop "email" o)) as [email|] eqn:He;
    simpl in H; [|discriminate].
  destruct (z_optional _ (prop "password_hash" o)) as [password|] eqn:Hp;
    simpl in H; [|discriminate].
  destruct (z_optional _ (prop "full_name" o)) as [full_name|] eqn:Hf;
    simpl in H; [|discriminate].
  destruct (z_optional _ (prop "profile_image_url" o)) as [url|] eqn:Hi;
    simpl in H; [|discriminate].
  injection H as <-. simpl.
  repeat split.
  - intros s ->. zod_facts. assumption.
  - intros s ->. zod_facts. assumption.
  - intros s ->. zod_facts. assumption.
Qed.

(** The assignments of a validated input, applied to a row. *)
Lemma user_assignments_applied input old new :
  (forall s, up_username input = Some s -> (String.length s <= 50)%nat) ->
  (forall s, up_email input = Some s -> (String.length s <= 100)%nat) ->
  (forall s, up_full_name input = Some (Some s) -> (String.length s <= 100)%nat) ->
  assign_users old (user_updateFields input) = Some new ->
  user_fields_kept input old new /\ user_fields_written input new.
Proof.
  intros Hu He Hf.
  assert (Hu' : forall s, up_username input = Some s ->
                          varchar 50 (trim s) = Some (trim s)).
  { intros s Hs. apply varchar_fits. pose proof (length_trim s).
    specialize (Hu s Hs). lia. }
  assert (He' : forall s, up_email input = Some s ->
                          varchar 100 (trim (toLowerCase s))
                          = Some (trim (toLowerCase s))).
  { intros s Hs. apply varchar_fits. pose proof (length_trim (toLowerCase s)).
    rewrite length_toLowerCase in *. specialize (He s Hs). lia. }
  assert (Hf' : forall v, up_full_name input = Some v ->
                          varchar_null 100 (trim_or_null v) = Some (trim_or_null v)).
  { intros v Hv. apply trim_or_null_length. intros f ->. apply Hf. exact Hv. }
  clear Hu He Hf.
  destruct input as [username email password full_name url].
  unfold user_updateFields, user_fields_kept, user_fields_written.
  cbn [up_username up_email up_password_hash up_full_name up_profile_image_url] in *.
  destruct username as [username|], email as [email|], password as [password|],
    full_name as [full_name|], url as [url|];
    cbn [app assign_users assign_user mbind option_bind];
    rewrite ?(Hu' _ eq_refl), ?(He' _ eq_refl), ?(Hf' _ eq_refl);
    cbn [mbind option_bind];
    try (destruct (varchar 255 password) as [stored|] eqn:Hpw;
         cbn [mbind option_bind]; [|discriminate]);
    intros [= <-]; cbn; repeat split; intros; congruence.
Qed.

(** What [PUT /api/users/:user_id] does to the database: nothing, with an
    answer other than 200, or exactly the assignments on the target row. *)
Lemma update_user_effect E now req d input s n old :
  updateUserInputSchema E (req_body req) = Some input ->
  param "user_id" req = JStr s ->
  pg_int4 E s = Some n ->
  users d !! n = Some old ->
  (snd (update_user E now req d) = d
   /\ status (fst (update_user E now req d)) <> 200)
  \/ (exists new,
        assign_users old (user_updateFields input) = Some new
        /\ snd (update_user E now req d) = with_users (insert n new) d).
Proof.
  intros Hparse Hparam Hint Hold.
  unfold update_user. cbv [try_catch bind parse]. rewrite Hparse.
  cbv [ret select_user_id int_param bind select]. rewrite Hparam, Hint.
  cbv [ret by_key]. rewrite Hold. cbn [fmap list_fmap List.length Nat.eqb fst].
  destruct (List.length (user_updateFields input) =? 0)%nat.
  { left. split; [reflexivity | discriminate]. }
  cbv [update_users int_param bind ret by_key]. rewrite Hint, Hold.
  destruct (assign_users old (user_updateFields input)) as [new|];
    [|left; split; [reflexivity | discriminate]].
  destruct (username_taken _ _ || email_taken _ _);
    [left; split; [reflexivity | discriminate]|].
  right. exists new. split; [reflexivity|].
  cbv [first_row ret user_json toISOString bind].
  destruct (pu_created_at (public n new)); reflexivity.
Qed.

Lemma update_user_accepted E now req d input s n old new :
  updateUserInputSchema E (req_body req) = Some input ->
  param "user_id" req = JStr s ->
  pg_int4 E s = Some n ->
  users d !! n = Some old ->
  user_updateFields input <> [] ->
  assign_users old (user_updateFields input) = Some new ->
  username_taken (delete n (users d)) (u_username new) = false ->
  email_taken (delete n (users d)) (u_email new) = false ->
  forall t, u_created_at old = Some t ->
  update_user E now req d
  = (res_json 200 (user_object (public n new) (iso_string E t)),
     with_users (insert n new) d).
Proof.
  intros Hparse Hparam Hint Hold Hfields Hnew Hname Hmail t Ht.
  assert (Hkept : u_created_at new = Some t).
  { destruct (updateUserInput_valid _ _ _ Hparse) as (Hu & He & Hf).
    destruct (user_assignments_applied input old new Hu He Hf Hnew)
      as [(_ & _ & _ & _ & _ & Hc) _]. congruence. }
  unfold update_user. cbv [try_catch bind parse]. rewrite Hparse.
  cbv [ret select_user_id int_param bind select]. rewrite Hparam, Hint.
  cbv [ret by_key]. rewrite Hold. cbn [fmap list_fmap List.length Nat.eqb fst].
  destruct (user_updateFields input) as [|a l] eqn:Hl; [congruence|].
  cbn [List.length Nat.eqb].
  cbv [update_users int_param bind ret by_key]. rewrite Hint, Hold, Hnew.
  rewrite Hname, Hmail. cbn [orb].
  cbv [first_row ret user_json toISOString bind].
  cbn [pu_created_at public]. rewrite Hkept. reflexivity.
Qed.

Lemma updatePostInput_valid E v input :
  updatePostInputSchema E v = Some input ->
  forall s, up_title input = Some s -> (String.length s <= 200)%nat.
Proof.
  unfold updatePostInputSchema. intros H.
  destruct (z_object v) as [o|]; simpl in H; [|discriminate].
  destruct (z_optional z_string (prop "user_id" o)) as [user_id|] eqn:Hu;
    simpl in H; [|discriminate].
  destruct (z_optional _ (prop "title" o)) as [title|] eqn:Ht;
    simpl in H; [|discriminate].
  destruct (z_optional _ (prop "content" o)) as [content|] eqn:Hc;
    simpl in H; [|discriminate].
  destruct (z_optional _ (prop "image_url" o)) as [url|] eqn:Hi;
    simpl in H; [|discriminate].
  injection H as <-. simpl.
  intros s ->. zod_facts. assumption.
Qed.

Lemma post_assignments_applied E d input old new :
  (forall s, up_title input = Some s -> (String.length s <= 200)%nat) ->
  assign_posts E d old (post_updateFields input) = Some new ->
  post_fields_kept input old new /\ post_fields_written E input new.
Proof.
  intros Ht.
  assert (Ht' : forall s, up_title input = Some s ->
                          varchar 200 (trim s) = Some (trim s)).
  { intros s Hs. apply varchar_fits. pose proof (length_trim s).
    specialize (Ht s Hs). lia. }
  clear Ht.
  destruct input as [user_id title content url].
  unfold post_updateFields, post_fields_kept, post_fields_written.
  cbn [up_user_id up_title up_content up_image_url] in *.
  destruct user_id as [user_id|], title as [title|], content as [content|],
    url as [url|];
    cbn [app assign_posts assign_post mbind option_bind];
    rewrite ?(Ht' _ eq_refl);
    cbn [mbind option_bind];
    try (destruct (pg_int4 E user_id) as [k|] eqn:Hk;
         cbn [mbind option_bind]; [|discriminate];
         destruct (users d !! k) as [owner|] eqn:Howner;
         cbn [mbind option_bind]; [|discriminate]);
    intros [= <-]; cbn; repeat split; intros; congruence.
Qed.

(** What [PUT /api/posts/:post_id] does to the database. *)
Lemma update_post_effect E now req d input s n old :
  updatePostInputSchema E (req_body req) = Some input ->
  param "post_id" req = JStr s ->
  pg_int4 E s = Some n ->
  posts d !! n = Some old ->
  (snd (update_post E now req d) = d
   /\ status (fst (update_post E now req d)) <> 200)
  \/ (exists new,
        assign_posts E d old (post_updateFields input) = Some new
        /\ snd (update_post E now req d) = with_posts (insert n new) d).
Proof.
  intros Hparse Hparam Hint Hold.
  unfold update_post. cbv [try_catch bind parse]. rewrite Hparse.
  cbv [ret select_post_id int_param bind select]. rewrite Hparam, Hint.
  cbv [ret by_key]. rewrite Hold. cbn [fmap list_fmap List.length Nat.eqb fst].
  destruct (List.length (post_updateFields input) =? 0)%nat.
  { left. split; [reflexivity | discriminate]. }
  cbv [update_posts int_param bind ret by_key]. rewrite Hint, Hold.
  destruct (assign_posts E d old (post_updateFields input)) as [new|];
    [|left; split; [reflexivity | discriminate]].
  right. exists new. split; [reflexivity|].
  cbv [first_row ret post_json toISOString bind]. cbn [snd].
  destruct (p_created_at new); reflexivity.
Qed.

(** C6 as stated fails: a validated input with an explicit [null] for
    [full_name] does not always leave the stored name [NULL]; here the same
    input asks for a user name that is taken, and the row stays as it was. *)
Lemma explicit_null_not_always_stored :
  ~ (forall E now req input s n old,
        updateUserInputSchema E (req_body req) = Some input ->
        param "user_id" req = JStr s ->
        pg_int4 E s = Some n ->
        users seed !! n = Some old ->
        up_full_name input = Some None ->
        exists new, users (snd (update_user E now req seed)) !! n = Some new
                    /\ u_full_name new = None).
Proof.
  intros H.
  destruct (H sample_env 0 rename_john
              {| up_username := Some "jane_smith"; up_email := None;
                 up_password_hash := None; up_full_name := Some None;
                 up_profile_image_url := None |}
              "1" 1
              (seed_user "john_doe" "john@example.com" "password123" "John Doe" "42")
              eq_refl eq_refl eq_refl eq_refl eq_refl)
    as (new & Hnew & Hnull).
  vm_compute in Hnew. injection Hnew as <-. discriminate Hnull.
Qed.

(** C6 (amended).  For a stored user (post) and a validated partial input,
    [PUT] touches no other row and no other table, and leaves every field
    omitted from the input at its previous value; the row is either as it
    was or carries every field present in the input, and when the answer is
    200 it carries them: each present field holds the value the handler
    derived from the input, so an explicit [null] for [full_name]
    ([content]) is stored as [NULL]. *)
Theorem partial_update_frame E now req d :
  (forall input s n old,
      updateUserInputSchema E (req_body req) = Some input ->
      param "user_id" req = JStr s ->
      pg_int4 E s = Some n ->
      users d !! n = Some old ->
      (forall m, m <> n ->
                 users (snd (update_user E now req d)) !! m = users d !! m) /\
      posts (snd (update_user E now req d)) = posts d /\
      comments (snd (update_user E now req d)) = comments d /\
      likes (snd (update_user E now req d)) = likes d /\
      exists new,
        users (snd (update_user E now req d)) !! n = Some new /\
        user_fields_kept input old new /\
        (new = old \/ user_fields_written input new) /\
        (status (fst (update_user E now req d)) = 200 ->
         user_fields_written input new
         /\ (up_full_name input = Some None -> u_full_name new = None))) /\
  (forall input s n old,
      updatePostInputSchema E (req_body req) = Some input ->
      param "post_id" req = JStr s ->
      pg_int4 E s = Some n ->
      posts d !! n = Some old ->
      (forall m, m <> n ->
                 posts (snd (update_post E now req d)) !! m = posts d !! m) /\
      users (snd (update_post E now req d)) = users d /\
      comments (snd (update_post E now req d)) = comments d /\
      likes (snd (update_post E now req d)) = likes d /\
      exists new,
        posts (snd (update_post E now req d)) !! n = Some new /\
        post_fields_kept input old new /\
        (new = old \/ post_fields_written E input new) /\
        (status (fst (update_post E now req d)) = 200 ->
         post_fields_written E input new
         /\ (up_content input = Some None -> p_content new = None))).
Proof.
  split.
  - intros input s n old Hparse Hparam Hint Hold.
    destruct (updateUserInput_valid _ _ _ Hparse) as (Hu & He & Hf).
    destruct (update_user_effect E now req d input s n old Hparse Hparam Hint Hold)
      as [[Hsame Hst]|(new & Hnew & Hdb)].
    + rewrite Hsame. repeat split; try reflexivity.
      exists old. split; [exact Hold|]. split; [repeat split|].
      split; [left; reflexivity|]. intros Hok. congruence.
    + rewrite Hdb. cbn [users posts comments likes with_users].
      destruct (user_assignments_applied input old new Hu He Hf Hnew)
        as [Hkept Hwritten].
      repeat split; try reflexivity.
      * intros m Hm. apply lookup_insert_ne. congruence.
      * exists new. split; [apply lookup_insert_eq|].
        split; [exact Hkept|]. split; [right; exact Hwritten|].
        intros _. split; [exact Hwritten|].
        intros Hnull. destruct Hwritten as (_ & _ & _ & Hfull & _).
        apply (Hfull None Hnull).
  - intros input s n old Hparse Hparam Hint Hold.
    pose proof (updatePostInput_valid _ _ _ Hparse) as Ht.
    destruct (update_post_effect E now req d input s n old Hparse Hparam Hint Hold)
      as [[Hsame Hst]|(new & Hnew & Hdb)].
    + rewrite Hsame. repeat split; try reflexivity.
      exists old. split; [exact Hold|]. split; [repeat split|].
      split; [left; reflexivity|]. intros Hok. congruence.
    + rewrite Hdb. cbn [users posts comments likes with_posts].
      destruct (post_assignments_applied E d input old new Ht Hnew)
        as [Hkept Hwritten].
      repeat split; try reflexivity.
      * intros m Hm. apply lookup_insert_ne. congruence.
      * exists new. split; [apply lookup_insert_eq|].
        split; [exact Hkept|]. split; [right; exact Hwritten|].
        intros _. split; [exact Hwritten|].
        intros Hnull. destruct Hwritten as (_ & _ & Hcontent & _).
        apply (Hcontent None Hnull).
Qed.

(** C6 on the seed data: clearing the full name of the first user and the
    content of the first post. *)
Lemma partial_update_frame_witness :
  (exists new, users (snd (update_user sample_env 0 clear_john seed)) !! 1 = Some new
               /\ u_full_name new = None /\ u_username new = "john_doe") /\
  (exists new, posts (snd (update_post sample_env 0 clear_post seed)) !! 1 = Some new
               /\ p_content new = None /\ p_title new = "First Post").
Proof.
  split.
  - destruct (proj1 (partial_update_frame sample_env 0 clear_john seed)
                {| up_username := None; up_email := None; up_password_hash := None;
                   up_full_name := Some None; up_profile_image_url := None |}
                "1" 1
                (seed_user "john_doe" "john@example.com" "password123" "John Doe" "42")
                eq_refl eq_refl eq_refl eq_refl)
      as (_ & _ & _ & _ & new & Hnew & Hkept & _ & Hok).
    exists new. split; [exact Hnew|]. split.
    + apply (proj2 (Hok eq_refl)). reflexivity.
    + apply (proj1 Hkept). reflexivity.
  - destruct (proj2 (partial_update_frame sample_env 0 clear_post seed)
                {| up_user_id := None; up_title := None; up_content := Some None;
                   up_image_url := None |}
                "1" 1
                (seed_post 1 "First Post" "This is my first post about PostgreSQL!" "10")
                eq_refl eq_refl eq_refl eq_refl)
      as (_ & _ & _ & _ & new & Hnew & Hkept & _ & Hok).
    exists new. split; [exact Hnew|]. split.
    + apply (proj2 (Hok eq_refl)). reflexivity.
    + apply (proj1 (proj2 Hkept)). reflexivity.
Defined.

(** *** Authentication and the user handlers *)

(** The middleware lets a request through when the token verifies and its
    [user_id] is the id of a stored user. *)
Lemma authenticateToken_passes E now req d token decoded a rowA :
  bearer (req_authorization req) = Some token ->
  token <> "" ->
  jwt_verify E token (JWT_SECRET E) now = Some decoded ->
  prop "user_id" decoded = JNum a ->
  int4 a = true ->
  users d !! a = Some rowA ->
  authenticateToken E now req d = Next (set_user (public a rowA) req).
Proof.
  intros Hbearer Hne Hverify Hid Hrange HA.
  unfold authenticateToken. rewrite Hbearer.
  destruct token as [|c token]; [congruence|].
  rewrite Hverify, Hid.
  cbv [select_user int_param bind ret select by_key]. rewrite Hrange, HA.
  reflexivity.
Qed.

(** The user handlers never read [req.user]. *)
Lemma user_handlers_ignore_requester E now u req d :
  update_user E now (set_user u req) d = update_user E now req d
  /\ delete_user E now (set_user u req) d = delete_user E now req d.
Proof. split; reflexivity. Qed.

Lemma delete_user_unreferenced E now req d s b rowB :
  param "user_id" req = JStr s ->
  pg_int4 E s = Some b ->
  users d !! b = Some rowB ->
  user_referenced d b = false ->
  delete_user E now req d = (res_send 204, with_users (delete b) d).
Proof.
  intros Hparam Hint HB Hfree.
  unfold delete_user. cbv [try_catch bind select_user_id int_param]. rewrite Hparam, Hint.
  cbv [ret select by_key bind]. rewrite HB.
  cbn [fmap list_fmap List.length Nat.eqb].
  cbv [delete_users int_param bind ret by_key]. rewrite Hint, HB, Hfree.
  reflexivity.
Qed.

(** C9 as stated fails: with a valid token of a stored user, the deletion
    of another stored user does not always succeed (a user whom posts,
    comments or likes reference cannot be deleted, by anyone), and neither
    does the update (the user name asked for may be taken). *)
Lemma authenticated_request_not_always_successful :
  ~ (forall E now req d token decoded a rowA s b rowB,
        bearer (req_authorization req) = Some token ->
        token <> "" ->
        jwt_verify E token (JWT_SECRET E) now = Some decoded ->
        prop "user_id" decoded = JNum a ->
        int4 a = true ->
        users d !! a = Some rowA ->
        param "user_id" req = JStr s ->
        pg_int4 E s = Some b ->
        users d !! b = Some rowB ->
        status (fst (authenticated E now (delete_user E now) req d)) = 204) /\
  ~ (forall E now req d token decoded a rowA s b rowB input,
        bearer (req_authorization req) = Some token ->
        token <> "" ->
        jwt_verify E token (JWT_SECRET E) now = Some decoded ->
        prop "user_id" decoded = JNum a ->
        int4 a = true ->
        users d !! a = Some rowA ->
        param "user_id" req = JStr s ->
        pg_int4 E s = Some b ->
        users d !! b = Some rowB ->
        updateUserInputSchema E (req_body req) = Some input ->
        status (fst (authenticated E now (update_user E now) req d)) = 200).
Proof.
  assert (Hne : "token-2" <> "") by discriminate.
  split; intros H.
  - specialize (H sample_env 0 jane_deletes_john seed "token-2"
                  (JObj [("user_id", JNum 2)]) 2
                  (seed_user "jane_smith" "jane@example.com" "admin123" "Jane Smith" "17")
                  "1" 1
                  (seed_user "john_doe" "john@example.com" "password123" "John Doe" "42")
                  eq_refl Hne eq_refl eq_refl eq_refl eq_refl eq_refl eq_refl eq_refl).
    vm_compute in H. discriminate H.
  - specialize (H sample_env 0 jane_takes_over_john seed "token-2"
                  (JObj [("user_id", JNum 2)]) 2
                  (seed_user "jane_smith" "jane@example.com" "admin123" "Jane Smith" "17")
                  "1" 1
                  (seed_user "john_doe" "john@example.com" "password123" "John Doe" "42")
                  {| up_username := Some "tech_guy"; up_email := None;
                     up_password_hash := None; up_full_name := None;
                     up_profile_image_url := None |}
                  eq_refl Hne eq_refl eq_refl eq_refl eq_refl eq_refl eq_refl eq_refl
                  eq_refl).
    vm_compute in H. discriminate H.
Qed.

(** C9 (amended).  A request to [PUT] or [DELETE /api/users/:user_id] that
    carries a valid token of a stored user A passes the middleware, which
    checks the token and the existence of its user only, and is then
    handled exactly as the handler alone would handle it, whoever A is: no
    handler reads [req.user].  So A deletes any stored user B that no post,
    comment or like references (204, the row is gone), and A updates any
    stored user B with a validated, non-empty input that the database
    accepts (200, the row carries the assignments). *)
Theorem any_authenticated_user_may_update_or_delete
    E now req d token decoded a rowA :
  bearer (req_authorization req) = Some token ->
  token <> "" ->
  jwt_verify E token (JWT_SECRET E) now = Some decoded ->
  prop "user_id" decoded = JNum a ->
  int4 a = true ->
  users d !! a = Some rowA ->
  authenticateToken E now req d = Next (set_user (public a rowA) req) /\
  authenticated E now (update_user E now) req d = update_user E now req d /\
  authenticated E now (delete_user E now) req d = delete_user E now req d /\
  (forall s b rowB,
      param "user_id" req = JStr s ->
      pg_int4 E s = Some b ->
      users d !! b = Some rowB ->
      user_referenced d b = false ->
      authenticated E now (delete_user E now) req d
      = (res_send 204, with_users (delete b) d)) /\
  (forall input s b rowB new t,
      updateUserInputSchema E (req_body req) = Some input ->
      param "user_id" req = JStr s ->
      pg_int4 E s = Some b ->
      users d !! b = Some rowB ->
      user_updateFields input <> [] ->
      assign_users rowB (user_updateFields input) = Some new ->
      username_taken (delete b (users d)) (u_username new) = false ->
      email_taken (delete b (users d)) (u_email new) = false ->
      u_created_at rowB = Some t ->
      authenticated E now (update_user E now) req d
      = (res_json 200 (user_object (public b new) (iso_string E t)),
         with_users (insert b new) d)).
Proof.
  intros Hbearer Hne Hverify Hid Hrange HA.
  pose proof (authenticateToken_passes E now req d token decoded a rowA
                Hbearer Hne Hverify Hid Hrange HA) as Hpass.
  assert (Hput : authenticated E now (update_user E now) req d
                 = update_user E now req d).
  { unfold authenticated. rewrite Hpass.
    apply (user_handlers_ignore_requester E now (public a rowA) req d). }
  assert (Hdel : authenticated E now (delete_user E now) req d
                 = delete_user E now req d).
  { unfold authenticated. rewrite Hpass.
    apply (user_handlers_ignore_requester E now (public a rowA) req d). }
  split; [exact Hpass|]. split; [exact Hput|]. split; [exact Hdel|]. split.
  - intros s b rowB Hparam Hint HB Hfree. rewrite Hdel.
    apply (delete_user_unreferenced E now req d s b rowB); assumption.
  - intros input s b rowB new t Hparse Hparam Hint HB Hfields Hnew Hname Hmail Ht.
    rewrite Hput.
    apply (update_user_accepted E now req d input s b rowB new); assumption.
Qed.

(** C9 on the seed data: the second user renames the first, and deletes the
    account registered in the scenario. *)
Lemma any_authenticated_user_may_update_or_delete_witness :
  status (fst (authenticated sample_env 0 (delete_user sample_env 0)
                 jane_deletes_alice with_alice)) = 204 /\
  users (snd (authenticated sample_env 0 (delete_user sample_env 0)
                jane_deletes_alice with_alice)) !! 6 = None /\
  status (fst (authenticated sample_env 0 (update_user sample_env 0)
                 jane_renames_john seed)) = 200 /\
  (u_full_name <$> users (snd (authenticated sample_env 0 (update_user sample_env 0)
                                 jane_renames_john seed)) !! 1) = Some (Some "Johnny").
Proof.
  assert (Hne : "token-2" <> "") by discriminate.
  split; [|split].
  - destruct (any_authenticated_user_may_update_or_delete
                sample_env 0 jane_deletes_alice with_alice "token-2"
                (JObj [("user_id", JNum 2)]) 2
                (seed_user "jane_smith" "jane@example.com" "admin123" "Jane Smith" "17")
                eq_refl Hne eq_refl eq_refl eq_refl eq_refl)
      as (_ & _ & _ & Hdel & _).
    rewrite (Hdel "6" 6
               (registered_row 5 7
                  {| in_username := "alice"; in_email := "a@x.com";
                     in_password_hash := "longpass1"; in_full_name := None;
                     in_profile_image_url := None |} "longpass1")
               eq_refl eq_refl eq_refl eq_refl).
    reflexivity.
  - destruct (any_authenticated_user_may_update_or_delete
                sample_env 0 jane_deletes_alice with_alice "token-2"
                (JObj [("user_id", JNum 2)]) 2
                (seed_user "jane_smith" "jane@example.com" "admin123" "Jane Smith" "17")
                eq_refl Hne eq_refl eq_refl eq_refl eq_refl)
      as (_ & _ & _ & Hdel & _).
    rewrite (Hdel "6" 6
               (registered_row 5 7
                  {| in_username := "alice"; in_email := "a@x.com";
                     in_password_hash := "longpass1"; in_full_name := None;
                     in_profile_image_url := None |} "longpass1")
               eq_refl eq_refl eq_refl eq_refl).
    reflexivity.
  - destruct (any_authenticated_user_may_update_or_delete
                sample_env 0 jane_renames_john seed "token-2"
                (JObj [("user_id", JNum 2)]) 2
                (seed_user "jane_smith" "jane@example.com" "admin123" "Jane Smith" "17")
                eq_refl Hne eq_refl eq_refl eq_refl eq_refl)
      as (_ & Hput & _).
    rewrite Hput. split; reflexivity.
Defined.

(** *** Token verification *)

(** The middleware accepts the token a registration hands out, as long as
    the JWT library verifies it and the payload it decodes carries the
    [user_id] that was signed. *)
Lemma issued_token_accepted E now rnd req input d now' req' :
  createUserInputSchema E (req_body req) = Some input ->
  status (fst (register E now rnd req d)) = 201 ->
  int4 (users_id_seq d) = true ->
  exists token u,
    answered_token (fst (register E now rnd req d)) = Some (Jstr token)
    /\ pu_id u = users_id_seq d
    /\ (forall decoded,
          token <> "" ->
          bearer (req_authorization req') = Some token ->
          jwt_verify E token (JWT_SECRET E) now' = Some decoded ->
          prop "user_id" decoded = JNum (users_id_seq d) ->
          authenticateToken E now' req' (snd (register E now rnd req d))
          = Next (set_user u req')).
Proof.
  intros Hparse Hst Hrange.
  destruct (register_created E now rnd req input d Hparse Hst)
    as (stored & _ & _ & _ & Hreg).
  rewrite Hreg. cbn [fst snd].
  set (row := registered_row now rnd input stored).
  exists (jwt_sign E (token_payload (public (users_id_seq d) row)) (JWT_SECRET E) now),
         (public (users_id_seq d) row).
  split; [|split; [reflexivity|]].
  - unfold answered_token, res_json, user_object. simpl.
    destruct (trim_or_null (mjoin (in_full_name input))); reflexivity.
  - intros decoded Hne Hbearer Hverify Hid.
    apply (authenticateToken_passes E now' req' _ _ _ (users_id_seq d) row
             Hbearer Hne Hverify); [exact Hid | exact Hrange |].
    apply lookup_insert_eq.
Qed.


(** C2 (evaluation).  The application registers no route for
    [/api/auth/verify]: unless a static file of that name is served, no
    layer matches the request and Express answers 404, for every method.
    So after the registration of the scenario, answered 201 with a user and
    a token, the verification request the store sends finds no handler. *)
Theorem verification_route_missing E m :
  route E m "/api/auth/verify"
  = (if method_eqb m GET && static_file E "/api/auth/verify"
     then Some (ep_static, []) else None) /\
  status (fst (register sample_env 5 7 register_alice seed)) = 201 /\
  is_Some (answered_user (fst (register sample_env 5 7 register_alice seed))) /\
  answered_token (fst (register sample_env 5 7 register_alice seed))
  = Some (Jstr "token-6") /\
  route sample_env GET "/api/auth/verify" = None.
Proof.
  split; [|split; [|split; [|split]]].
  - unfold route. destruct m; cbn [method_eqb andb];
      try destruct (static_file E "/api/auth/verify"); reflexivity.
  - reflexivity.
  - vm_compute. eauto.
  - reflexivity.
  - reflexivity.
Qed.

(** *** The handlers keep the stored data consistent *)

Lemma int_param_run E v d :
  (exists k, int_param E v d = (Returned k, d))
  \/ (exists e, int_param E v d = (Threw e, d)).
Proof.
  destruct v; simpl; eauto.
  - destruct (int4 n); eauto.
  - destruct (pg_int4 E s); eauto.
Qed.

(** The database after the insertion: as before; as before with the
    sequence advanced; or with the row of the input under a fresh id. *)
Lemma insert_user_db E now u e p f i d :
  snd (insert_user E now u e p f i d) = d
  \/ snd (insert_user E now u e p f i d) = nextval_users d
  \/ exists row,
       varchar 50 u = Some (u_username row)
       /\ varchar 100 e = Some (u_email row)
       /\ users d !! users_id_seq d = None
       /\ snd (insert_user E now u e p f i d)
          = with_users (insert (users_id_seq d) row) (nextval_users d).
Proof.
  unfold insert_user.
  destruct (varchar 50 u) as [u'|]; [|left; reflexivity].
  destruct (varchar 100 e) as [e'|]; [|left; reflexivity].
  destruct (varchar 255 p) as [p'|]; [|left; reflexivity].
  destruct (varchar_null 100 f) as [f'|]; [|left; reflexivity].
  destruct (bool_decide (is_Some (users d !! users_id_seq d))) eqn:Hpk;
    [right; left; reflexivity|].
  cbn [orb].
  destruct (username_taken (users d) u' || email_taken (users d) e');
    [right; left; reflexivity|].
  right. right.
  exists {| u_username := u'; u_email := e'; u_password_hash := p';
            u_full_name := f'; u_profile_image_url := Some i;
            u_created_at := Some now |}.
  split; [reflexivity|]. split; [reflexivity|].
  split; [|reflexivity].
  apply bool_decide_eq_false in Hpk. apply eq_None_not_Some. exact Hpk.
Qed.

Lemma normalized_users d d' : users d' = users d -> normalized d -> normalized d'.
Proof. unfold normalized. intros ->. auto. Qed.

Lemma likes_reference_same d d' :
  users d' = users d -> posts d' = posts d -> likes d' = likes d ->
  likes_reference d -> likes_reference d'.
Proof. unfold likes_reference. intros -> -> ->. auto. Qed.

Lemma consistent_same d d' :
  users d' = users d -> posts d' = posts d -> likes d' = likes d ->
  consistent d -> consistent d'.
Proof.
  intros Hu Hp Hl [Hn Hr]. split;
    [apply (normalized_users d) | apply (likes_reference_same d)]; assumption.
Qed.

Lemma consistent_insert_user d n row :
  normalize (u_email row) = u_email row ->
  trim (u_username row) = u_username row ->
  consistent d ->
  consistent (with_users (insert n row) d).
Proof.
  intros He Hu [Hn Hr]. split.
  - unfold normalized. cbn [users with_users].
    apply map_Forall_insert_2; auto.
  - intros k r Hk. cbn [users posts likes with_users] in *.
    destruct (Hr k r Hk) as [Hku Hkp]. split; [|exact Hkp].
    rewrite lookup_insert. destruct (decide (n = fst k)); [eauto | exact Hku].
Qed.

Lemma varchar_trimmed n s s' :
  (String.length s <= n)%nat -> varchar n s = Some s' -> s' = s.
Proof. intros H. rewrite varchar_fits by exact H. congruence. Qed.

Lemma create_db E now rnd input d :
  (String.length (in_username input) <= 50)%nat ->
  (String.length (in_email input) <= 100)%nat ->
  consistent d ->
  consistent
    (snd (insert_user E now (trim (in_username input))
            (trim (toLowerCase (in_email input))) (in_password_hash input)
            (trim_or_null (mjoin (in_full_name input)))
            (or_else (in_profile_image_url input) (default_avatar rnd)) d)).
Proof.
  intros Hu He Hc.
  destruct (insert_user_db E now (trim (in_username input))
              (trim (toLowerCase (in_email input))) (in_password_hash input)
              (trim_or_null (mjoin (in_full_name input)))
              (or_else (in_profile_image_url input) (default_avatar rnd)) d)
    as [->|[->|(row & Hname & Hmail & _ & ->)]].
  - exact Hc.
  - apply (consistent_same d); auto.
  - apply varchar_trimmed in Hname;
      [|pose proof (length_trim (in_username input)); lia].
    apply varchar_trimmed in Hmail;
      [|pose proof (length_trim (toLowerCase (in_email input)));
        rewrite length_toLowerCase in *; lia].
    apply consistent_insert_user.
    + rewrite Hmail. apply normalize_idem.
    + rewrite Hname. apply trim_idem.
    + apply (consistent_same d); auto.
Qed.

Lemma register_consistent E now rnd req d :
  consistent d -> consistent (snd (register E now rnd req d)).
Proof.
  intros Hc. unfold register. cbv [try_catch bind parse].
  destruct (createUserInputSchema E (req_body req)) as [input|] eqn:Hparse;
    [|exact Hc].
  destruct (createUserInput_valid _ _ _ Hparse) as (Hu & He & _).
  cbv [ret select_user_taken select].
  destruct (0 <? _)%nat; [exact Hc|].
  pose proof (create_db E now rnd input d Hu He Hc) as Hdb.
  destruct (insert_user _ _ _ _ _ _ _ d) as [[rows|e] d1]; [|exact Hdb].
  cbv [first_row ret throw]. destruct rows as [|u rows]; [exact Hdb|].
  cbv [user_json toISOString bind ret throw].
  destruct (pu_created_at u); exact Hdb.
Qed.

Lemma create_user_consistent E now rnd req d :
  consistent d -> consistent (snd (create_user E now rnd req d)).
Proof.
  intros Hc. unfold create_user. cbv [try_catch bind parse].
  destruct (createUserInputSchema E (req_body req)) as [input|] eqn:Hparse;
    [|exact Hc].
  destruct (createUserInput_valid _ _ _ Hparse) as (Hu & He & _).
  cbv [ret select_user_taken select].
  destruct (0 <? _)%nat; [exact Hc|].
  pose proof (create_db E now rnd input d Hu He Hc) as Hdb.
  destruct (insert_user _ _ _ _ _ _ _ d) as [[rows|e] d1]; [|exact Hdb].
  cbv [first_row ret throw]. destruct rows as [|u rows]; [exact Hdb|].
  cbv [user_json toISOString bind ret throw].
  destruct (pu_created_at u); exact Hdb.
Qed.

Lemma by_key_inv {A} (m : gmap Z A) k n r l :
  by_key m k = (n, r) :: l -> k = Some n /\ m !! n = Some r /\ l = [].
Proof.
  unfold by_key. destruct k as [i|]; [|discriminate].
  destruct (m !! i) as [x|] eqn:Hi; [|discriminate].
  intros [= <- <- <-]. auto.
Qed.

Lemma update_user_consistent E now req d :
  consistent d -> consistent (snd (update_user E now req d)).
Proof.
  intros Hc. unfold update_user. cbv [try_catch bind parse].
  destruct (updateUserInputSchema E (req_body req)) as [input|] eqn:Hparse;
    [|exact Hc].
  destruct (updateUserInput_valid _ _ _ Hparse) as (Hu & He & Hf).
  cbv [ret select_user_id bind].
  destruct (int_param_run E (param "user_id" req) d) as [[k Hk]|[e Hk]];
    rewrite Hk; [|exact Hc].
  cbv [select].
  destruct (List.length (fst <$> by_key (users d) k) =? 0)%nat; [exact Hc|].
  destruct (List.length (user_updateFields input) =? 0)%nat; [exact Hc|].
  cbv [update_users bind]. rewrite Hk.
  destruct (by_key (users d) k) as [|[n old] l] eqn:Hby; [exact Hc|].
  apply by_key_inv in Hby as (_ & Hold & _).
  destruct (assign_users old (user_updateFields input)) as [new|] eqn:Hnew;
    [|exact Hc].
  destruct (username_taken _ _ || email_taken _ _); [exact Hc|].
  assert (Hdb : consistent (with_users (insert n new) d)).
  { destruct (user_assignments_applied input old new Hu He Hf Hnew)
      as [(Hkn & Hke & _) (Hwn & Hwe & _)].
    destruct (proj1 Hc n old Hold) as [Hoe Hon].
    apply consistent_insert_user; [| |exact Hc].
    - destruct (up_email input) as [v|] eqn:Hv.
      + rewrite (Hwe v eq_refl). apply normalize_idem.
      + rewrite (Hke eq_refl). exact Hoe.
    - destruct (up_username input) as [v|] eqn:Hv.
      + rewrite (Hwn v eq_refl). apply trim_idem.
      + rewrite (Hkn eq_refl). exact Hon. }
  cbv [first_row ret user_json toISOString bind throw].
  destruct (pu_created_at (public n new)); exact Hdb.
Qed.

Lemma unreferenced_likes d n :
  user_referenced d n = false ->
  forall k r, likes d !! k = Some r -> fst k <> n.
Proof.
  unfold user_referenced. intros H k r Hk.
  apply orb_false_iff in H as [_ H].
  apply (not_taken (likes d) (fun k _ => fst k = n) H k r Hk).
Qed.

Lemma delete_user_consistent E now req d :
  consistent d -> consistent (snd (delete_user E now req d)).
Proof.
  intros Hc. unfold delete_user. cbv [try_catch bind select_user_id].
  destruct (int_param_run E (param "user_id" req) d) as [[k Hk]|[e Hk]];
    rewrite Hk; [|exact Hc].
  cbv [select ret].
  destruct (List.length (fst <$> by_key (users d) k) =? 0)%nat; [exact Hc|].
  cbv [delete_users bind]. rewrite Hk.
  destruct (by_key (users d) k) as [|[n old] l] eqn:Hby; [exact Hc|].
  destruct (user_referenced d n) eqn:Href; [exact Hc|].
  cbn [snd]. destruct Hc as [Hn Hr]. split.
  - unfold normalized. cbn [users with_users]. apply map_Forall_delete. exact Hn.
  - intros key r Hkey. cbn [users posts likes with_users] in *.
    destruct (Hr key r Hkey) as [Hku Hkp]. split; [|exact Hkp].
    rewrite lookup_delete_ne; [exact Hku|].
    intros Heq. apply (unreferenced_likes d n Href key r Hkey). congruence.
Qed.

Lemma update_post_consistent E now req d :
  consistent d -> consistent (snd (update_post E now req d)).
Proof.
  intros Hc. unfold update_post. cbv [try_catch bind parse].
  destruct (updatePostInputSchema E (req_body req)) as [input|]; [|exact Hc].
  cbv [ret select_post_id bind].
  destruct (int_param_run E (param "post_id" req) d) as [[k Hk]|[e Hk]];
    rewrite Hk; [|exact Hc].
  cbv [select].
  destruct (List.length (fst <$> by_key (posts d) k) =? 0)%nat; [exact Hc|].
  destruct (List.length (post_updateFields input) =? 0)%nat; [exact Hc|].
  cbv [update_posts bind]. rewrite Hk.
  destruct (by_key (posts d) k) as [|[n old] l] eqn:Hby; [exact Hc|].
  destruct (assign_posts E d old (post_updateFields input)) as [new|]; [|exact Hc].
  assert (Hdb : consistent (with_posts (insert n new) d)).
  { destruct Hc as [Hn Hr]. split; [exact Hn|].
    intros key r Hkey. cbn [users posts likes with_posts] in *.
    destruct (Hr key r Hkey) as [Hku Hkp]. split; [exact Hku|].
    rewrite lookup_insert. destruct (decide (n = snd key)); [eauto | exact Hkp]. }
  cbv [first_row ret post_json toISOString bind throw]. cbn [snd].
  destruct (p_created_at new); exact Hdb.
Qed.

Lemma create_like_consistent E now req d :
  consistent d -> consistent (snd (create_like E now req d)).
Proof.
  intros Hc. unfold create_like. cbv [try_catch bind parse].
  destruct (createLikeInputSchema (req_body req)) as [input|]; [|exact Hc].
  cbv [ret select_user_id select_post_id select_like insert_like bind].
  destruct (int_param_run E (JStr (in_user_id input)) d) as [[u Hu]|[e Hu]];
    rewrite Hu; [|exact Hc].
  cbv [select].
  destruct (List.length (fst <$> by_key (users d) u) =? 0)%nat; [exact Hc|].
  destruct (int_param_run E (JStr (in_post_id input)) d) as [[p Hp]|[e Hp]];
    rewrite Hp; [|exact Hc].
  destruct (List.length (fst <$> by_key (posts d) p) =? 0)%nat; [exact Hc|].
  rewrite Hu, Hp.
  destruct (0 <? _)%nat; [exact Hc|].
  rewrite Hu, Hp.
  destruct u as [u|], p as [p|]; try exact Hc.
  destruct (bool_decide (is_Some (users d !! u))) eqn:Huser; [|exact Hc].
  destruct (bool_decide (is_Some (posts d !! p))) eqn:Hpost; [|exact Hc].
  destruct (bool_decide (is_Some (likes d !! (u, p)))); [exact Hc|].
  cbn [andb negb first_row ret toISOString bind snd l_created_at].
  destruct Hc as [Hn Hr]. split; [exact Hn|].
  unfold likes_reference. cbn [users posts likes with_likes].
  apply map_Forall_insert_2; [|exact Hr].
  split; [apply (bool_decide_eq_true_1 _ Huser) | apply (bool_decide_eq_true_1 _ Hpost)].
Qed.

Lemma map_M_user_json_db E l d : snd (map_M (user_json E) l d) = d.
Proof.
  induction l as [|a l IH]; [reflexivity|].
  cbn [map_M]. cbv [bind user_json toISOString ret throw] in *.
  destruct (pu_created_at a); [|reflexivity].
  destruct (map_M _ l d) as [[bs|e] d']; exact IH.
Qed.

(** The handlers that only read leave the database as it is. *)
Lemma read_only E now req d :
  snd (login E now req d) = d /\
  snd (list_users E now req d) = d /\
  snd (get_user E now req d) = d.
Proof.
  split; [|split].
  - unfold login. cbv [try_catch bind destructure].
    destruct (req_body req) as [| |b|n|s|l|l]; try reflexivity.
    cbv [ret throw].
    destruct (negb (truthy (prop "email" (JObj l))) || _); [reflexivity|].
    cbv [lower_trim].
    destruct (prop "email" (JObj l)) as [| |b|n|s|a|o]; try reflexivity.
    cbv [ret select_user_by_email select].
    destruct (map_to_list (filter _ (users d))) as [|[id row] rows];
      [reflexivity|].
    destruct (differs _ _); [reflexivity|].
    cbv [user_json toISOString bind ret throw].
    destruct (pu_created_at (public id row)); reflexivity.
  - unfold list_users. cbv [try_catch bind parse].
    destruct (searchUserInputSchema _) as [searchParams|]; [|reflexivity].
    cbv [ret select_users_page select].
    match goal with
    | |- context [map_M (user_json E) ?l d] =>
        pose proof (map_M_user_json_db E l d) as Hsame;
        destruct (map_M (user_json E) l d) as [[bs|e] d']; exact Hsame
    end.
  - unfold get_user. cbv [try_catch bind select_user].
    destruct (int_param_run E (param "user_id" req) d) as [[k Hk]|[e Hk]];
      rewrite Hk; [|reflexivity].
    cbv [select ret].
    destruct (_ <$> by_key (users d) k) as [|u l]; [reflexivity|].
    cbv [user_json toISOString bind ret throw].
    destruct (pu_created_at u); reflexivity.
Qed.

Lemma consistent_seed : consistent seed.
Proof. split; [exact normalized_seed | exact likes_reference_seed]. Qed.

(** Every handler takes a consistent database to a consistent database; the
    seed data is consistent. *)
Theorem handlers_keep_consistent E now rnd req d :
  consistent d ->
  consistent (snd (register E now rnd req d)) /\
  consistent (snd (login E now req d)) /\
  consistent (snd (list_users E now req d)) /\
  consistent (snd (create_user E now rnd req d)) /\
  consistent (snd (get_user E now req d)) /\
  consistent (snd (authenticated E now (update_user E now) req d)) /\
  consistent (snd (authenticated E now (delete_user E now) req d)) /\
  consistent (snd (update_post E now req d)) /\
  consistent (snd (create_like E now req d)).
Proof.
  intros Hc. destruct (read_only E now req d) as (Hl & Hu & Hg).
  rewrite Hl, Hu, Hg.
  split; [apply register_consistent, Hc|].
  split; [exact Hc|]. split; [exact Hc|].
  split; [apply create_user_consistent, Hc|].
  split; [exact Hc|].
  split.
  { unfold authenticated. destruct (authenticateToken E now req d);
      [exact Hc | apply update_user_consistent, Hc]. }
  split.
  { unfold authenticated. destruct (authenticateToken E now req d);
      [exact Hc | apply delete_user_consistent, Hc]. }
  split; [apply update_post_consistent, Hc | apply create_like_consistent, Hc].
Qed.

(** *** The middleware and the login: what is refused *)

Lemma split_no_separator s : contains " " s = false -> split " " s = [s].
Proof.
  induction s as [|c s IH]; cbn -[Ascii.eqb]; [reflexivity|].
  intros H. apply orb_false_iff in H as [Hc Hs].
  rewrite Ascii.eqb_sym, Hc, (IH Hs). reflexivity.
Qed.

Lemma bearer_one_word h : contains " " h = false -> bearer (Some h) = None \/ h = "".
Proof.
  intros H. unfold bearer. destruct (String.eqb h "") eqn:He.
  - right. apply String.eqb_eq. exact He.
  - left. rewrite (split_no_separator h H). reflexivity.
Qed.

(** X7.  Every way in which [authenticateToken] refuses: no header, or a header
    of one word, is 401 AUTH_TOKEN_MISSING; a token that does not verify is
    403 AUTH_TOKEN_INVALID; a token that verifies for an id no user has is
    401 AUTH_USER_NOT_FOUND.  A refused request does not reach the handler
    and leaves the database as it is. *)
Theorem authenticateToken_refusals E now req d :
  (req_authorization req = None ->
   denied_with (authenticateToken E now req d) 401 "AUTH_TOKEN_MISSING") /\
  (forall h, req_authorization req = Some h -> contains " " h = false ->
             denied_with (authenticateToken E now req d) 401 "AUTH_TOKEN_MISSING") /\
  (forall token,
      bearer (req_authorization req) = Some token -> token <> "" ->
      jwt_verify E token (JWT_SECRET E) now = None ->
      denied_with (authenticateToken E now req d) 403 "AUTH_TOKEN_INVALID") /\
  (forall token decoded a,
      bearer (req_authorization req) = Some token -> token <> "" ->
      jwt_verify E token (JWT_SECRET E) now = Some decoded ->
      prop "user_id" decoded = JNum a -> int4 a = true ->
      users d !! a = None ->
      denied_with (authenticateToken E now req d) 401 "AUTH_USER_NOT_FOUND") /\
  (forall r handler,
      authenticateToken E now req d = Denied r ->
      authenticated E now handler req d = (r, d)).
Proof.
  split; [|split; [|split; [|split]]].
  - intros H. unfold authenticateToken. rewrite H. simpl.
    eexists. split; [reflexivity|]. split; reflexivity.
  - intros h H Hword. unfold authenticateToken. rewrite H.
    destruct (bearer_one_word h Hword) as [->| ->];
      (eexists; split; [reflexivity|]; split; reflexivity).
  - intros token Hb Hne Hv. unfold authenticateToken. rewrite Hb.
    destruct token as [|c token]; [congruence|]. rewrite Hv.
    eexists. split; [reflexivity|]. split; reflexivity.
  - intros token decoded a Hb Hne Hv Hid Hrange Hnone.
    unfold authenticateToken. rewrite Hb.
    destruct token as [|c token]; [congruence|]. rewrite Hv, Hid.
    cbv [select_user int_param bind ret select by_key]. rewrite Hrange, Hnone.
    eexists. split; [reflexivity|]. split; reflexivity.
  - intros r handler H. unfold authenticated. rewrite H. reflexivity.
Qed.

(** The four refusals on the seed data. *)
Lemma authenticateToken_refusals_witness :
  denied_with (authenticateToken sample_env 0 anonymous_delete seed)
              401 "AUTH_TOKEN_MISSING" /\
  denied_with (authenticateToken sample_env 0 one_word_delete seed)
              401 "AUTH_TOKEN_MISSING" /\
  denied_with (authenticateToken sample_env 0 forged_delete seed)
              403 "AUTH_TOKEN_INVALID" /\
  denied_with (authenticateToken sample_env 0 stale_delete seed)
              401 "AUTH_USER_NOT_FOUND" /\
  snd (authenticated sample_env 0 (delete_user sample_env 0) stale_delete seed) = seed.
Proof.
  assert (H1 : "forged" <> "") by discriminate.
  assert (H2 : "token-99" <> "") by discriminate.
  split; [|split; [|split; [|split]]].
  - apply (proj1 (authenticateToken_refusals sample_env 0 anonymous_delete seed)).
    reflexivity.
  - apply (proj1 (proj2 (authenticateToken_refusals sample_env 0 one_word_delete seed))
             "Bearer"); reflexivity.
  - apply (proj1 (proj2 (proj2
             (authenticateToken_refusals sample_env 0 forged_delete seed)))
             "forged"); [reflexivity | exact H1 | reflexivity].
  - apply (proj1 (proj2 (proj2 (proj2
             (authenticateToken_refusals sample_env 0 stale_delete seed))))
             "token-99" (JObj [("user_id", JNum 99)]) 99);
      [reflexivity | exact H2 | reflexivity | reflexivity | reflexivity | reflexivity].
  - destruct (proj1 (proj2 (proj2 (proj2
                (authenticateToken_refusals sample_env 0 stale_delete seed))))
                "token-99" (JObj [("user_id", JNum 99)]) 99
                eq_refl H2 eq_refl eq_refl eq_refl eq_refl) as (r & Hr & _).
    rewrite (proj2 (proj2 (proj2 (proj2
               (authenticateToken_refusals sample_env 0 stale_delete seed))))
               r (delete_user sample_env 0) Hr).
    reflexivity.
Defined.

Lemma selected_unique {K A} `{Countable K} (m : gmap K A)
    (P : K * A -> Prop) `{!forall x, Decision (P x)} k a :
  m !! k = Some a -> P (k, a) ->
  (forall i x, m !! i = Some x -> P (i, x) -> i = k) ->
  map_to_list (filter P m) = [(k, a)].
Proof.
  intros Hk HP Honly.
  rewrite <- (insert_delete_id m k a Hk).
  apply selected_single; [|exact HP].
  intros i x Hi HPi.
  apply lookup_delete_Some in Hi as [Hne Hi].
  apply Hne. symmetry. exact (Honly i x Hi HPi).
Qed.

Lemma login_missing_field E now req d l :
  req_body req = JObj l ->
  truthy (prop "email" (req_body req)) = false
  \/ truthy (prop "password_hash" (req_body req)) = false ->
  login E now req d
  = (bad_request E now "Email and password are required" "MISSING_REQUIRED_FIELDS", d).
Proof.
  intros Hbody H. unfold login. rewrite Hbody in *.
  cbv [try_catch bind destructure ret].
  destruct H as [-> | ->]; [reflexivity|].
  rewrite orb_true_r. reflexivity.
Qed.

(** X8.  The refusals of [POST /api/auth/login]: a body without a truthy [email]
    or [password_hash] is answered 400 MISSING_REQUIRED_FIELDS; an address
    that, lower-cased and trimmed, no user has, and a password that is not
    the stored one, are answered with one and the same 401
    INVALID_CREDENTIALS; none of them changes the database. *)
Theorem login_refusals E now req d :
  (forall l, req_body req = JObj l ->
             truthy (prop "email" (req_body req)) = false
             \/ truthy (prop "password_hash" (req_body req)) = false ->
             status (fst (login E now req d)) = 400
             /\ error_code (fst (login E now req d))
                = Some (Jstr "MISSING_REQUIRED_FIELDS")
             /\ snd (login E now req d) = d) /\
  (forall e,
      prop "email" (req_body req) = JStr e -> e <> "" ->
      truthy (prop "password_hash" (req_body req)) = true ->
      (forall i x, users d !! i = Some x -> u_email x <> normalize e) ->
      login E now req d = (invalid_credentials E now, d)) /\
  (forall e id row,
      prop "email" (req_body req) = JStr e -> e <> "" ->
      truthy (prop "password_hash" (req_body req)) = true ->
      users d !! id = Some row -> u_email row = normalize e ->
      (forall i x, users d !! i = Some x -> u_email x = normalize e -> i = id) ->
      prop "password_hash" (req_body req) <> JStr (u_password_hash row) ->
      login E now req d = (invalid_credentials E now, d)) /\
  status (invalid_credentials E now) = 401 /\
  error_code (invalid_credentials E now) = Some (Jstr "INVALID_CREDENTIALS").
Proof.
  split; [|split; [|split; [|split; reflexivity]]].
  - intros l Hbody H. rewrite (login_missing_field E now req d l Hbody H).
    split; [reflexivity|]. split; reflexivity.
  - intros e Hemail He Hpw Hnone.
    destruct (prop_object _ _ _ Hemail) as [l Hbody].
    unfold login. rewrite Hbody in *.
    cbv [try_catch bind ret destructure]. rewrite Hemail, Hpw.
    cbv [truthy]. rewrite (eqb_empty _ He).
    cbv [negb orb lower_trim ret select_user_by_email select].
    fold (normalize e).
    assert (Hempty : filter (fun kv : Z * user_row => u_email (snd kv) = normalize e)
                            (users d) = ∅).
    { apply map_empty_filter. intros i x Hi. exact (Hnone i x Hi). }
    rewrite Hempty, map_to_list_empty. reflexivity.
  - intros e id row Hemail He Hpw Hrow Hmail Honly Hwrong.
    destruct (prop_object _ _ _ Hemail) as [l Hbody].
    unfold login. rewrite Hbody in *.
    cbv [try_catch bind ret destructure]. rewrite Hemail, Hpw.
    cbv [truthy]. rewrite (eqb_empty _ He).
    cbv [negb orb lower_trim ret select_user_by_email select].
    fold (normalize e).
    rewrite (selected_unique (users d) _ id row Hrow Hmail Honly).
    assert (Hdiff : differs (prop "password_hash" (JObj l)) (u_password_hash row) = true).
    { destruct (prop "password_hash" (JObj l)) as [| |b|n|s|a|o]; try reflexivity.
      simpl. apply negb_true_iff, String.eqb_neq. congruence. }
    rewrite Hdiff. reflexivity.
Qed.

(** The three refusals on the seed data. *)
Lemma login_refusals_witness :
  status (fst (login sample_env 0 login_without_password seed)) = 400 /\
  login sample_env 0 login_unknown seed = (invalid_credentials sample_env 0, seed) /\
  login sample_env 0 login_wrong_password seed = (invalid_credentials sample_env 0, seed).
Proof.
  split; [|split].
  - apply (proj1 (login_refusals sample_env 0 login_without_password seed)
             [("email", JStr "john@example.com")]); [reflexivity|].
    right. reflexivity.
  - apply (proj1 (proj2 (login_refusals sample_env 0 login_unknown seed))
             "nobody@example.com"); [reflexivity | discriminate | reflexivity |].
    apply (bool_decide_unpack _). vm_compute. exact I.
  - apply (proj1 (proj2 (proj2 (login_refusals sample_env 0 login_wrong_password seed)))
             "John@Example.com" 1
             (seed_user "john_doe" "john@example.com" "password123" "John Doe" "42"));
      [reflexivity | discriminate | reflexivity | reflexivity | reflexivity | | discriminate].
    apply (bool_decide_unpack _). vm_compute. exact I.
Defined.

(** *** The statements keep the constraints of the schema *)

Lemma keeps_ret I {A} (a : A) : keeps I (ret a).
Proof. intros d H. exact H. Qed.

Lemma keeps_throw I {A} e : keeps I (@throw A e).
Proof. intros d H. exact H. Qed.

Lemma keeps_select I {A} (f : db -> A) : keeps I (select f).
Proof. intros d H. exact H. Qed.

Lemma keeps_parse I {A} E (schema : jsval -> option A) v : keeps I (parse E schema v).
Proof. unfold parse. destruct (schema v); [apply keeps_ret | apply keeps_throw]. Qed.

Lemma keeps_bind I {A B} (m : M A) (k : A -> M B) :
  keeps I m -> (forall a, keeps I (k a)) -> keeps I (bind m k).
Proof.
  intros Hm Hk d H. unfold bind. specialize (Hm d H).
  destruct (m d) as [[a|e] d']; [apply Hk, Hm | exact Hm].
Qed.

Lemma keeps_if I {A} (b : bool) (m1 m2 : M A) :
  keeps I m1 -> keeps I m2 -> keeps I (if b then m1 else m2).
Proof. destruct b; auto. Qed.

Lemma keeps_int_param I E v : keeps I (int_param E v).
Proof.
  destruct v; simpl; try apply keeps_ret; try apply keeps_throw.
  - destruct (int4 n); [apply keeps_ret | apply keeps_throw].
  - destruct (pg_int4 E s); [apply keeps_ret | apply keeps_throw].
Qed.

Lemma keeps_first_row I {A} E (rows : list A) : keeps I (first_row E rows).
Proof. destruct rows; [apply keeps_throw | apply keeps_ret]. Qed.

Lemma keeps_toISOString I E t : keeps I (toISOString E t).
Proof. destruct t; [apply keeps_ret | apply keeps_throw]. Qed.

Lemma keeps_map_M I {A B} (f : A -> M B) l :
  (forall a, keeps I (f a)) -> keeps I (map_M f l).
Proof.
  intros Hf. induction l as [|a l IH]; simpl; [apply keeps_ret|].
  apply keeps_bind; [apply Hf|]. intros b.
  apply keeps_bind; [exact IH|]. intros bs. apply keeps_ret.
Qed.

Lemma keeps_filter_id I E v : keeps I (filter_id E v).
Proof.
  unfold filter_id. destruct v as [s|]; [|apply keeps_ret].
  destruct (String.eqb s ""); [apply keeps_ret|].
  apply keeps_bind; [apply keeps_int_param|]. intros k. apply keeps_ret.
Qed.

Lemma keeps_try_catch I body handler d :
  keeps I body -> I d -> I (snd (try_catch body handler d)).
Proof.
  intros Hb H. unfold try_catch. specialize (Hb d H).
  destruct (body d) as [[r|e] d']; exact Hb.
Qed.

(** Queries and the parts of a handler that only compute. *)
Ltac keeps_pure :=
  repeat first
    [ apply keeps_ret | apply keeps_throw | apply keeps_select | apply keeps_parse
    | apply keeps_int_param | apply keeps_first_row | apply keeps_toISOString
    | apply keeps_filter_id
    | apply keeps_map_M; intros ?
    | apply keeps_if
    | apply keeps_bind; [|intros ?]
    | match goal with
      | |- keeps _ (match ?l with [] => _ | _ :: _ => _ end) => destruct l
      | |- keeps _ (let (_, _) := ?p in _) => destruct p
      end ].

Lemma is_Some_insert {A} (m : gmap Z A) i x k :
  is_Some (m !! k) -> is_Some (<[i := x]> m !! k).
Proof.
  intros H. rewrite lookup_insert. destruct (decide (i = k)); [eauto | exact H].
Qed.

(** Rows may be added or rewritten, as long as every row that is new or
    rewritten references stored rows. *)
Lemma referential_grow d d' :
  (forall k, is_Some (users d !! k) -> is_Some (users d' !! k)) ->
  (forall k, is_Some (posts d !! k) -> is_Some (posts d' !! k)) ->
  (forall k p, posts d' !! k = Some p ->
               posts d !! k = Some p \/ is_Some (users d' !! p_user_id p)) ->
  (forall k c, comments d' !! k = Some c ->
               comments d !! k = Some c
               \/ (is_Some (users d' !! c_user_id c)
                   /\ is_Some (posts d' !! c_post_id c))) ->
  (forall k l, likes d' !! k = Some l ->
               likes d !! k = Some l
               \/ (is_Some (users d' !! fst k) /\ is_Some (posts d' !! snd k))) ->
  referential d -> referential d'.
Proof.
  intros Hu Hp Hposts Hcomments Hlikes (Rp & Rc & Rl).
  split; [|split].
  - intros k p Hk. destruct (Hposts k p Hk) as [Hold|Hnew]; [|exact Hnew].
    apply Hu, (Rp k p Hold).
  - intros k c Hk. destruct (Hcomments k c Hk) as [Hold|Hnew]; [|exact Hnew].
    destruct (Rc k c Hold) as [H1 H2]. split; [apply Hu, H1 | apply Hp, H2].
  - intros k l Hk. destruct (Hlikes k l Hk) as [Hold|Hnew]; [|exact Hnew].
    destruct (Rl k l Hold) as [H1 H2]. split; [apply Hu, H1 | apply Hp, H2].
Qed.

Lemma lookup_insert_cases {K A} `{Countable K} (m : gmap K A) i x k y :
  <[i := x]> m !! k = Some y -> m !! k = Some y \/ (k = i /\ y = x).
Proof.
  rewrite lookup_insert. destruct (decide (i = k)) as [->|Hne].
  - intros [= <-]. right. auto.
  - auto.
Qed.

Lemma constraints_nextval d : constraints d -> constraints (nextval_users d).
Proof. intros H. exact H. Qed.

Lemma keeps_insert_user E now u e p f i : keeps constraints (insert_user E now u e p f i).
Proof.
  intros d [Hr Hq]. unfold insert_user.
  destruct (varchar 50 u) as [u'|]; [|split; assumption].
  destruct (varchar 100 e) as [e'|]; [|split; assumption].
  destruct (varchar 255 p) as [p'|]; [|split; assumption].
  destruct (varchar_null 100 f) as [f'|]; [|split; assumption].
  destruct (bool_decide (is_Some (users d !! users_id_seq d))) eqn:Hpk;
    [split; assumption|].
  cbn [orb].
  destruct (username_taken (users d) u') eqn:Hun; [split; assumption|].
  destruct (email_taken (users d) e') eqn:Hem; [split; assumption|].
  cbn [orb snd]. split.
  - apply (referential_grow d); cbn [users posts comments likes with_users nextval_users];
      auto using is_Some_insert.
  - intros a b x y Ha Hb Heq. cbn [users with_users nextval_users] in Ha, Hb.
    apply lookup_insert_cases in Ha as [Ha|[-> ->]];
      apply lookup_insert_cases in Hb as [Hb|[-> ->]].
    + apply (Hq a b x y Ha Hb Heq).
    + exfalso. cbn in Heq. destruct Heq as [Heq|Heq].
      * apply (not_taken (users d) (fun _ r => u_username r = u') Hun a x Ha Heq).
      * apply (not_taken (users d) (fun _ r => u_email r = e') Hem a x Ha Heq).
    + exfalso. cbn in Heq. destruct Heq as [Heq|Heq].
      * apply (not_taken (users d) (fun _ r => u_username r = u') Hun b y Hb).
        symmetry. exact Heq.
      * apply (not_taken (users d) (fun _ r => u_email r = e') Hem b y Hb).
        symmetry. exact Heq.
    + reflexivity.
Qed.

Lemma keeps_update_users E fields id : keeps constraints (update_users E fields id).
Proof.
  unfold update_users. apply keeps_bind; [apply keeps_int_param|]. intros k d [Hr Hq].
  destruct (by_key (users d) k) as [|[n old] rest] eqn:Hby; [split; assumption|].
  apply by_key_inv in Hby as (_ & Hold & _).
  destruct (assign_users old fields) as [new|]; [|split; assumption].
  destruct (username_taken _ _) eqn:Hun; [split; assumption|].
  destruct (email_taken _ _) eqn:Hem; [split; assumption|].
  cbn [orb snd]. split.
  - apply (referential_grow d); cbn [users posts comments likes with_users];
      auto using is_Some_insert.
  - intros a b x y Ha Hb Heq. cbn [users with_users] in Ha, Hb.
    destruct (decide (a = b)) as [Hab|Hab]; [exact Hab|]. exfalso.
    apply lookup_insert_cases in Ha as [Ha|[-> ->]];
      apply lookup_insert_cases in Hb as [Hb|[-> ->]].
    + apply Hab, (Hq a b x y Ha Hb Heq).
    + assert (Ha' : delete n (users d) !! a = Some x)
        by (apply lookup_delete_Some; auto).
      destruct Heq as [Heq|Heq].
      * apply (not_taken _ (fun _ r => u_username r = u_username new) Hun a x Ha' Heq).
      * apply (not_taken _ (fun _ r => u_email r = u_email new) Hem a x Ha' Heq).
    + assert (Hb' : delete n (users d) !! b = Some y)
        by (apply lookup_delete_Some; auto).
      destruct Heq as [Heq|Heq].
      * apply (not_taken _ (fun _ r => u_username r = u_username new) Hun b y Hb').
        symmetry. exact Heq.
      * apply (not_taken _ (fun _ r => u_email r = u_email new) Hem b y Hb').
        symmetry. exact Heq.
    + apply Hab. reflexivity.
Qed.

Lemma unreferenced_user d n :
  user_referenced d n = false ->
  (forall k p, posts d !! k = Some p -> p_user_id p <> n)
  /\ (forall k c, comments d !! k = Some c -> c_user_id c <> n)
  /\ (forall k l, likes d !! k = Some l -> fst k <> n).
Proof.
  unfold user_referenced. intros H.
  apply orb_false_iff in H as [H Hl]. apply orb_false_iff in H as [Hp Hc].
  split; [|split].
  - apply (not_taken (posts d) (fun _ p => p_user_id p = n) Hp).
  - apply (not_taken (comments d) (fun _ c => c_user_id c = n) Hc).
  - apply (not_taken (likes d) (fun k _ => fst k = n) Hl).
Qed.

Lemma keeps_delete_users E id : keeps constraints (delete_users E id).
Proof.
  unfold delete_users. apply keeps_bind; [apply keeps_int_param|]. intros k d [Hr Hq].
  destruct (by_key (users d) k) as [|[n old] rest]; [split; assumption|].
  destruct (user_referenced d n) eqn:Href; [split; assumption|].
  destruct (unreferenced_user d n Href) as (Up & Uc & Ul).
  destruct Hr as (Rp & Rc & Rl). cbn [snd]. split; [split; [|split]|].
  - intros i p Hi. cbn [users posts with_users] in *.
    rewrite lookup_delete_ne; [exact (Rp i p Hi)|].
    intros Heq. apply (Up i p Hi). congruence.
  - intros i c Hi. cbn [users posts comments with_users] in *.
    destruct (Rc i c Hi) as [H1 H2]. split; [|exact H2].
    rewrite lookup_delete_ne; [exact H1|].
    intros Heq. apply (Uc i c Hi). congruence.
  - intros i l Hi. cbn [users posts likes with_users] in *.
    destruct (Rl i l Hi) as [H1 H2]. split; [|exact H2].
    rewrite lookup_delete_ne; [exact H1|].
    intros Heq. apply (Ul i l Hi). congruence.
  - intros a b x y Ha Hb Heq. cbn [users with_users] in Ha, Hb.
    apply lookup_delete_Some in Ha as [_ Ha]. apply lookup_delete_Some in Hb as [_ Hb].
    apply (Hq a b x y Ha Hb Heq).
Qed.

Lemma assign_posts_user E d l : forall r r',
  assign_posts E d r l = Some r' ->
  is_Some (users d !! p_user_id r) -> is_Some (users d !! p_user_id r').
Proof.
  induction l as [|a l IH]; intros r r' H Hu; simpl in H.
  - injection H as <-. exact Hu.
  - destruct (assign_post E d r a) as [r1|] eqn:Ha; [|discriminate]. simpl in H.
    apply (IH r1 r' H). destruct a; simpl in Ha.
    + destruct (pg_int4 E v) as [n|]; [|discriminate]. simpl in Ha.
      destruct (users d !! n) eqn:Hn; [|discriminate]. simpl in Ha.
      injection Ha as <-. simpl. rewrite Hn. eauto.
    + destruct (varchar 200 v); [|discriminate]. injection Ha as <-. exact Hu.
    + injection Ha as <-. exact Hu.
    + injection Ha as <-. exact Hu.
Qed.

Lemma assign_comments_refs E d l : forall r r',
  assign_comments E d r l = Some r' ->
  is_Some (users d !! c_user_id r) /\ is_Some (posts d !! c_post_id r) ->
  is_Some (users d !! c_user_id r') /\ is_Some (posts d !! c_post_id r').
Proof.
  induction l as [|a l IH]; intros r r' H Hu; simpl in H.
  - injection H as <-. exact Hu.
  - destruct (assign_comment E d r a) as [r1|] eqn:Ha; [|discriminate]. simpl in H.
    apply (IH r1 r' H). destruct Hu as [Hu Hp]. destruct a; simpl in Ha.
    + destruct (pg_int4 E v) as [n|]; [|discriminate]. simpl in Ha.
      destruct (users d !! n) eqn:Hn; [|discriminate]. simpl in Ha.
      injection Ha as <-. simpl. rewrite Hn. eauto.
    + destruct (pg_int4 E v) as [n|]; [|discriminate]. simpl in Ha.
      destruct (posts d !! n) eqn:Hn; [|discriminate]. simpl in Ha.
      injection Ha as <-. simpl. rewrite Hn. eauto.
    + destruct v; [|discriminate]. injection Ha as <-. auto.
Qed.

Lemma keeps_insert_post E now nextval u t c i :
  keeps constraints (insert_post E now nextval u t c i).
Proof.
  unfold insert_post. apply keeps_bind; [apply keeps_int_param|]. intros k d [Hr Hq].
  destruct k as [k|]; [|split; assumption].
  destruct (varchar 200 t) as [t'|]; [|split; assumption].
  destruct (bool_decide (is_Some (users d !! k))) eqn:Hk; [|split; assumption].
  apply bool_decide_eq_true_1 in Hk.
  destruct (negb _); [|split; assumption].
  cbn [andb snd]. split; [|exact Hq].
  apply (referential_grow d); cbn [users posts comments likes with_posts];
    auto using is_Some_insert.
  intros j p Hj. apply lookup_insert_cases in Hj as [Hj|[-> ->]]; auto.
Qed.

Lemma keeps_update_posts E fields id : keeps constraints (update_posts E fields id).
Proof.
  unfold update_posts. apply keeps_bind; [apply keeps_int_param|]. intros k d [Hr Hq].
  destruct (by_key (posts d) k) as [|[n old] rest] eqn:Hby; [split; assumption|].
  apply by_key_inv in Hby as (_ & Hold & _).
  destruct (assign_posts E d old fields) as [new|] eqn:Hnew; [|split; assumption].
  cbn [snd]. split; [|exact Hq].
  apply (referential_grow d); cbn [users posts comments likes with_posts];
    auto using is_Some_insert.
  intros j p Hj. apply lookup_insert_cases in Hj as [Hj|[-> ->]]; auto.
  right. apply (assign_posts_user E d fields old new Hnew).
  destruct Hr as (Rp & _). apply (Rp n old Hold).
Qed.

Lemma unreferenced_post d n :
  post_referenced d n = false ->
  (forall k c, comments d !! k = Some c -> c_post_id c <> n)
  /\ (forall k l, likes d !! k = Some l -> snd k <> n).
Proof.
  unfold post_referenced. intros H. apply orb_false_iff in H as [Hc Hl]. split.
  - apply (not_taken (comments d) (fun _ c => c_post_id c = n) Hc).
  - apply (not_taken (likes d) (fun k _ => snd k = n) Hl).
Qed.

Lemma keeps_delete_posts E id : keeps constraints (delete_posts E id).
Proof.
  unfold delete_posts. apply keeps_bind; [apply keeps_int_param|]. intros k d [Hr Hq].
  destruct (by_key (posts d) k) as [|[n old] rest]; [split; assumption|].
  destruct (post_referenced d n) eqn:Href; [split; assumption|].
  destruct (unreferenced_post d n Href) as (Uc & Ul).
  destruct Hr as (Rp & Rc & Rl). cbn [snd]. split; [split; [|split]|exact Hq].
  - intros i p Hi. cbn [users posts with_posts] in *.
    apply lookup_delete_Some in Hi as [_ Hi]. exact (Rp i p Hi).
  - intros i c Hi. cbn [users posts comments with_posts] in *.
    destruct (Rc i c Hi) as [H1 H2]. split; [exact H1|].
    rewrite lookup_delete_ne; [exact H2|].
    intros Heq. apply (Uc i c Hi). congruence.
  - intros i x Hi. cbn [users posts likes with_posts] in *.
    destruct (Rl i x Hi) as [H1 H2]. split; [exact H1|].
    rewrite lookup_delete_ne; [exact H2|].
    intros Heq. apply (Ul i x Hi). congruence.
Qed.

Lemma keeps_insert_comment E now nextval u p c :
  keeps constraints (insert_comment E now nextval u p c).
Proof.
  unfold insert_comment. apply keeps_bind; [apply keeps_int_param|]. intros k.
  apply keeps_bind; [apply keeps_int_param|]. intros j d [Hr Hq].
  destruct k as [k|]; [|split; assumption].
  destruct j as [j|]; [|split; assumption].
  destruct (bool_decide (is_Some (users d !! k))) eqn:Hk; [|split; assumption].
  destruct (bool_decide (is_Some (posts d !! j))) eqn:Hj; [|split; assumption].
  apply bool_decide_eq_true_1 in Hk. apply bool_decide_eq_true_1 in Hj.
  destruct (negb _); [|split; assumption].
  cbn [andb snd]. split; [|exact Hq].
  apply (referential_grow d); cbn [users posts comments likes with_comments]; auto.
  intros i x Hi. apply lookup_insert_cases in Hi as [Hi|[-> ->]]; auto.
Qed.

Lemma keeps_update_comments E fields id : keeps constraints (update_comments E fields id).
Proof.
  unfold update_comments. apply keeps_bind; [apply keeps_int_param|]. intros k d [Hr Hq].
  destruct (by_key (comments d) k) as [|[n old] rest] eqn:Hby; [split; assumption|].
  apply by_key_inv in Hby as (_ & Hold & _).
  destruct (assign_comments E d old fields) as [new|] eqn:Hnew; [|split; assumption].
  cbn [snd]. split; [|exact Hq].
  apply (referential_grow d); cbn [users posts comments likes with_comments]; auto.
  intros j c Hj. apply lookup_insert_cases in Hj as [Hj|[-> ->]]; auto.
  right. apply (assign_comments_refs E d fields old new Hnew).
  destruct Hr as (_ & Rc & _). apply (Rc n old Hold).
Qed.

Lemma keeps_delete_comments E id : keeps constraints (delete_comments E id).
Proof.
  unfold delete_comments. apply keeps_bind; [apply keeps_int_param|]. intros k d [Hr Hq].
  destruct (by_key (comments d) k) as [|[n old] rest]; [split; assumption|].
  cbn [snd]. split; [|exact Hq].
  apply (referential_grow d); cbn [users posts comments likes with_comments]; auto.
  intros j c Hj. apply lookup_delete_Some in Hj as [_ Hj]. auto.
Qed.

Lemma keeps_insert_like E now u p : keeps constraints (insert_like E now u p).
Proof.
  unfold insert_like. apply keeps_bind; [apply keeps_int_param|]. intros k.
  apply keeps_bind; [apply keeps_int_param|]. intros j d [Hr Hq].
  destruct k as [k|]; [|split; assumption].
  destruct j as [j|]; [|split; assumption].
  destruct (bool_decide (is_Some (users d !! k))) eqn:Hk; [|split; assumption].
  destruct (bool_decide (is_Some (posts d !! j))) eqn:Hj; [|split; assumption].
  apply bool_decide_eq_true_1 in Hk. apply bool_decide_eq_true_1 in Hj.
  destruct (negb _); [|split; assumption].
  cbn [andb snd]. split; [|exact Hq].
  apply (referential_grow d); cbn [users posts comments likes with_likes]; auto.
  intros i x Hi. apply lookup_insert_cases in Hi as [Hi|[-> ->]]; auto.
Qed.

Lemma keeps_delete_likes E u p : keeps constraints (delete_likes E u p).
Proof.
  unfold delete_likes. apply keeps_bind; [apply keeps_int_param|]. intros k.
  apply keeps_bind; [apply keeps_int_param|]. intros j d [Hr Hq].
  destruct k as [k|]; [|split; assumption].
  destruct j as [j|]; [|split; assumption].
  cbn [snd]. split; [|exact Hq].
  apply (referential_grow d); cbn [users posts comments likes with_likes]; auto.
  intros i x Hi. apply lookup_delete_Some in Hi as [_ Hi]. auto.
Qed.

(** The queries a handler runs besides its statements. *)
Ltac keeps_query :=
  first
    [ apply keeps_ret | apply keeps_throw | apply keeps_select | apply keeps_parse
    | apply keeps_int_param | apply keeps_first_row | apply keeps_toISOString
    | apply keeps_filter_id
    | apply keeps_map_M; intros ?
    | apply keeps_if
    | apply keeps_bind; [|intros ?]
    | match goal with
      | |- keeps _ (match ?l with [] => _ | _ :: _ => _ end) => destruct l
      | |- keeps _ (let (_, _) := ?p in _) => destruct p
      | |- keeps _ (destructure _ ?v) => destruct v; cbn [destructure]
      | |- keeps _ (lower_trim _ ?v) => destruct v; cbn [lower_trim]
      end
    | progress unfold select_user_id, select_user, select_user_taken,
        select_user_by_email, select_post_id, select_post, select_comment_id,
        select_comment, select_like, select_users_page, select_posts_page,
        select_comments_page, select_likes_page, user_json, post_json,
        comment_json, like_json ].

Ltac keeps_statement :=
  first
    [ apply keeps_insert_user | apply keeps_update_users | apply keeps_delete_users
    | apply keeps_insert_post | apply keeps_update_posts | apply keeps_delete_posts
    | apply keeps_insert_comment | apply keeps_update_comments
    | apply keeps_delete_comments | apply keeps_insert_like | apply keeps_delete_likes ].

Lemma handlers_keep_constraints E now rnd nextval req d :
  constraints d ->
  constraints (snd (register E now rnd req d)) /\
  constraints (snd (create_user E now rnd req d)) /\
  constraints (snd (update_user E now req d)) /\
  constraints (snd (delete_user E now req d)) /\
  constraints (snd (create_post E now rnd nextval req d)) /\
  constraints (snd (update_post E now req d)) /\
  constraints (snd (delete_post E now req d)) /\
  constraints (snd (create_comment E now nextval req d)) /\
  constraints (snd (update_comment E now req d)) /\
  constraints (snd (delete_comment E now req d)) /\
  constraints (snd (create_like E now req d)) /\
  constraints (snd (delete_like E now req d)).
Proof.
  intros H.
  unfold register, create_user, update_user, delete_user, create_post, update_post,
    delete_post, create_comment, update_comment, delete_comment, create_like,
    delete_like.
  repeat match goal with |- _ /\ _ => split end;
    (apply keeps_try_catch; [|exact H]);
    repeat first [keeps_statement | keeps_query].
Qed.

(** The statements on posts, comments and likes leave the users alone. *)
Lemma keeps_users (P : gmap Z user_row -> Prop) E now nextval :
  (forall u t c i, keeps (fun d => P (users d)) (insert_post E now nextval u t c i))
  /\ (forall id, keeps (fun d => P (users d)) (delete_posts E id))
  /\ (forall u p c, keeps (fun d => P (users d)) (insert_comment E now nextval u p c))
  /\ (forall fields id, keeps (fun d => P (users d)) (update_comments E fields id))
  /\ (forall id, keeps (fun d => P (users d)) (delete_comments E id))
  /\ (forall u p, keeps (fun d => P (users d)) (delete_likes E u p)).
Proof.
  repeat match goal with |- _ /\ _ => split end; intros.
  - unfold insert_post. apply keeps_bind; [apply keeps_int_param|]. intros k d H.
    destruct k; [|exact H]. destruct (varchar 200 t); [|exact H].
    destruct (_ && _); exact H.
  - unfold delete_posts. apply keeps_bind; [apply keeps_int_param|]. intros k d H.
    destruct (by_key (posts d) k) as [|[n old] rest]; [exact H|].
    destruct (post_referenced d n); exact H.
  - unfold insert_comment. apply keeps_bind; [apply keeps_int_param|]. intros k.
    apply keeps_bind; [apply keeps_int_param|]. intros j d H.
    destruct k; [|exact H]. destruct j; [|exact H].
    destruct (_ && _); exact H.
  - unfold update_comments. apply keeps_bind; [apply keeps_int_param|]. intros k d H.
    destruct (by_key (comments d) k) as [|[n old] rest]; [exact H|].
    destruct (assign_comments E d old fields); exact H.
  - unfold delete_comments. apply keeps_bind; [apply keeps_int_param|]. intros k d H.
    destruct (by_key (comments d) k) as [|[n old] rest]; exact H.
  - unfold delete_likes. apply keeps_bind; [apply keeps_int_param|]. intros k.
    apply keeps_bind; [apply keeps_int_param|]. intros j d H.
    destruct k; [|exact H]. destruct j; exact H.
Qed.

Lemma handlers_keep_users (P : gmap Z user_row -> Prop) E now rnd nextval req d :
  P (users d) ->
  P (users (snd (create_post E now rnd nextval req d))) /\
  P (users (snd (delete_post E now req d))) /\
  P (users (snd (create_comment E now nextval req d))) /\
  P (users (snd (update_comment E now req d))) /\
  P (users (snd (delete_comment E now req d))) /\
  P (users (snd (delete_like E now req d))).
Proof.
  intros H.
  destruct (keeps_users P E now nextval) as (K1 & K2 & K3 & K4 & K5 & K6).
  unfold create_post, delete_post, create_comment, update_comment, delete_comment,
    delete_like.
  repeat match goal with |- _ /\ _ => split end;
    (apply (keeps_try_catch (fun d => P (users d))); [|exact H]);
    repeat first [ apply K1 | apply K2 | apply K3 | apply K4 | apply K5 | apply K6
                 | keeps_query ].
Qed.

Lemma unique_users_seed : unique_users seed.
Proof.
  assert (H : map_Forall (fun i x =>
              map_Forall (fun j y =>
                u_username x = u_username y \/ u_email x = u_email y -> i = j)
              (users seed)) (users seed)).
  { apply (bool_decide_unpack _). vm_compute. exact I. }
  intros i j x y Hi Hj. exact (H i x Hi j y Hj).
Qed.

Lemma referential_seed : referential seed.
Proof.
  split; [|split; [|exact likes_reference_seed]];
    apply (bool_decide_unpack _); vm_compute; exact I.
Qed.

Lemma integrity_seed : integrity seed.
Proof.
  split; [exact referential_seed | split; [exact unique_users_seed | exact normalized_seed]].
Qed.

(** X27.  Every handler that writes takes a database that satisfies the foreign
    keys and the [UNIQUE] constraints of the schema, and whose user names and
    addresses are in the form the handlers write, to such a database,
    whatever the request and whether the request succeeds or fails. *)
Theorem handlers_keep_integrity E now rnd nextval req d :
  integrity d ->
  integrity (snd (register E now rnd req d)) /\
  integrity (snd (create_user E now rnd req d)) /\
  integrity (snd (authenticated E now (update_user E now) req d)) /\
  integrity (snd (authenticated E now (delete_user E now) req d)) /\
  integrity (snd (create_post E now rnd nextval req d)) /\
  integrity (snd (update_post E now req d)) /\
  integrity (snd (delete_post E now req d)) /\
  integrity (snd (create_comment E now nextval req d)) /\
  integrity (snd (update_comment E now req d)) /\
  integrity (snd (delete_comment E now req d)) /\
  integrity (snd (create_like E now req d)) /\
  integrity (snd (delete_like E now req d)).
Proof.
  intros (Hr & Hq & Hn).
  assert (Hc : consistent d) by (split; [exact Hn | apply Hr]).
  assert (Hk : constraints d) by (split; assumption).
  assert (glue : forall d', constraints d' -> normalized d' -> integrity d').
  { intros d' [H1 H2] H3. split; [|split]; assumption. }
  destruct (handlers_keep_constraints E now rnd nextval req d Hk)
    as (C1 & C2 & _ & _ & C5 & C6 & C7 & C8 & C9 & C10 & C11 & C12).
  destruct (handlers_keep_users
              (fun us => map_Forall (fun _ r => normalize (u_email r) = u_email r
                                     /\ trim (u_username r) = u_username r) us)
              E now rnd nextval req d Hn)
    as (N5 & N7 & N8 & N9 & N10 & N12).
  repeat match goal with |- _ /\ _ => split end.
  - apply glue; [exact C1 | apply register_consistent, Hc].
  - apply glue; [exact C2 | apply create_user_consistent, Hc].
  - unfold authenticated. destruct (authenticateToken E now req d) as [r|req'].
    + apply glue; assumption.
    + apply glue; [apply (handlers_keep_constraints E now rnd nextval req' d Hk)
                  | apply update_user_consistent, Hc].
  - unfold authenticated. destruct (authenticateToken E now req d) as [r|req'].
    + apply glue; assumption.
    + apply glue; [apply (handlers_keep_constraints E now rnd nextval req' d Hk)
                  | apply delete_user_consistent, Hc].
  - apply glue; [exact C5 | exact N5].
  - apply glue; [exact C6 | apply update_post_consistent, Hc].
  - apply glue; [exact C7 | exact N7].
  - apply glue; [exact C8 | exact N8].
  - apply glue; [exact C9 | exact N9].
  - apply glue; [exact C10 | exact N10].
  - apply glue; [exact C11 | apply create_like_consistent, Hc].
  - apply glue; [exact C12 | exact N12].
Qed.

Lemma handlers_keep_integrity_witness :
  integrity seed /\
  integrity (snd (register sample_env 0 7 register_alice seed)) /\
  integrity (snd (create_like sample_env 0 like_again seed)).
Proof.
  pose proof (handlers_keep_integrity sample_env 0 7 100 register_alice seed
                integrity_seed) as H1.
  pose proof (handlers_keep_integrity sample_env 0 7 100 like_again seed
                integrity_seed) as H2.
  destruct H2 as (_ & _ & _ & _ & _ & _ & _ & _ & _ & _ & H2 & _).
  exact (conj integrity_seed (conj (proj1 H1) H2)).
Defined.

(** *** Requests that read *)

(** X26.  [POST /api/auth/login] and the eight [GET] handlers of the API leave the
    database as it is, whatever the request and whatever they answer. *)
Theorem reading_handlers_write_nothing E order_posts order_comments order_likes
    now req d :
  snd (login E now req d) = d /\
  snd (list_users E now req d) = d /\
  snd (get_user E now req d) = d /\
  snd (list_posts E order_posts now req d) = d /\
  snd (get_post E now req d) = d /\
  snd (list_comments E order_comments now req d) = d /\
  snd (get_comment E now req d) = d /\
  snd (list_likes E order_likes now req d) = d.
Proof.
  unfold login, list_users, get_user, list_posts, get_post, list_comments,
    get_comment, list_likes.
  repeat match goal with |- _ /\ _ => split end;
    (apply (keeps_try_catch (fun d' => d' = d)); [|reflexivity]);
    repeat keeps_query.
Qed.

Lemma catch_zod_status E now e : 
  status (catch_zod E now e) = 400 \/ status (catch_zod E now e) = 500.
Proof. unfold catch_zod. destruct (String.eqb _ _); [left | right]; reflexivity. Qed.

(** An answer of the [catch] clause is no success. *)
Ltac caught H :=
  exfalso;
  cbn [fst status res_json res_send bad_request not_found internal_error
       fmap list_fmap List.length Nat.eqb Nat.ltb Nat.leb by_key] in H;
  match type of H with
  | context [catch_zod ?E ?now ?e] =>
      destruct (catch_zod_status E now e) as [Hc|Hc];
      rewrite Hc in H; discriminate H
  | _ => discriminate H
  end.

Lemma param_cases k req :
  (exists s, param k req = JStr s) \/ param k req = JUndefined.
Proof. unfold param. destruct (List.find _ _); eauto. Qed.

Lemma get_user_stored E now req d s n row t :
  param "user_id" req = JStr s ->
  pg_int4 E s = Some n ->
  users d !! n = Some row ->
  u_created_at row = Some t ->
  get_user E now req d = (res_json 200 (user_object (public n row) (iso_string E t)), d).
Proof.
  intros Hparam Hint Hrow Ht.
  unfold get_user. cbv [try_catch bind select_user int_param]. rewrite Hparam, Hint.
  cbv [ret select by_key]. rewrite Hrow. cbn [fmap list_fmap].
  cbv [user_json toISOString bind ret]. cbn [pu_created_at public fst snd].
  rewrite Ht. reflexivity.
Qed.

Lemma update_user_ok E now req d :
  status (fst (update_user E now req d)) = 200 ->
  exists s n new t,
    param "user_id" req = JStr s /\ pg_int4 E s = Some n
    /\ u_created_at new = Some t
    /\ update_user E now req d
       = (res_json 200 (user_object (public n new) (iso_string E t)),
          with_users (insert n new) d).
Proof.
  intros Hst. unfold update_user in *. cbv [try_catch bind parse] in *.
  destruct (updateUserInputSchema E (req_body req)) as [input|]; [|caught Hst].
  cbv [ret throw select_user_id int_param bind select] in *.
  destruct (param_cases "user_id" req) as [[s Hp]|Hp]; rewrite Hp in *;
    [|caught Hst].
  destruct (pg_int4 E s) as [n|] eqn:Hint; [|caught Hst].
  cbv [ret by_key] in *.
  destruct (users d !! n) as [old|] eqn:Hold; [|caught Hst].
  cbn [fmap list_fmap List.length Nat.eqb fst] in *.
  destruct (List.length (user_updateFields input) =? 0)%nat; [caught Hst|].
  cbv [update_users int_param bind ret by_key] in *. rewrite Hint, Hold in *.
  destruct (assign_users old (user_updateFields input)) as [new|]; [|caught Hst].
  destruct (username_taken _ _ || email_taken _ _); [caught Hst|].
  cbv [first_row ret user_json toISOString bind] in *.
  cbn [pu_created_at public] in *.
  destruct (u_created_at new) as [t|] eqn:Ht; [|caught Hst].
  exists s, n, new, t.
  split; [reflexivity|]. split; [assumption|]. split; [assumption | reflexivity].
Qed.

(** X12.  A [PUT /api/users/:user_id] answered 200, followed by a [GET] of the
    same path, gives the same answer again and the [GET] changes nothing. *)
Theorem updated_user_is_what_get_returns E now now' req d :
  status (fst (update_user E now req d)) = 200 ->
  get_user E now' req (snd (update_user E now req d)) = update_user E now req d.
Proof.
  intros Hst.
  destruct (update_user_ok E now req d Hst) as (s & n & new & t & Hp & Hint & Ht & Heq).
  rewrite Heq. cbn [snd].
  apply (get_user_stored E now' req _ s n new t Hp Hint); [|exact Ht].
  cbn [users with_users]. apply lookup_insert_eq.
Qed.

Lemma updated_user_is_what_get_returns_witness :
  status (fst (update_user sample_env 0 clear_john seed)) = 200 /\
  get_user sample_env 1 clear_john (snd (update_user sample_env 0 clear_john seed))
  = update_user sample_env 0 clear_john seed.
Proof.
  assert (H : status (fst (update_user sample_env 0 clear_john seed)) = 200)
    by (vm_compute; reflexivity).
  exact (conj H (updated_user_is_what_get_returns sample_env 0 1 clear_john seed H)).
Defined.

Lemma get_user_missing E now req d s n :
  param "user_id" req = JStr s ->
  pg_int4 E s = Some n ->
  users d !! n = None ->
  get_user E now req d = (not_found E now "User not found" "USER_NOT_FOUND", d).
Proof.
  intros Hparam Hint Hrow.
  unfold get_user. cbv [try_catch bind select_user int_param]. rewrite Hparam, Hint.
  cbv [ret select by_key]. rewrite Hrow. reflexivity.
Qed.

Lemma delete_user_missing E now req d s n :
  param "user_id" req = JStr s ->
  pg_int4 E s = Some n ->
  users d !! n = None ->
  delete_user E now req d = (not_found E now "User not found" "USER_NOT_FOUND", d).
Proof.
  intros Hparam Hint Hrow.
  unfold delete_user. cbv [try_catch bind select_user_id int_param]. rewrite Hparam, Hint.
  cbv [ret select by_key]. rewrite Hrow. reflexivity.
Qed.

Lemma delete_user_ok E now req d :
  status (fst (delete_user E now req d)) = 204 ->
  exists s n,
    param "user_id" req = JStr s /\ pg_int4 E s = Some n
    /\ is_Some (users d !! n) /\ user_referenced d n = false
    /\ delete_user E now req d = (res_send 204, with_users (delete n) d).
Proof.
  intros Hst. unfold delete_user in *. cbv [try_catch bind] in *.
  cbv [ret throw select_user_id int_param bind select] in *.
  destruct (param_cases "user_id" req) as [[s Hp]|Hp]; rewrite Hp in *;
    [|caught Hst].
  destruct (pg_int4 E s) as [n|] eqn:Hint; [|caught Hst].
  cbv [ret by_key] in *.
  destruct (users d !! n) as [old|] eqn:Hold; [|caught Hst].
  cbn [fmap list_fmap List.length Nat.eqb fst] in *.
  cbv [delete_users int_param bind ret by_key] in *. rewrite Hint, Hold in *.
  destruct (user_referenced d n) eqn:Href; [caught Hst|].
  exists s, n.
  repeat (split; [first [reflexivity | assumption | eauto]|]).
  reflexivity.
Qed.

Lemma authenticateToken_outcome E now req d :
  (exists r, authenticateToken E now req d = Denied r
             /\ (status r = 401 \/ status r = 403))
  \/ (exists u, authenticateToken E now req d = Next (set_user u req)).
Proof.
  unfold authenticateToken.
  destruct (bearer (req_authorization req)) as [[|c token]|];
    try (left; eexists; split; [reflexivity | left; reflexivity]).
  destruct (jwt_verify E _ _ _) as [decoded|];
    [|left; eexists; split; [reflexivity | right; reflexivity]].
  destruct (select_user E _ d) as [[[|u l]|e] d1].
  - left. eexists. split; [reflexivity | left; reflexivity].
  - right. eexists. reflexivity.
  - left. eexists. split; [reflexivity | right; reflexivity].
Qed.

(** X13.  A user whose deletion, behind [authenticateToken], was answered 204
    is gone: the row is removed and nothing else is, and a [GET] of the same
    path is answered 404.  The same [DELETE] sent again changes nothing and
    is answered by the middleware, if it refuses the request, and with 404
    otherwise; the middleware refuses it with 401 AUTH_USER_NOT_FOUND when
    the token is the one of the user that was deleted. *)
Theorem deleted_user_is_gone E now now' req d :
  status (fst (authenticated E now (delete_user E now) req d)) = 204 ->
  let d' := snd (authenticated E now (delete_user E now) req d) in
  let again := authenticated E now' (delete_user E now') req d' in
  exists n,
    is_Some (users d !! n) /\ d' = with_users (delete n) d /\
    get_user E now' req d'
    = (not_found E now' "User not found" "USER_NOT_FOUND", d') /\
    snd again = d' /\
    (forall r, authenticateToken E now' req d' = Denied r -> fst again = r) /\
    (forall req1, authenticateToken E now' req d' = Next req1 ->
                  fst again = not_found E now' "User not found" "USER_NOT_FOUND") /\
    (forall token decoded,
        bearer (req_authorization req) = Some token -> token <> "" ->
        jwt_verify E token (JWT_SECRET E) now' = Some decoded ->
        prop "user_id" decoded = JNum n -> int4 n = true ->
        denied_with (authenticateToken E now' req d') 401 "AUTH_USER_NOT_FOUND").
Proof.
  intros Hst d' again.
  assert (Hfirst : exists u, authenticateToken E now req d = Next (set_user u req)).
  { destruct (authenticateToken_outcome E now req d) as [(r & Hr & Hcode)|Hnext];
      [|exact Hnext].
    exfalso. unfold authenticated in Hst. rewrite Hr in Hst. cbn [fst] in Hst.
    destruct Hcode as [Hcode|Hcode]; rewrite Hcode in Hst; discriminate Hst. }
  destruct Hfirst as [u Hnext].
  assert (Hrun : authenticated E now (delete_user E now) req d
                 = delete_user E now req d).
  { unfold authenticated. rewrite Hnext. reflexivity. }
  rewrite Hrun in Hst.
  destruct (delete_user_ok E now req d Hst) as (s & n & Hp & Hint & Hn & _ & Heq).
  assert (Hd : d' = with_users (delete n) d)
    by (unfold d'; rewrite Hrun, Heq; reflexivity).
  assert (Hgone : users d' !! n = None)
    by (rewrite Hd; cbn [users with_users]; apply lookup_delete_eq).
  assert (Hmissing : forall req1,
             authenticateToken E now' req d' = Next req1 ->
             again = (not_found E now' "User not found" "USER_NOT_FOUND", d')).
  { intros req1 H1. unfold again, authenticated. rewrite H1.
    destruct (authenticateToken_outcome E now' req d') as [(r & Hr & _)|[u' Hu']];
      [congruence|].
    assert (req1 = set_user u' req) by congruence. subst req1.
    apply (delete_user_missing E now' (set_user u' req) d' s n Hp Hint Hgone). }
  exists n. split; [exact Hn|]. split; [exact Hd|].
  split; [apply (get_user_missing E now' req d' s n Hp Hint Hgone)|].
  split.
  { destruct (authenticateToken_outcome E now' req d') as [(r & Hr & _)|[u' Hu']].
    - unfold again, authenticated. rewrite Hr. reflexivity.
    - rewrite (Hmissing _ Hu'). reflexivity. }
  split.
  { intros r H1. unfold again, authenticated. rewrite H1. reflexivity. }
  split.
  { intros req1 H1. rewrite (Hmissing req1 H1). reflexivity. }
  intros token decoded Hb Hne Hv Hid Hrange.
  unfold authenticateToken. rewrite Hb.
  destruct token as [|c token]; [congruence|]. rewrite Hv, Hid.
  cbv [select_user int_param bind ret select by_key]. rewrite Hrange, Hgone.
  eexists. split; [reflexivity|]. split; reflexivity.
Qed.

Lemma deleted_user_is_gone_witness :
  (status (fst (authenticated sample_env 0 (delete_user sample_env 0)
                  jane_deletes_alice with_alice)) = 204 /\
   status (fst (authenticated sample_env 1 (delete_user sample_env 1)
                  jane_deletes_alice
                  (snd (authenticated sample_env 0 (delete_user sample_env 0)
                          jane_deletes_alice with_alice)))) = 404) /\
  (status (fst (authenticated sample_env 0 (delete_user sample_env 0)
                  alice_deletes_alice with_alice)) = 204 /\
   denied_with
     (authenticateToken sample_env 1 alice_deletes_alice
        (snd (authenticated sample_env 0 (delete_user sample_env 0)
                alice_deletes_alice with_alice)))
     401 "AUTH_USER_NOT_FOUND").
Proof.
  assert (H1 : status (fst (authenticated sample_env 0 (delete_user sample_env 0)
                              jane_deletes_alice with_alice)) = 204)
    by (vm_compute; reflexivity).
  assert (H2 : status (fst (authenticated sample_env 0 (delete_user sample_env 0)
                              alice_deletes_alice with_alice)) = 204)
    by (vm_compute; reflexivity).
  split; split; [exact H1 | | exact H2 |].
  - destruct (deleted_user_is_gone sample_env 0 1 jane_deletes_alice with_alice H1)
      as (n & _ & _ & _ & _ & _ & Hpass & _).
    rewrite (Hpass (set_user (public 2 (seed_user "jane_smith" "jane@example.com"
                                          "admin123" "Jane Smith" "17"))
                             jane_deletes_alice)); [reflexivity|].
    vm_compute. reflexivity.
  - destruct (deleted_user_is_gone sample_env 0 1 alice_deletes_alice with_alice H2)
      as (n & _ & Hd & _ & _ & _ & _ & Hself).
    assert (Hn : n = 6).
    { destruct (decide (n = 6)) as [Hn|Hn]; [exact Hn|]. exfalso.
      apply (f_equal (fun x => users x !! 6)) in Hd.
      cbn [users with_users] in Hd. rewrite lookup_delete_ne in Hd by congruence.
      vm_compute in Hd. discriminate Hd. }
    subst n.
    apply (Hself "token-6" (JObj [("user_id", JNum 6)]));
      [reflexivity | discriminate | reflexivity | reflexivity | reflexivity].
Defined.

(** X10.  The token a registration hands out opens the middleware for the
    user registered: it is signed for the id and the address of that user,
    and [authenticateToken], given it as bearer token on the database the
    registration left, passes the request on with that user as [req.user],
    as long as the JWT library verifies the token and the payload it
    decodes carries the [user_id] that was signed. *)
Theorem registration_token_accepted E now rnd req input d now' req' :
  createUserInputSchema E (req_body req) = Some input ->
  status (fst (register E now rnd req d)) = 201 ->
  int4 (users_id_seq d) = true ->
  exists token u,
    answered_token (fst (register E now rnd req d)) = Some (Jstr token)
    /\ token = jwt_sign E (token_payload u) (JWT_SECRET E) now
    /\ pu_id u = users_id_seq d
    /\ pu_email u = normalize (in_email input)
    /\ (forall decoded,
          token <> "" ->
          bearer (req_authorization req') = Some token ->
          jwt_verify E token (JWT_SECRET E) now' = Some decoded ->
          prop "user_id" decoded = prop "user_id" (token_payload u) ->
          authenticateToken E now' req' (snd (register E now rnd req d))
          = Next (set_user u req')).
Proof.
  intros Hparse Hst Hrange.
  destruct (register_created E now rnd req input d Hparse Hst)
    as (stored & _ & _ & _ & Hreg).
  rewrite Hreg. cbn [fst snd].
  set (row := registered_row now rnd input stored).
  exists (jwt_sign E (token_payload (public (users_id_seq d) row)) (JWT_SECRET E) now),
         (public (users_id_seq d) row).
  split; [|split; [reflexivity | split; [reflexivity | split; [reflexivity|]]]].
  - unfold answered_token, res_json, user_object. simpl.
    destruct (trim_or_null (mjoin (in_full_name input))); reflexivity.
  - intros decoded Hne Hbearer Hverify Hid.
    apply (authenticateToken_passes E now' req' _ _ _ (users_id_seq d) row
             Hbearer Hne Hverify); [exact Hid | exact Hrange |].
    apply lookup_insert_eq.
Qed.

Lemma registration_token_accepted_witness :
  exists u,
    pu_id u = 6 /\
    pu_email u = "a@x.com" /\
    authenticateToken sample_env 9 alice_deletes_john
      (snd (register sample_env 5 7 register_alice seed))
    = Next (set_user u alice_deletes_john).
Proof.
  destruct (registration_token_accepted sample_env 5 7 register_alice alice_input seed
              9 alice_deletes_john eq_refl eq_refl eq_refl)
    as (token & u & _ & Htoken & Hid & Hemail & Hpass).
  exists u. split; [exact Hid|]. split; [exact Hemail|].
  unfold token_payload in *. rewrite Hid, Hemail in *.
  subst token.
  apply (Hpass (JObj [("user_id", JNum 6)]));
    [discriminate | reflexivity | reflexivity | reflexivity].
Defined.

Lemma create_user_ok E now rnd req d :
  status (fst (create_user E now rnd req d)) = 201 ->
  exists row,
    users d !! users_id_seq d = None
    /\ u_created_at row = Some now
    /\ create_user E now rnd req d
       = (res_json 201 (user_object (public (users_id_seq d) row) (iso_string E now)),
          with_users (insert (users_id_seq d) row) (nextval_users d)).
Proof.
  intros Hst. unfold create_user in *. cbv [try_catch bind parse] in *.
  destruct (createUserInputSchema E (req_body req)) as [input|]; [|caught Hst].
  cbv [ret throw select_user_taken select] in *.
  match type of Hst with
  | context [(0 <? ?n)%nat] => destruct (0 <? n)%nat
  end; [caught Hst|].
  unfold insert_user in *.
  destruct (varchar 50 _) as [u|]; [|caught Hst].
  destruct (varchar 100 _) as [e|]; [|caught Hst].
  destruct (varchar 255 _) as [p|]; [|caught Hst].
  destruct (varchar_null 100 _) as [f|]; [|caught Hst].
  destruct (bool_decide (is_Some (users d !! users_id_seq d))) eqn:Hpk; [caught Hst|].
  cbn [orb] in *.
  destruct (username_taken (users d) u || email_taken (users d) e); [caught Hst|].
  eexists. split; [|split; [|reflexivity]].
  - apply bool_decide_eq_false in Hpk. apply eq_None_not_Some. exact Hpk.
  - reflexivity.
Qed.

(** X11.  A user created by [POST /api/users] can be fetched: the answer carries
    the id the sequence gave, and a [GET /api/users/:user_id] with that id
    is answered 200 with the body of the 201 answer, changing nothing. *)
Theorem created_user_can_be_fetched E now rnd req d now' req' :
  let id := users_id_seq d in
  let d' := snd (create_user E now rnd req d) in
  status (fst (create_user E now rnd req d)) = 201 ->
  param "user_id" req' = JStr (string_of_Z id) ->
  pg_int4 E (string_of_Z id) = Some id ->
  (b ← body (fst (create_user E now rnd req d)); member "id" b)
  = Some (Jstr (string_of_Z id))
  /\ get_user E now' req' d'
     = ({| status := 200; body := body (fst (create_user E now rnd req d)) |}, d').
Proof.
  intros id d' Hst Hparam Hint.
  destruct (create_user_ok E now rnd req d Hst) as (row & _ & Ht & Heq).
  unfold d'. rewrite Heq. cbn [fst snd]. split; [reflexivity|].
  apply (get_user_stored E now' req' _ _ id row now Hparam Hint); [|exact Ht].
  apply lookup_insert_eq.
Qed.

Lemma created_user_can_be_fetched_witness :
  status (fst (create_user sample_env 5 7 register_alice seed)) = 201 /\
  get_user sample_env 9 get_alice (snd (create_user sample_env 5 7 register_alice seed))
  = ({| status := 200;
        body := body (fst (create_user sample_env 5 7 register_alice seed)) |},
     snd (create_user sample_env 5 7 register_alice seed)).
Proof.
  assert (H : status (fst (create_user sample_env 5 7 register_alice seed)) = 201)
    by (vm_compute; reflexivity).
  exact (conj H (proj2 (created_user_can_be_fetched sample_env 5 7 register_alice seed
                          9 get_alice H eq_refl eq_refl))).
Defined.



(** *** Posts *)

Lemma post_referenced_by_comment d n k c :
  comments d !! k = Some c -> c_post_id c = n -> post_referenced d n = true.
Proof.
  intros Hk Hc. unfold post_referenced. apply orb_true_iff. left.
  apply bool_decide_eq_true_2. exists k, c. auto.
Qed.

Lemma post_referenced_by_like d u n l :
  likes d !! (u, n) = Some l -> post_referenced d n = true.
Proof.
  intros Hk. unfold post_referenced. apply orb_true_iff. right.
  apply bool_decide_eq_true_2. exists (u, n), l. auto.
Qed.

Lemma post_unreferenced d n :
  (forall k c, comments d !! k = Some c -> c_post_id c <> n) ->
  (forall k l, likes d !! k = Some l -> snd k <> n) ->
  post_referenced d n = false.
Proof.
  intros Hc Hl. unfold post_referenced. apply orb_false_iff. split.
  - apply bool_decide_eq_false_2. intros (k & c & Hk & Heq). exact (Hc k c Hk Heq).
  - apply bool_decide_eq_false_2. intros (k & c & Hk & Heq). exact (Hl k c Hk Heq).
Qed.

Lemma delete_post_run E now req d s n p :
  param "post_id" req = JStr s ->
  pg_int4 E s = Some n ->
  posts d !! n = Some p ->
  delete_post E now req d
  = if post_referenced d n then (internal_error E now (pg_error E), d)
    else (res_send 204, with_posts (delete n) d).
Proof.
  intros Hparam Hint Hp.
  unfold delete_post. cbv [try_catch bind select_post_id int_param]. rewrite Hparam, Hint.
  cbv [ret select by_key bind]. rewrite Hp.
  cbn [fmap list_fmap List.length Nat.eqb].
  cbv [delete_posts int_param bind ret by_key]. rewrite Hint, Hp.
  destruct (post_referenced d n); reflexivity.
Qed.

(** X16.  [DELETE /api/posts/:post_id] of a stored post: a post that a comment or
    a like references is not deleted, the request is answered 500 and
    nothing changes ([comments.post_id] and [likes.post_id] reference
    [posts (id)] with no [ON DELETE] action); a post without comments and
    likes is removed, and nothing else is. *)
Theorem delete_post_needs_unreferenced E now req d s n p :
  param "post_id" req = JStr s ->
  pg_int4 E s = Some n ->
  posts d !! n = Some p ->
  ((exists k c, comments d !! k = Some c /\ c_post_id c = n)
   \/ (exists u l, likes d !! (u, n) = Some l) ->
   delete_post E now req d = (internal_error E now (pg_error E), d)) /\
  ((forall k c, comments d !! k = Some c -> c_post_id c <> n) ->
   (forall k l, likes d !! k = Some l -> snd k <> n) ->
   delete_post E now req d = (res_send 204, with_posts (delete n) d)).
Proof.
  intros Hparam Hint Hp.
  rewrite (delete_post_run E now req d s n p Hparam Hint Hp). split.
  - intros [(k & c & Hk & Hc)|(u & l & Hl)].
    + rewrite (post_referenced_by_comment d n k c Hk Hc). reflexivity.
    + rewrite (post_referenced_by_like d u n l Hl). reflexivity.
  - intros Hc Hl. rewrite (post_unreferenced d n Hc Hl). reflexivity.
Qed.

Lemma delete_post_needs_unreferenced_witness :
  delete_post sample_env 0 delete_first_post seed
  = (internal_error sample_env 0 (pg_error sample_env), seed) /\
  delete_post sample_env 0 delete_announcement with_announcement
  = (res_send 204, with_posts (delete 7) with_announcement).
Proof.
  split.
  - apply (proj1 (delete_post_needs_unreferenced sample_env 0 delete_first_post seed
                    "1" 1
                    (seed_post 1 "First Post" "This is my first post about PostgreSQL!" "10")
                    eq_refl eq_refl eq_refl)).
    right. exists 2, {| l_created_at := Some seed_time |}. reflexivity.
  - apply (proj2 (delete_post_needs_unreferenced sample_env 0 delete_announcement
                    with_announcement "7" 7
                    {| p_user_id := 2; p_title := "Hello"; p_content := None;
                       p_image_url := Some (default_picture 7);
                       p_created_at := Some 5 |}
                    eq_refl eq_refl eq_refl)).
    + apply (bool_decide_unpack _). vm_compute. exact I.
    + apply (bool_decide_unpack _). vm_compute. exact I.
Defined.

Lemma get_post_stored E now req d s n row v :
  param "post_id" req = JStr s ->
  pg_int4 E s = Some n ->
  posts d !! n = Some row ->
  (forall d0, post_json E (n, row) d0 = (Returned v, d0)) ->
  get_post E now req d = (res_json 200 v, d).
Proof.
  intros Hparam Hint Hrow Hjson.
  unfold get_post. cbv [try_catch bind select_post int_param]. rewrite Hparam, Hint.
  cbv [ret select by_key]. rewrite Hrow, Hjson. reflexivity.
Qed.

Lemma create_post_ok E now rnd nextval req d :
  status (fst (create_post E now rnd nextval req d)) = 201 ->
  exists input row v,
    createPostInputSchema E (req_body req) = Some input
    /\ posts d !! nextval = None
    /\ is_Some (users d !! p_user_id row)
    /\ pg_int4 E (cp_user_id input) = Some (p_user_id row)
    /\ varchar 200 (trim (cp_title input)) = Some (p_title row)
    /\ p_content row = trim_or_null (mjoin (cp_content input))
    /\ (forall d0, post_json E (nextval, row) d0 = (Returned v, d0))
    /\ create_post E now rnd nextval req d
       = (res_json 201 v, with_posts (insert nextval row) d).
Proof.
  intros Hst. unfold create_post in *. cbv [try_catch bind parse] in *.
  destruct (createPostInputSchema E (req_body req)) as [input|]; [|caught Hst].
  cbv [ret throw select_user_id int_param bind select] in *.
  destruct (pg_int4 E (cp_user_id input)) as [u|] eqn:Hint; [|caught Hst].
  cbv [ret by_key] in *.
  destruct (users d !! u) as [owner|] eqn:Hu; [|caught Hst].
  cbn [fmap list_fmap List.length Nat.eqb fst] in *.
  cbv [insert_post int_param bind ret] in *. rewrite Hint in *.
  destruct (varchar 200 (trim (cp_title input))) as [t|] eqn:Ht; [|caught Hst].
  rewrite Hu in *.
  destruct (bool_decide (is_Some (posts d !! nextval))) eqn:Hpk.
  { rewrite bool_decide_eq_true_2 in Hst by eauto. caught Hst. }
  rewrite bool_decide_eq_true_2 in * by eauto.
  cbn [andb negb] in *.
  cbv [first_row ret post_json toISOString bind] in *. cbn [p_created_at snd fst] in *.
  exists input,
    {| p_user_id := u; p_title := t;
       p_content := trim_or_null (mjoin (cp_content input));
       p_image_url := Some (or_else (cp_image_url input) (default_picture rnd));
       p_created_at := Some now |}.
  eexists.
  split; [reflexivity|].
  split; [apply bool_decide_eq_false in Hpk; apply eq_None_not_Some; exact Hpk|].
  split; [cbn [p_user_id]; eauto|].
  split; [exact Hint|]. split; [exact Ht|]. split; [reflexivity|].
  split; [intros d0; reflexivity | reflexivity].
Qed.

(** X14.  A post created by [POST /api/posts] can be fetched: a [GET
    /api/posts/:post_id] with the id it was given is answered 200 with the
    body of the 201 answer and changes nothing; the post belongs to a stored
    user and its title and content are those of the input, trimmed. *)
Theorem created_post_can_be_fetched E now rnd nextval req d now' req' :
  let d' := snd (create_post E now rnd nextval req d) in
  status (fst (create_post E now rnd nextval req d)) = 201 ->
  param "post_id" req' = JStr (string_of_Z nextval) ->
  pg_int4 E (string_of_Z nextval) = Some nextval ->
  get_post E now' req' d'
  = ({| status := 200; body := body (fst (create_post E now rnd nextval req d)) |}, d')
  /\ exists input row,
       createPostInputSchema E (req_body req) = Some input
       /\ posts d' !! nextval = Some row
       /\ is_Some (users d' !! p_user_id row)
       /\ varchar 200 (trim (cp_title input)) = Some (p_title row)
       /\ p_content row = trim_or_null (mjoin (cp_content input)).
Proof.
  intros d' Hst Hparam Hint.
  destruct (create_post_ok E now rnd nextval req d Hst)
    as (input & row & v & Hparse & _ & Hu & _ & Ht & Hc & Hjson & Heq).
  unfold d'. rewrite Heq. cbn [fst snd]. split.
  - apply (get_post_stored E now' req' _ _ nextval row v Hparam Hint); [|exact Hjson].
    apply lookup_insert_eq.
  - exists input, row. split; [exact Hparse|].
    split; [apply lookup_insert_eq|]. split; [exact Hu|]. split; assumption.
Qed.

Lemma created_post_can_be_fetched_witness :
  status (fst (create_post sample_env 5 7 7 announce seed)) = 201 /\
  get_post sample_env 9 get_announcement with_announcement
  = ({| status := 200;
        body := body (fst (create_post sample_env 5 7 7 announce seed)) |},
     with_announcement).
Proof.
  assert (H : status (fst (create_post sample_env 5 7 7 announce seed)) = 201)
    by (vm_compute; reflexivity).
  exact (conj H (proj1 (created_post_can_be_fetched sample_env 5 7 7 announce seed
                          9 get_announcement H eq_refl eq_refl))).
Defined.

(** *** Creation checks what it references *)

(** X17.  [POST /api/posts] and [POST /api/comments] look up the user, and the
    post, that a validated input names before they insert: for an id no row
    has, they answer 400 with [USER_NOT_FOUND], respectively
    [POST_NOT_FOUND], and insert nothing. *)
Theorem creation_checks_references E now rnd nextval req d :
  (forall input u,
     createPostInputSchema E (req_body req) = Some input ->
     pg_int4 E (cp_user_id input) = Some u ->
     users d !! u = None ->
     create_post E now rnd nextval req d
     = (bad_request E now "User not found" "USER_NOT_FOUND", d)) /\
  (forall input u,
     createCommentInputSchema (req_body req) = Some input ->
     pg_int4 E (cc_user_id input) = Some u ->
     users d !! u = None ->
     create_comment E now nextval req d
     = (bad_request E now "User not found" "USER_NOT_FOUND", d)) /\
  (forall input u p,
     createCommentInputSchema (req_body req) = Some input ->
     pg_int4 E (cc_user_id input) = Some u ->
     is_Some (users d !! u) ->
     pg_int4 E (cc_post_id input) = Some p ->
     posts d !! p = None ->
     create_comment E now nextval req d
     = (bad_request E now "Post not found" "POST_NOT_FOUND", d)).
Proof.
  split; [|split].
  - intros input u Hparse Hint Hu.
    unfold create_post. cbv [try_catch bind parse]. rewrite Hparse.
    cbv [ret select_user_id int_param bind select]. rewrite Hint.
    cbv [ret by_key]. rewrite Hu. reflexivity.
  - intros input u Hparse Hint Hu.
    unfold create_comment. cbv [try_catch bind parse]. rewrite Hparse.
    cbv [ret select_user_id int_param bind select]. rewrite Hint.
    cbv [ret by_key]. rewrite Hu. reflexivity.
  - intros input u p Hparse Hint [owner Hu] Hintp Hp.
    unfold create_comment. cbv [try_catch bind parse]. rewrite Hparse.
    cbv [ret select_user_id int_param bind select]. rewrite Hint.
    cbv [ret by_key]. rewrite Hu. cbn [fmap list_fmap List.length Nat.eqb].
    cbv [select_post_id int_param bind ret select]. rewrite Hintp.
    cbv [ret by_key]. rewrite Hp. reflexivity.
Qed.

Lemma creation_checks_references_witness :
  create_post sample_env 0 7 7 orphan_post seed
  = (bad_request sample_env 0 "User not found" "USER_NOT_FOUND", seed) /\
  create_comment sample_env 0 8 comment_of_nobody seed
  = (bad_request sample_env 0 "User not found" "USER_NOT_FOUND", seed) /\
  create_comment sample_env 0 8 comment_on_nothing seed
  = (bad_request sample_env 0 "Post not found" "POST_NOT_FOUND", seed).
Proof.
  split; [|split].
  - apply (proj1 (creation_checks_references sample_env 0 7 7 orphan_post seed)
             {| cp_user_id := "99"; cp_title := "Hello"; cp_content := None;
                cp_image_url := None |} 99); reflexivity.
  - apply (proj1 (proj2 (creation_checks_references sample_env 0 7 8
                           comment_of_nobody seed))
             {| cc_user_id := "99"; cc_post_id := "1"; cc_content := "Nice" |} 99);
      reflexivity.
  - apply (proj2 (proj2 (creation_checks_references sample_env 0 7 8
                           comment_on_nothing seed))
             {| cc_user_id := "1"; cc_post_id := "99"; cc_content := "Nice" |} 1 99);
      [reflexivity | reflexivity | | reflexivity | reflexivity].
    vm_compute. eauto.
Defined.

(** *** Comments *)

Lemma assign_comments_null E d l : forall r,
  assign_comments E d r (l ++ [SetCommentContent None])%list = None.
Proof.
  induction l as [|a l IH]; intros r; simpl; [reflexivity|].
  destruct (assign_comment E d r a); simpl; [apply IH | reflexivity].
Qed.

(** X19.  [PUT /api/comments/:comment_id] cannot clear the content: the schema
    accepts [content: null] and a content of spaces only, the handler sends
    [NULL] for both, the column is [NOT NULL], and the request for a stored
    comment is answered 500 and changes nothing. *)
Theorem update_comment_cannot_clear_content E now req d input v s n c :
  updateCommentInputSchema (req_body req) = Some input ->
  uc_content input = Some v ->
  trim_or_null v = None ->
  param "comment_id" req = JStr s ->
  pg_int4 E s = Some n ->
  comments d !! n = Some c ->
  update_comment E now req d = (internal_error E now (pg_error E), d).
Proof.
  intros Hparse Hcontent Hblank Hparam Hint Hc.
  unfold update_comment. cbv [try_catch bind parse]. rewrite Hparse.
  cbv [ret select_comment_id int_param bind select]. rewrite Hparam, Hint.
  cbv [ret by_key]. rewrite Hc. cbn [fmap list_fmap List.length Nat.eqb fst].
  assert (Hfields : exists l, comment_updateFields input
                              = (l ++ [SetCommentContent None])%list).
  { unfold comment_updateFields. rewrite Hcontent, Hblank.
    eexists. rewrite app_assoc. reflexivity. }
  destruct Hfields as [l Hfields]. rewrite Hfields.
  rewrite length_app. cbn [List.length]. rewrite Nat.add_1_r. cbn [Nat.eqb].
  cbv [update_comments int_param bind ret by_key]. rewrite Hint, Hc.
  rewrite assign_comments_null. reflexivity.
Qed.

Lemma update_comment_cannot_clear_content_witness :
  update_comment sample_env 0 clear_comment seed
  = (internal_error sample_env 0 (pg_error sample_env), seed) /\
  update_comment sample_env 0 blank_comment seed
  = (internal_error sample_env 0 (pg_error sample_env), seed).
Proof.
  split.
  - apply (update_comment_cannot_clear_content sample_env 0 clear_comment seed
             {| uc_user_id := None; uc_post_id := None; uc_content := Some None |}
             None "1" 1
             (seed_comment 2 1 "Great first post!"));
      reflexivity.
  - apply (update_comment_cannot_clear_content sample_env 0 blank_comment seed
             {| uc_user_id := None; uc_post_id := None;
                uc_content := Some (Some "   ") |}
             (Some "   ") "1" 1
             (seed_comment 2 1 "Great first post!"));
      reflexivity.
Defined.

(** X18.  [POST /api/comments] for a stored user and a stored post stores the
    content trimmed and answers 201 with it; the schema asks for one
    character before the handler trims, so that a content of spaces only is
    stored, and answered, as the empty string. *)
Theorem create_comment_stores_trimmed E now nextval req d input u p :
  createCommentInputSchema (req_body req) = Some input ->
  pg_int4 E (cc_user_id input) = Some u ->
  is_Some (users d !! u) ->
  pg_int4 E (cc_post_id input) = Some p ->
  is_Some (posts d !! p) ->
  comments d !! nextval = None ->
  let row := {| c_user_id := u; c_post_id := p; c_content := trim (cc_content input);
                c_created_at := Some now |} in
  status (fst (create_comment E now nextval req d)) = 201 /\
  (b ← body (fst (create_comment E now nextval req d)); member "content" b)
  = Some (Jstr (trim (cc_content input))) /\
  snd (create_comment E now nextval req d) = with_comments (insert nextval row) d.
Proof.
  intros Hparse Hintu [owner Hu] Hintp [post Hp] Hfresh row.
  unfold create_comment. cbv [try_catch bind parse]. rewrite Hparse.
  cbv [ret select_user_id int_param bind select]. rewrite Hintu.
  cbv [ret by_key]. rewrite Hu. cbn [fmap list_fmap List.length Nat.eqb].
  cbv [select_post_id int_param bind ret select]. rewrite Hintp.
  cbv [ret by_key]. rewrite Hp. cbn [fmap list_fmap List.length Nat.eqb].
  cbv [insert_comment int_param bind ret]. rewrite Hintu, Hintp, Hu, Hp, Hfresh.
  rewrite !bool_decide_eq_true_2 by eauto.
  rewrite bool_decide_eq_false_2 by (intros [x Hx]; discriminate Hx).
  cbn [andb negb].
  cbv [first_row ret comment_json toISOString bind]. cbn [c_created_at snd fst].
  split; [reflexivity|]. split; reflexivity.
Qed.

Lemma create_comment_stores_trimmed_witness :
  status (fst (create_comment sample_env 5 8 empty_comment seed)) = 201 /\
  (c_content <$> comments (snd (create_comment sample_env 5 8 empty_comment seed)) !! 8)
  = Some "".
Proof.
  destruct (create_comment_stores_trimmed sample_env 5 8 empty_comment seed
              {| cc_user_id := "1"; cc_post_id := "2"; cc_content := "   " |} 1 2
              eq_refl eq_refl ltac:(vm_compute; eauto) eq_refl
              ltac:(vm_compute; eauto) eq_refl)
    as (Hst & _ & Hdb).
  split; [exact Hst|]. rewrite Hdb. reflexivity.
Defined.

Lemma get_comment_missing E now req d s n :
  param "comment_id" req = JStr s ->
  pg_int4 E s = Some n ->
  comments d !! n = None ->
  get_comment E now req d = (not_found E now "Comment not found" "COMMENT_NOT_FOUND", d).
Proof.
  intros Hparam Hint Hrow.
  unfold get_comment. cbv [try_catch bind select_comment int_param]. rewrite Hparam, Hint.
  cbv [ret select by_key]. rewrite Hrow. reflexivity.
Qed.

Lemma delete_comment_missing E now req d s n :
  param "comment_id" req = JStr s ->
  pg_int4 E s = Some n ->
  comments d !! n = None ->
  delete_comment E now req d
  = (not_found E now "Comment not found" "COMMENT_NOT_FOUND", d).
Proof.
  intros Hparam Hint Hrow.
  unfold delete_comment. cbv [try_catch bind select_comment_id int_param].
  rewrite Hparam, Hint. cbv [ret select by_key]. rewrite Hrow. reflexivity.
Qed.

(** X21.  [DELETE /api/comments/:comment_id] of a stored comment always succeeds
    (nothing references a comment): it is answered 204 and removes that
    comment only; afterwards a [GET] of the comment and a second [DELETE]
    are answered 404 and change nothing. *)
Theorem deleted_comment_is_gone E now now' req d s n c :
  param "comment_id" req = JStr s ->
  pg_int4 E s = Some n ->
  comments d !! n = Some c ->
  let d' := with_comments (delete n) d in
  delete_comment E now req d = (res_send 204, d') /\
  get_comment E now' req d'
  = (not_found E now' "Comment not found" "COMMENT_NOT_FOUND", d') /\
  delete_comment E now' req d'
  = (not_found E now' "Comment not found" "COMMENT_NOT_FOUND", d').
Proof.
  intros Hparam Hint Hc d'.
  assert (Hgone : comments d' !! n = None) by apply lookup_delete_eq.
  split; [|split].
  - unfold delete_comment. cbv [try_catch bind select_comment_id int_param].
    rewrite Hparam, Hint. cbv [ret select by_key bind]. rewrite Hc.
    cbn [fmap list_fmap List.length Nat.eqb].
    cbv [delete_comments int_param bind ret by_key]. rewrite Hint, Hc. reflexivity.
  - apply (get_comment_missing E now' req d' s n Hparam Hint Hgone).
  - apply (delete_comment_missing E now' req d' s n Hparam Hint Hgone).
Qed.

Lemma deleted_comment_is_gone_witness :
  delete_comment sample_env 0 delete_first_comment seed
  = (res_send 204, with_comments (delete 1) seed) /\
  get_comment sample_env 1 delete_first_comment (with_comments (delete 1) seed)
  = (not_found sample_env 1 "Comment not found" "COMMENT_NOT_FOUND",
     with_comments (delete 1) seed).
Proof.
  destruct (deleted_comment_is_gone sample_env 0 1 delete_first_comment seed "1" 1
              (seed_comment 2 1 "Great first post!") eq_refl eq_refl eq_refl)
    as (H1 & H2 & _).
  exact (conj H1 H2).
Defined.

(** *** Likes *)

(** X22.  A like can be taken back: after a [POST /api/likes] answered 201, the
    [DELETE /api/likes/:user_id/:post_id] for the ids of its body is
    answered 204 and leaves the database as it was before the like. *)
Theorem like_then_unlike_restores E now now' req req' d input :
  createLikeInputSchema (req_body req) = Some input ->
  status (fst (create_like E now req d)) = 201 ->
  param "user_id" req' = JStr (in_user_id input) ->
  param "post_id" req' = JStr (in_post_id input) ->
  delete_like E now' req' (snd (create_like E now req d)) = (res_send 204, d).
Proof.
  intros Hparse Hst Hpu Hpp.
  destruct (create_like_created E now req d Hst)
    as (input' & u & p & Hparse' & Hiu & Hip & _ & _ & Hdb).
  assert (input' = input) by congruence. subst input'.
  assert (Hfresh : likes d !! (u, p) = None).
  { unfold create_like in Hst. cbv [try_catch bind parse] in Hst.
    rewrite Hparse in Hst.
    cbv [ret throw select_user_id int_param bind select] in Hst. rewrite Hiu in Hst.
    cbv [ret by_key] in Hst.
    destruct (users d !! u); [|caught Hst].
    cbn [fmap list_fmap List.length Nat.eqb] in Hst.
    cbv [select_post_id int_param bind ret select] in Hst. rewrite Hip in Hst.
    cbv [ret by_key] in Hst.
    destruct (posts d !! p); [|caught Hst].
    cbn [fmap list_fmap List.length Nat.eqb] in Hst.
    cbv [select_like int_param bind ret select] in Hst. rewrite Hiu, Hip in Hst.
    cbv [ret] in Hst.
    destruct (likes d !! (u, p)); [caught Hst | reflexivity]. }
  rewrite Hdb.
  unfold delete_like. cbv [try_catch bind select_like int_param].
  rewrite Hpu, Hpp, Hiu, Hip. cbv [ret select bind].
  cbn [likes with_likes]. rewrite lookup_insert_eq.
  cbn [List.length Nat.eqb].
  cbv [delete_likes int_param bind ret]. rewrite Hiu, Hip.
  f_equal. destruct d as [us ps cs ls seq]. unfold with_likes. cbn.
  f_equal. apply delete_insert_id. exact Hfresh.
Qed.

Lemma like_then_unlike_restores_witness :
  status (fst (create_like sample_env 0 new_like seed)) = 201 /\
  delete_like sample_env 1 undo_new_like (snd (create_like sample_env 0 new_like seed))
  = (res_send 204, seed).
Proof.
  assert (H : status (fst (create_like sample_env 0 new_like seed)) = 201)
    by (vm_compute; reflexivity).
  exact (conj H (like_then_unlike_restores sample_env 0 1 new_like undo_new_like seed
                   {| in_user_id := "1"; in_post_id := "1" |}
                   eq_refl H eq_refl eq_refl)).
Defined.

(** *** An update and the read that follows *)

Lemma update_post_ok E now req d :
  status (fst (update_post E now req d)) = 200 ->
  exists s n new v,
    param "post_id" req = JStr s /\ pg_int4 E s = Some n
    /\ (forall d0, post_json E (n, new) d0 = (Returned v, d0))
    /\ update_post E now req d = (res_json 200 v, with_posts (insert n new) d).
Proof.
  intros Hst. unfold update_post in *. cbv [try_catch bind parse] in *.
  destruct (updatePostInputSchema E (req_body req)) as [input|]; [|caught Hst].
  cbv [ret throw select_post_id int_param bind select] in *.
  destruct (param_cases "post_id" req) as [[s Hp]|Hp]; rewrite Hp in *;
    [|caught Hst].
  destruct (pg_int4 E s) as [n|] eqn:Hint; [|caught Hst].
  cbv [ret by_key] in *.
  destruct (posts d !! n) as [old|] eqn:Hold; [|caught Hst].
  cbn [fmap list_fmap List.length Nat.eqb fst] in *.
  destruct (List.length (post_updateFields input) =? 0)%nat; [caught Hst|].
  cbv [update_posts int_param bind ret by_key] in *. rewrite Hint, Hold in *.
  destruct (assign_posts E d old (post_updateFields input)) as [new|]; [|caught Hst].
  cbv [first_row ret post_json toISOString bind] in *.
  cbn [p_created_at snd fst] in *.
  destruct (p_created_at new) as [t|] eqn:Ht; [|caught Hst].
  exists s, n, new. eexists.
  split; [reflexivity|]. split; [assumption|]. split; [|reflexivity].
  intros d0. rewrite Ht. reflexivity.
Qed.

(** X15.  A [PUT /api/posts/:post_id] answered 200, followed by a [GET] of the
    same path, gives the same answer again and the [GET] changes nothing. *)
Theorem updated_post_is_what_get_returns E now now' req d :
  status (fst (update_post E now req d)) = 200 ->
  get_post E now' req (snd (update_post E now req d)) = update_post E now req d.
Proof.
  intros Hst.
  destruct (update_post_ok E now req d Hst) as (s & n & new & v & Hp & Hint & Hv & Heq).
  rewrite Heq. cbn [snd].
  apply (get_post_stored E now' req _ s n new v Hp Hint); [|exact Hv].
  cbn [posts with_posts]. apply lookup_insert_eq.
Qed.

Lemma updated_post_is_what_get_returns_witness :
  status (fst (update_post sample_env 0 clear_post seed)) = 200 /\
  get_post sample_env 1 clear_post (snd (update_post sample_env 0 clear_post seed))
  = update_post sample_env 0 clear_post seed.
Proof.
  assert (H : status (fst (update_post sample_env 0 clear_post seed)) = 200)
    by (vm_compute; reflexivity).
  exact (conj H (updated_post_is_what_get_returns sample_env 0 1 clear_post seed H)).
Defined.

Lemma get_comment_stored E now req d s n row v :
  param "comment_id" req = JStr s ->
  pg_int4 E s = Some n ->
  comments d !! n = Some row ->
  (forall d0, comment_json E (n, row) d0 = (Returned v, d0)) ->
  get_comment E now req d = (res_json 200 v, d).
Proof.
  intros Hparam Hint Hrow Hjson.
  unfold get_comment. cbv [try_catch bind select_comment int_param].
  rewrite Hparam, Hint. cbv [ret select by_key]. rewrite Hrow, Hjson. reflexivity.
Qed.

Lemma update_comment_ok E now req d :
  status (fst (update_comment E now req d)) = 200 ->
  exists s n new v,
    param "comment_id" req = JStr s /\ pg_int4 E s = Some n
    /\ (forall d0, comment_json E (n, new) d0 = (Returned v, d0))
    /\ update_comment E now req d = (res_json 200 v, with_comments (insert n new) d).
Proof.
  intros Hst. unfold update_comment in *. cbv [try_catch bind parse] in *.
  destruct (updateCommentInputSchema (req_body req)) as [input|]; [|caught Hst].
  cbv [ret throw select_comment_id int_param bind select] in *.
  destruct (param_cases "comment_id" req) as [[s Hp]|Hp]; rewrite Hp in *;
    [|caught Hst].
  destruct (pg_int4 E s) as [n|] eqn:Hint; [|caught Hst].
  cbv [ret by_key] in *.
  destruct (comments d !! n) as [old|] eqn:Hold; [|caught Hst].
  cbn [fmap list_fmap List.length Nat.eqb fst] in *.
  destruct (List.length (comment_updateFields input) =? 0)%nat; [caught Hst|].
  cbv [update_comments int_param bind ret by_key] in *. rewrite Hint, Hold in *.
  destruct (assign_comments E d old (comment_updateFields input)) as [new|];
    [|caught Hst].
  cbv [first_row ret comment_json toISOString bind] in *.
  cbn [c_created_at snd fst] in *.
  destruct (c_created_at new) as [t|] eqn:Ht; [|caught Hst].
  exists s, n, new. eexists.
  split; [reflexivity|]. split; [assumption|]. split; [|reflexivity].
  intros d0. rewrite Ht. reflexivity.
Qed.

(** X20.  A [PUT /api/comments/:comment_id] answered 200, followed by a [GET] of
    the same path, gives the same answer again and the [GET] changes
    nothing. *)
Theorem updated_comment_is_what_get_returns E now now' req d :
  status (fst (update_comment E now req d)) = 200 ->
  get_comment E now' req (snd (update_comment E now req d)) = update_comment E now req d.
Proof.
  intros Hst.
  destruct (update_comment_ok E now req d Hst)
    as (s & n & new & v & Hp & Hint & Hv & Heq).
  rewrite Heq. cbn [snd].
  apply (get_comment_stored E now' req _ s n new v Hp Hint); [|exact Hv].
  cbn [comments with_comments]. apply lookup_insert_eq.
Qed.

Lemma updated_comment_is_what_get_returns_witness :
  status (fst (update_comment sample_env 0 edit_comment seed)) = 200 /\
  get_comment sample_env 1 edit_comment (snd (update_comment sample_env 0 edit_comment seed))
  = update_comment sample_env 0 edit_comment seed.
Proof.
  assert (H : status (fst (update_comment sample_env 0 edit_comment seed)) = 200)
    by (vm_compute; reflexivity).
  exact (conj H (updated_comment_is_what_get_returns sample_env 0 1 edit_comment seed H)).
Defined.

(** *** Listings *)

Ltac search_schema :=
  match goal with
  | |- context [z_object (query_object ?q)] =>
      change (z_object (query_object q)) with (Some (query_object q))
  end;
  cbn -[prop query_object z_default z_optional z_columns z_enum];
  repeat (match goal with
          | |- context [z_optional z_string ?v] => destruct (z_optional z_string v)
          end;
          cbn -[prop query_object z_default z_optional z_columns z_enum];
          try (intros; discriminate); try reflexivity);
  rewrite ?z_default_number_query.

Lemma search_defaults q :
  (forall s, searchUserInputSchema (query_object q) = Some s ->
             s_limit s = 10 /\ s_offset s = 0) /\
  (forall s, searchPostInputSchema (query_object q) = Some s ->
             sr_limit s = 10 /\ sr_offset s = 0) /\
  (forall s, searchCommentInputSchema (query_object q) = Some s ->
             sr_limit s = 10 /\ sr_offset s = 0) /\
  (forall s, searchLikeInputSchema (query_object q) = Some s ->
             sr_limit s = 10 /\ sr_offset s = 0).
Proof.
  repeat match goal with |- _ /\ _ => split end; intros s;
    unfold searchUserInputSchema, searchPostInputSchema, searchCommentInputSchema,
      searchLikeInputSchema;
    search_schema;
    (destruct (is_undefined (prop "limit" (query_object q)));
     cbn -[prop query_object z_default z_optional z_columns z_enum];
     [|intros; discriminate]);
    (destruct (is_undefined (prop "offset" (query_object q)));
     cbn -[prop query_object z_default z_optional z_columns z_enum];
     [|intros; discriminate]);
    repeat (match goal with
            | |- context [z_default ?f ?dflt ?v] => destruct (z_default f dflt v)
            end;
            cbn -[prop query_object z_default z_optional z_columns z_enum];
            try (intros; discriminate));
    intros [= <-]; split; reflexivity.
Qed.

Lemma search_rejects q :
  prop "limit" (query_object q) <> JUndefined
  \/ prop "offset" (query_object q) <> JUndefined ->
  searchPostInputSchema (query_object q) = None /\
  searchCommentInputSchema (query_object q) = None /\
  searchLikeInputSchema (query_object q) = None.
Proof.
  intros H.
  repeat match goal with |- _ /\ _ => split end;
    unfold searchPostInputSchema, searchCommentInputSchema, searchLikeInputSchema;
    search_schema;
    (destruct H as [H|H]; rewrite (is_undefined_false _ H);
     [reflexivity | destruct (is_undefined _); reflexivity]).
Qed.

(** X23.  [GET /api/posts], [GET /api/comments] and [GET /api/likes] answer 400
    [VALIDATION_ERROR] to every request whose query string carries [limit]
    or [offset], whatever the value: the schemas ask for numbers and a
    query string holds none. *)
Theorem listings_reject_pagination E order_posts order_comments order_likes now req d :
  prop "limit" (query_object (req_query req)) <> JUndefined
  \/ prop "offset" (query_object (req_query req)) <> JUndefined ->
  list_posts E order_posts now req d = (validation_error E now, d) /\
  list_comments E order_comments now req d = (validation_error E now, d) /\
  list_likes E order_likes now req d = (validation_error E now, d).
Proof.
  intros H. destruct (search_rejects _ H) as (Hp & Hc & Hl).
  unfold list_posts, list_comments, list_likes. cbv [try_catch bind parse].
  rewrite Hp, Hc, Hl. repeat split.
Qed.

Lemma listings_reject_pagination_witness :
  list_posts sample_env (fun _ _ rows => rows) 0 first_page seed
  = (validation_error sample_env 0, seed) /\
  list_comments sample_env (fun _ _ rows => rows) 0 first_page seed
  = (validation_error sample_env 0, seed) /\
  list_likes sample_env (fun _ _ rows => rows) 0 first_page seed
  = (validation_error sample_env 0, seed).
Proof.
  apply (listings_reject_pagination sample_env (fun _ _ rows => rows)
           (fun _ _ rows => rows) (fun _ _ rows => rows) 0 first_page seed).
  left. discriminate.
Defined.

Lemma map_M_returns {A B} (f : A -> M B) (l : list A) d bs d' :
  map_M f l d = (Returned bs, d') -> List.length bs = List.length l.
Proof.
  intros H. pose proof (map_M_length f l d) as Hlen. rewrite H in Hlen. exact Hlen.
Qed.

Lemma page_default {A} (rows : list A) : (List.length (page 10 0 rows) <= 10)%nat.
Proof.
  unfold page. rewrite length_take. change (Z.to_nat 10) with 10%nat.
  apply Nat.le_min_l.
Qed.

Lemma listing_short {S R} E now (schema : jsval -> option S) v
    (rows_of : S -> M (list R)) (to_json : R -> M jsval) d :
  (forall s d0 rows d1,
     schema v = Some s -> rows_of s d0 = (Returned rows, d1) ->
     (List.length rows <= 10)%nat) ->
  short_page
    (fst (try_catch
            (let* searchParams := parse E schema v in
             let* result := rows_of searchParams in
             let* items0 := map_M to_json result in
             ret (res_json 200 (JArr items0)))
            (catch_zod E now) d)).
Proof.
  intros Hrows. cbv [try_catch bind parse].
  destruct (schema v) as [s|] eqn:Hparse.
  - cbv [ret]. destruct (rows_of s d) as [[rows|e] d1] eqn:Hrun.
    + destruct (map_M to_json rows d1) as [[js|e] d2] eqn:Hjs.
      * left. cbn [fst]. split; [reflexivity|].
        exists (List.map (fun x => default Jnull (stringify x)) js).
        split; [reflexivity|].
        rewrite List.length_map, (map_M_returns _ _ _ _ _ Hjs).
        exact (Hrows s d rows d1 eq_refl Hrun).
      * right. apply catch_zod_status.
    + right. apply catch_zod_status.
  - right. apply catch_zod_status.
Qed.

(** X24.  No listing answers with more than ten items: each of [GET /api/users],
    [/api/posts], [/api/comments] and [/api/likes] answers 200 with an array
    of at most ten items, or 400, or 500 (a request that asks for another
    page size is refused, and the default is ten). *)
Theorem listings_return_at_most_ten E order_posts order_comments order_likes now req d :
  short_page (fst (list_users E now req d)) /\
  short_page (fst (list_posts E order_posts now req d)) /\
  short_page (fst (list_comments E order_comments now req d)) /\
  short_page (fst (list_likes E order_likes now req d)).
Proof.
  destruct (search_defaults (req_query req)) as (Hu & Hp & Hc & Hl).
  split; [|split; [|split]].
  - apply (listing_short E now searchUserInputSchema (query_object (req_query req))
             (fun searchParams =>
                select_users_page E
                  match s_query searchParams with
                  | Some q =>
                      if String.eqb q "" || String.eqb (trim q) "" then None
                      else Some ("%" ++ trim q ++ "%")
                  | None => None
                  end
                  (s_sort_by searchParams) (s_sort_order searchParams)
                  (s_limit searchParams) (s_offset searchParams))
             (user_json E) d).
    intros s d0 rows d1 Hparse. destruct (Hu s Hparse) as [-> ->].
    cbv [select_users_page select]. intros [= <- _].
    rewrite length_take. change (Z.to_nat 10) with 10%nat. apply Nat.le_min_l.
  - apply (listing_short E now searchPostInputSchema (query_object (req_query req))
             (select_posts_page E order_posts) (post_json E) d).
    intros s d0 rows d1 Hparse. destruct (Hp s Hparse) as [Hlim Hoff].
    unfold select_posts_page. cbv [bind]. rewrite Hlim, Hoff.
    destruct (filter_id E (sr_user_id s) d0) as [[by_user|e] d2]; [|discriminate].
    cbv [select]. intros [= <- _]. apply page_default.
  - apply (listing_short E now searchCommentInputSchema (query_object (req_query req))
             (select_comments_page E order_comments) (comment_json E) d).
    intros s d0 rows d1 Hparse. destruct (Hc s Hparse) as [Hlim Hoff].
    unfold select_comments_page. cbv [bind]. rewrite Hlim, Hoff.
    destruct (filter_id E (sr_user_id s) d0) as [[by_user|e] d2]; [|discriminate].
    destruct (filter_id E (sr_post_id s) d2) as [[by_post|e] d3]; [|discriminate].
    cbv [select]. intros [= <- _]. apply page_default.
  - apply (listing_short E now searchLikeInputSchema (query_object (req_query req))
             (select_likes_page E order_likes) (like_json E) d).
    intros s d0 rows d1 Hparse. destruct (Hl s Hparse) as [Hlim Hoff].
    unfold select_likes_page. cbv [bind]. rewrite Hlim, Hoff.
    destruct (filter_id E (sr_user_id s) d0) as [[by_user|e] d2]; [|discriminate].
    destruct (filter_id E (sr_post_id s) d2) as [[by_post|e] d3]; [|discriminate].
    cbv [select]. intros [= <- _]. apply page_default.
Qed.

Lemma map_M_Forall2 {A B} (f : A -> M B) (Q : A -> B -> Prop) :
  (forall a d0 b d1, f a d0 = (Returned b, d1) -> Q a b) ->
  forall l d bs d', map_M f l d = (Returned bs, d') -> Forall2 Q l bs.
Proof.
  intros Hf. induction l as [|a l IH]; intros d bs d' H; simpl in H.
  - injection H as <- _. constructor.
  - unfold bind in H. destruct (f a d) as [[b|e] d1] eqn:Hb; [|discriminate].
    destruct (map_M f l d1) as [[bs'|e] d2] eqn:Hbs; [|discriminate].
    injection H as <- _. constructor; [exact (Hf a d b d1 Hb) | exact (IH d1 bs' d2 Hbs)].
Qed.

Lemma In_page {A} limit offset (rows : list A) x :
  In x (page limit offset rows) -> In x rows.
Proof.
  unfold page. intros H. apply list_elem_of_In in H.
  apply list_elem_of_In.
  apply (subseteq_drop (Z.to_nat offset)), (subseteq_take (Z.to_nat limit)), H.
Qed.

Lemma filter_id_run E v d :
  (exists c, filter_id E v d = (Returned c, d)
             /\ forall s, v = Some s -> s <> "" -> exists n, pg_int4 E s = Some n
                                                          /\ c = Some (Some n))
  \/ (exists e, filter_id E v d = (Threw e, d)).
Proof.
  unfold filter_id. destruct v as [s|].
  - destruct (String.eqb s "") eqn:Hs.
    + left. eexists. split; [reflexivity|]. intros s' [= <-] Hne.
      apply String.eqb_eq in Hs. contradiction.
    + cbv [bind int_param]. destruct (pg_int4 E s) as [n|] eqn:Hint.
      * left. eexists. split; [reflexivity|]. intros s' [= <-] _. eauto.
      * right. eexists. reflexivity.
  - left. eexists. split; [reflexivity|]. intros s [=].
Qed.

(** X25.  [GET /api/comments?post_id=N] returns comments of post [N] only: every
    item of an answer 200 is a stored comment whose post is [N], as long as
    [ORDER BY] returns rows it was given. *)
Theorem list_comments_filters_by_post E order_by now req d input s n :
  (forall column direction rows x,
     In x (order_by column direction rows) -> In x rows) ->
  searchCommentInputSchema (query_object (req_query req)) = Some input ->
  sr_post_id input = Some s ->
  s <> "" ->
  pg_int4 E s = Some n ->
  status (fst (list_comments E order_by now req d)) = 200 ->
  exists l,
    items (fst (list_comments E order_by now req d)) = Some l
    /\ Forall (fun j =>
                 member "post_id" j = Some (Jstr (string_of_Z n))
                 /\ exists k c, comments d !! k = Some c /\ c_post_id c = n
                                /\ member "id" j = Some (Jstr (string_of_Z k))) l.
Proof.
  intros Hsorted Hparse Hpost Hne Hint.
  unfold list_comments. cbv [try_catch bind parse]. rewrite Hparse.
  cbv [ret select_comments_page bind].
  destruct (filter_id_run E (sr_user_id input) d) as [(by_user & Hu & _)|[e Hu]];
    rewrite Hu; [|intros Hst; caught Hst].
  destruct (filter_id_run E (sr_post_id input) d) as [(by_post & Hp & Hsel)|[e Hp]];
    rewrite Hp; [|intros Hst; caught Hst].
  destruct (Hsel s Hpost Hne) as (n' & Hint' & ->).
  assert (n' = n) by congruence. subst n'.
  cbv [select].
  match goal with
  | |- context [map_M (comment_json E) ?rows d] =>
      set (found := rows);
      destruct (map_M (comment_json E) found d) as [[js|e] d'] eqn:Hjs;
      [|intros Hst; caught Hst]
  end.
  intros _. cbn [fst]. unfold items, res_json. cbn [body stringify].
  eexists. split; [reflexivity|].
  pose proof (map_M_Forall2 (comment_json E)
                (fun r j => j = JObj [("id", JStr (string_of_Z (fst r)));
                                      ("user_id", JStr (string_of_Z (c_user_id (snd r))));
                                      ("post_id", JStr (string_of_Z (c_post_id (snd r))));
                                      ("content", JStr (c_content (snd r)));
                                      ("created_at", JStr (match c_created_at (snd r) with
                                                           | Some t => iso_string E t
                                                           | None => ""
                                                           end))])) as Hall.
  assert (Hrows : Forall (fun r => comments d !! fst r = Some (snd r)
                                   /\ c_post_id (snd r) = n) found).
  { apply List.Forall_forall. intros [k c] Hin. unfold found in Hin.
    apply In_page, Hsorted, List.filter_In in Hin. destruct Hin as [Hin Hkeep].
    apply list_elem_of_In, elem_of_map_to_list in Hin. split; [exact Hin|].
    apply andb_true_iff in Hkeep as [_ Hkeep]. cbn [sql_eq snd] in Hkeep.
    apply Z.eqb_eq in Hkeep. exact Hkeep. }
  specialize (Hall ltac:(intros a d0 b d1; unfold comment_json; cbv [bind toISOString ret throw];
                         destruct (c_created_at (snd a)); [intros [= <- _]; reflexivity
                                                          | discriminate])
                   found d js d' Hjs).
  clear Hjs. induction Hall as [|r j rows js' Hj Hrest IH]; [constructor|].
  apply Forall_cons_1 in Hrows as [[Hstored Hn] Hrows].
  cbn [List.map]. constructor; [|exact (IH Hrows)].
  subst j. cbn. rewrite Hn. split; [reflexivity|].
  exists (fst r), (snd r). auto.
Qed.

Lemma list_comments_filters_by_post_witness :
  exists l,
    items (fst (list_comments sample_env (fun _ _ rows => rows) 0
                  comments_of_first_post seed)) = Some l
    /\ List.length l = 2%nat
    /\ Forall (fun j => member "post_id" j = Some (Jstr "1")) l.
Proof.
  destruct (list_comments_filters_by_post sample_env (fun _ _ rows => rows) 0
              comments_of_first_post seed
              {| sr_query := None; sr_user_id := None; sr_post_id := Some "1";
                 sr_limit := 10; sr_offset := 0; sr_sort_by := "created_at";
                 sr_sort_order := desc |} "1" 1
              ltac:(intros ? ? ? ? H; exact H) eq_refl eq_refl
              ltac:(discriminate) eq_refl ltac:(vm_compute; reflexivity))
    as (l & Hl & Hall).
  exists l. split; [exact Hl|]. split.
  - vm_compute in Hl. injection Hl as <-. reflexivity.
  - eapply Forall_impl; [exact Hall|]. intros j [Hj _]. exact Hj.
Defined.

(** *** Error details *)

Lemma error_response_terse E now msg error code st :
  development E = false ->
  terse (res_json st (createErrorResponse E now msg error code)).
Proof.
  intros Hdev. unfold terse, res_json, createErrorResponse, terse_in. rewrite Hdev.
  destruct code as [c|]; [destruct (String.eqb c "")|];
    (destruct error as [e|]); split; reflexivity.
Qed.

Lemma bad_request_terse E now msg code :
  development E = false -> terse (bad_request E now msg code).
Proof. apply error_response_terse. Qed.

Lemma not_found_terse E now msg code :
  development E = false -> terse (not_found E now msg code).
Proof. apply error_response_terse. Qed.

Lemma internal_error_terse E now e :
  development E = false -> terse (internal_error E now e).
Proof. apply error_response_terse. Qed.

Lemma catch_zod_terse E now e : development E = false -> terse (catch_zod E now e).
Proof.
  intros Hdev. unfold catch_zod. destruct (String.eqb (err_name e) "ZodError");
    apply error_response_terse, Hdev.
Qed.

Lemma user_json_reserved E u : post (user_json E u) reserved.
Proof.
  unfold user_json. apply post_bind_any. intros created. apply post_ret.
  intros j. unfold user_object. simpl.
  destruct (pu_full_name u), (pu_profile_image_url u); simpl;
    intros [= <-]; split; reflexivity.
Qed.

Lemma post_json_reserved E p : post (post_json E p) reserved.
Proof.
  unfold post_json. apply post_bind_any. intros created. apply post_ret.
  intros j. simpl.
  destruct (p_content (snd p)), (p_image_url (snd p)); simpl;
    intros [= <-]; split; reflexivity.
Qed.

Lemma comment_json_reserved E c : post (comment_json E c) reserved.
Proof.
  unfold comment_json. apply post_bind_any. intros created. apply post_ret.
  intros j. simpl. intros [= <-]; split; reflexivity.
Qed.

Lemma like_json_reserved E l : post (like_json E l) reserved.
Proof.
  unfold like_json. apply post_bind_any. intros created. apply post_ret.
  intros j. simpl. intros [= <-]; split; reflexivity.
Qed.

Lemma res_json_reserved st v : reserved v -> terse (res_json st v).
Proof.
  intros H. unfold terse, res_json. simpl.
  destruct (stringify v) as [j|] eqn:Hj; [apply H; exact Hj | exact I].
Qed.

Lemma session_reserved u token :
  reserved u -> reserved (JObj [("user", u); ("auth_token", JStr token)]).
Proof.
  intros H j. simpl. destruct (stringify u) as [ju|] eqn:Hu; simpl.
  - intros [= <-]. destruct (H ju Hu) as [H1 H2].
    split; simpl; [rewrite H1 | rewrite H2]; reflexivity.
  - intros [= <-]. split; reflexivity.
Qed.

Lemma array_reserved l : Forall reserved l -> reserved (JArr l).
Proof.
  intros H j. simpl. intros [= <-]. unfold terse_in. simpl.
  induction H as [|v l Hv Hl IH]; simpl; [split; reflexivity|].
  destruct IH as [IH1 IH2]. rewrite IH1, IH2.
  destruct (stringify v) as [jv|] eqn:Hjv; simpl.
  - destruct (Hv jv Hjv) as [-> ->]. split; reflexivity.
  - split; reflexivity.
Qed.

Lemma like_object_reserved a b c :
  reserved (JObj [("user_id", JStr a); ("post_id", JStr b); ("created_at", JStr c)]).
Proof. intros j. simpl. intros [= <-]. split; reflexivity. Qed.

Create HintDb terse discriminated.

#[local] Hint Resolve post_ret post_throw post_if bad_request_terse not_found_terse
  internal_error_terse catch_zod_terse error_response_terse
  res_json_reserved session_reserved array_reserved like_object_reserved : terse.

Ltac terse_step :=
  match goal with
  | |- post (bind (user_json _ _) _) _ =>
      apply (post_bind _ _ reserved); [apply user_json_reserved | intros ? ?]
  | |- post (bind (post_json _ _) _) _ =>
      apply (post_bind _ _ reserved); [apply post_json_reserved | intros ? ?]
  | |- post (bind (comment_json _ _) _) _ =>
      apply (post_bind _ _ reserved); [apply comment_json_reserved | intros ? ?]
  | |- post (bind (map_M (user_json _) _) _) _ =>
      apply (post_bind _ _ (Forall reserved));
      [apply post_map_M; intros; apply user_json_reserved | intros ? ?]
  | |- post (bind (map_M (post_json _) _) _) _ =>
      apply (post_bind _ _ (Forall reserved));
      [apply post_map_M; intros; apply post_json_reserved | intros ? ?]
  | |- post (bind (map_M (comment_json _) _) _) _ =>
      apply (post_bind _ _ (Forall reserved));
      [apply post_map_M; intros; apply comment_json_reserved | intros ? ?]
  | |- post (bind (map_M (like_json _) _) _) _ =>
      apply (post_bind _ _ (Forall reserved));
      [apply post_map_M; intros; apply like_json_reserved | intros ? ?]
  | |- post (bind _ _) _ => apply post_bind_any; intros ?
  | |- post (if _ then _ else _) _ => apply post_if
  | |- post (match ?l with [] => _ | _ :: _ => _ end) _ => destruct l as [|[] ?]
  | |- post (match ?l with [] => _ | _ :: _ => _ end) _ => destruct l
  | |- post (ret _) _ => apply post_ret
  | |- terse (res_send _) => exact I
  end.

Ltac terse_handler :=
  apply try_catch_post; [repeat terse_step; eauto 6 with terse | auto with terse].

Lemma authenticated_terse E now handler req d :
  development E = false ->
  (forall req' d', terse (fst (handler req' d'))) ->
  terse (fst (authenticated E now handler req d)).
Proof.
  intros Hdev H. unfold authenticated, authenticateToken.
  destruct (bearer (req_authorization req)) as [[|c token]|]; simpl;
    try (apply error_response_terse, Hdev).
  destruct (jwt_verify E _ _ _) as [decoded|]; simpl;
    try (apply error_response_terse, Hdev).
  destruct (select_user E _ d) as [[[|u l]|e] d']; simpl;
    try (apply error_response_terse, Hdev).
  apply H.
Qed.

(** X28.  Unless the server runs with [NODE_ENV=development], no answer of any
    handler, and none of the authentication middleware, has a [details] or
    a [stack] member anywhere in its body: the description of a caught
    exception stays on the server. *)
Theorem no_error_details_outside_development E order_posts order_comments order_likes
    now rnd nextval req d :
  development E = false ->
  terse (fst (register E now rnd req d)) /\
  terse (fst (login E now req d)) /\
  terse (fst (list_users E now req d)) /\
  terse (fst (create_user E now rnd req d)) /\
  terse (fst (get_user E now req d)) /\
  terse (fst (authenticated E now (update_user E now) req d)) /\
  terse (fst (authenticated E now (delete_user E now) req d)) /\
  terse (fst (list_posts E order_posts now req d)) /\
  terse (fst (create_post E now rnd nextval req d)) /\
  terse (fst (get_post E now req d)) /\
  terse (fst (update_post E now req d)) /\
  terse (fst (delete_post E now req d)) /\
  terse (fst (list_comments E order_comments now req d)) /\
  terse (fst (create_comment E now nextval req d)) /\
  terse (fst (get_comment E now req d)) /\
  terse (fst (update_comment E now req d)) /\
  terse (fst (delete_comment E now req d)) /\
  terse (fst (list_likes E order_likes now req d)) /\
  terse (fst (create_like E now req d)) /\
  terse (fst (delete_like E now req d)) /\
  terse (health E now).
Proof.
  intros Hdev.
  repeat match goal with |- _ /\ _ => split end;
    try (apply authenticated_terse; [exact Hdev | intros req' d']);
    try (unfold register, login, list_users, create_user, get_user, update_user,
           delete_user, list_posts, create_post, get_post, update_post, delete_post,
           list_comments, create_comment, get_comment, update_comment,
           delete_comment, list_likes, create_like, delete_like;
         terse_handler).
  split; reflexivity.
Qed.

Lemma no_error_details_outside_development_witness :
  terse (fst (delete_post sample_env 0 delete_first_post seed)) /\
  status (fst (delete_post sample_env 0 delete_first_post seed)) = 500.
Proof.
  split; [|reflexivity].
  apply (no_error_details_outside_development sample_env (fun _ _ rows => rows)
           (fun _ _ rows => rows) (fun _ _ rows => rows) 0 7 7 delete_first_post seed
           eq_refl).
Defined.

(** *** Routing *)

Lemma match_path_parameters pattern : forall segs ps,
  match_path pattern segs = Some ps ->
  List.map fst ps = parameters pattern /\ Forall (fun kv => snd kv <> "") ps.
Proof.
  induction pattern as [|seg pattern IH]; intros segs ps H.
  - destruct segs; [|discriminate]. injection H as <-. split; constructor.
  - destruct segs as [|x segs]; [destruct seg; discriminate|].
    destruct seg as [s|name]; simpl in H.
    + destruct (String.eqb (toLowerCase x) s); [|discriminate].
      exact (IH segs ps H).
    + destruct (String.eqb x "") eqn:Hx; [discriminate|].
      destruct (match_path pattern segs) as [ps'|] eqn:Hps; [|discriminate].
      simpl in H. injection H as <-. destruct (IH segs ps' Hps) as [Hn Hv].
      split; [simpl; f_equal; exact Hn|].
      constructor; [|exact Hv]. simpl. intros ->. discriminate.
Qed.

Lemma method_eqb_eq a b : method_eqb a b = true -> a = b.
Proof. destruct a, b; simpl; congruence. Qed.

Lemma first_match_in m segs table : forall ep ps,
  first_match m segs table = Some (ep, ps) ->
  exists pattern, In (m, pattern, ep) table /\ match_path pattern segs = Some ps.
Proof.
  induction table as [|[[m' pattern] ep'] table IH]; intros ep ps H; [discriminate|].
  simpl in H. destruct (method_eqb m m') eqn:Hm.
  - apply method_eqb_eq in Hm. subst m'.
    destruct (match_path pattern segs) as [ps'|] eqn:Hp.
    + injection H as <- <-. exists pattern. split; [left; reflexivity | exact Hp].
    + destruct (IH ep ps H) as (pattern' & Hin & Hmatch).
      exists pattern'. split; [right; exact Hin | exact Hmatch].
  - destruct (IH ep ps H) as (pattern' & Hin & Hmatch).
    exists pattern'. split; [right; exact Hin | exact Hmatch].
Qed.

(** X29.  What a request that finds a handler has found: a static file or the
    single-page fallback, both for [GET] only, without parameters, and the
    fallback only for a path that does not start with [/api]; or a route
    registered for the method of the request, with a value, not empty, for
    each parameter of its path and for nothing else. *)
Theorem routed_requests_carry_their_parameters E m path ep ps :
  route E m path = Some (ep, ps) ->
  (ep = ep_static /\ m = GET /\ ps = [] /\ static_file E path = true)
  \/ (ep = ep_spa /\ m = GET /\ ps = [] /\ startsWith "/api" path = false)
  \/ (exists pattern,
        In (m, pattern, ep) routes
        /\ List.map fst ps = parameters pattern
        /\ Forall (fun kv => snd kv <> "") ps).
Proof.
  unfold route. intros H.
  destruct (method_eqb m GET && static_file E path) eqn:Hstatic.
  - apply andb_true_iff in Hstatic as [Hm Hs]. apply method_eqb_eq in Hm.
    injection H as <- <-. left. auto.
  - destruct (path_segments path ≫= _) as [hit|] eqn:Hhit.
    + injection H as ->. right. right.
      destruct (path_segments path) as [segs|]; [|discriminate]. simpl in Hhit.
      destruct (first_match_in m segs routes ep ps Hhit) as (pattern & Hin & Hmatch).
      exists pattern. split; [exact Hin|].
      exact (match_path_parameters pattern segs ps Hmatch).
    + destruct (method_eqb m GET && negb (startsWith "/api" path)) eqn:Hspa;
        [|discriminate].
      apply andb_true_iff in Hspa as [Hm Hs]. apply method_eqb_eq in Hm.
      apply negb_true_iff in Hs. injection H as <- <-. right. left. auto.
Qed.

Lemma routed_requests_carry_their_parameters_witness :
  route sample_env DELETE "/api/likes/2/1"
  = Some (ep_delete_like, [("user_id", "2"); ("post_id", "1")]) /\
  exists pattern,
    In (DELETE, pattern, ep_delete_like) routes
    /\ ["user_id"; "post_id"] = parameters pattern.
Proof.
  split; [reflexivity|].
  destruct (routed_requests_carry_their_parameters sample_env DELETE "/api/likes/2/1"
              ep_delete_like [("user_id", "2"); ("post_id", "1")] eq_refl)
    as [(H & _)|[(H & _)|(pattern & Hin & Hnames & _)]];
    [discriminate H | discriminate H |].
  exists pattern. split; assumption.
Defined.

Lemma match_path_overlap p : forall q segs ps qs,
  match_path p segs = Some ps -> match_path q segs = Some qs ->
  may_overlap p q = true.
Proof.
  induction p as [|a p IH]; intros q segs ps qs Hp Hq.
  - destruct segs; [|discriminate]. destruct q as [|b q]; [reflexivity|].
    destruct b; discriminate.
  - destruct segs as [|x segs]; [destruct a; discriminate|].
    destruct q as [|b q]; [discriminate|].
    assert (Hrest : exists ps' qs', match_path p segs = Some ps'
                                    /\ match_path q segs = Some qs').
    { destruct a as [s|name], b as [t|name']; simpl in Hp, Hq;
        repeat match type of Hp with
               | context [if ?c then _ else _] => destruct c; [|discriminate]
               | context [if ?c then _ else _] => destruct c; [discriminate|]
               end;
        repeat match type of Hq with
               | context [if ?c then _ else _] => destruct c; [|discriminate]
               | context [if ?c then _ else _] => destruct c; [discriminate|]
               end;
        destruct (match_path p segs); try discriminate;
        destruct (match_path q segs); try discriminate; eauto. }
    destruct Hrest as (ps' & qs' & Hp' & Hq').
    pose proof (IH q segs ps' qs' Hp' Hq') as Hov.
    destruct a as [s|name], b as [t|name']; simpl; try exact Hov.
    simpl in Hp, Hq.
    destruct (String.eqb (toLowerCase x) s) eqn:Hs; [|discriminate].
    destruct (String.eqb (toLowerCase x) t) eqn:Ht; [|discriminate].
    apply String.eqb_eq in Hs, Ht. subst s t. rewrite String.eqb_refl. exact Hov.
Qed.

Lemma first_match_exact m p ep segs ps : forall table,
  unshadowed table = true ->
  In (m, p, ep) table ->
  match_path p segs = Some ps ->
  first_match m segs table = Some (ep, ps).
Proof.
  induction table as [|[[m' p'] ep'] table IH]; intros Hun Hin Hp; [destruct Hin|].
  simpl in Hun. apply andb_true_iff in Hun as [Hhead Hrest].
  simpl. destruct Hin as [Hin|Hin].
  - injection Hin as -> -> ->.
    replace (method_eqb m m) with true by (destruct m; reflexivity).
    rewrite Hp. reflexivity.
  - destruct (method_eqb m m') eqn:Hm; [|exact (IH Hrest Hin Hp)].
    destruct (match_path p' segs) as [ps'|] eqn:Hp'; [|exact (IH Hrest Hin Hp)].
    exfalso. rewrite forallb_forall in Hhead.
    specialize (Hhead (m, p, ep) Hin). cbn [fst snd] in Hhead.
    rewrite Hm, (match_path_overlap p' p segs ps' ps Hp' Hp) in Hhead.
    discriminate Hhead.
Qed.

(** X30.  No route is shadowed by a route registered before it: a request with
    the method of a route, whose path has the shape of that route (its fixed
    segments, and a segment that is not empty for each parameter) and is
    not the path of a static file, reaches the handler of that route, with
    those segments as its parameters.  The parameters are taken without
    percent-escapes, which Express would decode first. *)
Theorem every_route_is_reachable E m pattern ep path segs ps :
  In (m, pattern, ep) routes ->
  path_segments path = Some segs ->
  match_path pattern segs = Some ps ->
  Forall (fun kv => contains "%" (snd kv) = false) ps ->
  (m = GET -> static_file E path = false) ->
  route E m path = Some (ep, ps).
Proof.
  intros Hin Hsegs Hmatch _ Hstatic. unfold route.
  assert (Hno : method_eqb m GET && static_file E path = false).
  { destruct m; try reflexivity. simpl. apply Hstatic. reflexivity. }
  rewrite Hno, Hsegs. cbn [mbind option_bind].
  rewrite (first_match_exact m pattern ep segs ps routes); [reflexivity | | exact Hin | exact Hmatch].
  reflexivity.
Qed.

Lemma every_route_is_reachable_witness :
  route sample_env PUT "/api/comments/1"
  = Some (ep_update_comment, [("comment_id", "1")]) /\
  route sample_env DELETE "/API/Likes/2/1/"
  = Some (ep_delete_like, [("user_id", "2"); ("post_id", "1")]).
Proof.
  split.
  - apply (every_route_is_reachable sample_env PUT
             [Lit "api"; Lit "comments"; Par "comment_id"] ep_update_comment
             "/api/comments/1" ["api"; "comments"; "1"]).
    + unfold routes. simpl. tauto.
    + reflexivity.
    + reflexivity.
    + repeat constructor.
    + discriminate.
  - apply (every_route_is_reachable sample_env DELETE
             [Lit "api"; Lit "likes"; Par "user_id"; Par "post_id"] ep_delete_like
             "/API/Likes/2/1/" ["API"; "Likes"; "2"; "1"]).
    + unfold routes. simpl. tauto.
    + reflexivity.
    + reflexivity.
    + repeat constructor.
    + discriminate.
Defined.

(** *** The store and the server *)

(** X6.  The server refuses what the store sends: the login handler reads
    [password_hash] and the store sends [password], so every login of the
    store is answered 400 [MISSING_REQUIRED_FIELDS]; the registration schema
    requires [username] and [password_hash], which the store does not send,
    so every registration of the store is answered 400 [VALIDATION_ERROR].
    Neither request touches the database. *)
Theorem store_requests_are_refused E now rnd d email password name :
  login E now (json_request (login_request_body email password)) d
  = (bad_request E now "Email and password are required" "MISSING_REQUIRED_FIELDS", d) /\
  register E now rnd (json_request (register_request_body email password name)) d
  = (validation_error E now, d).
Proof.
  split.
  - unfold login, login_request_body. cbv [try_catch bind destructure json_request
      request_of req_body ret].
    cbn [prop assoc String.eqb Ascii.eqb Bool.eqb truthy negb orb].
    rewrite orb_true_r. reflexivity.
  - unfold register. cbv [try_catch bind parse]. reflexivity.
Qed.

End ServerFacts.
